(** * CEE course-scheduling conflict calculator

    A shallow embedding of [conflict_engine.py] (the conflict predicates
    and [calculate_conflicts]) and of the [/conflicts] endpoint of
    [app.py], together with the properties the specification states
    about them.

    Conventions of the embedding:
    - Python [str] is [string]; only ASCII text is modelled.
    - Python [int] is [Z] (unbounded).
    - A pandas DataFrame is the list of its rows, each row a record.
    - A raised exception is the left injection of [exn + A].
    - Python [dict]s whose iteration order is observable are association
      lists in insertion order; the course lookup, of which only lookups
      are observable, is a [gmap]; Python [set]s are [gset]s.
    - Python [float] arithmetic is a parameter of the engine (section
      [Engine]); [Binary64] instantiates it with IEEE 754 binary64, the
      floats of the interpreter, and [Exact] with the rationals.
    - Table cells are never missing: no NaN or None among the strings. *)

From Stdlib Require Import ZArith List String Ascii Bool Lia.
From Stdlib Require Import Sorting.Sorted.
From Stdlib Require Floats.PrimFloat Floats.SpecFloat Floats.FloatOps Floats.FloatAxioms.
From Stdlib Require Import QArith Qcanon.
From stdpp Require Import base gmap strings list.

Local Open Scope Z_scope.
Local Open Scope string_scope.

(** ** Exceptions *)

Inductive exn : Set :=
| ValueError
| IndexError
| ZeroDivisionError.

Definition ok {A} (a : A) : exn + A := inr a.
Definition raise {A} (e : exn) : exn + A := inl e.

Definition bind {A B} (m : exn + A) (k : A -> exn + B) : exn + B :=
  match m with
  | inl e => inl e
  | inr a => k a
  end.

Notation "'let*' x ':=' m 'in' k" := (bind m (fun x => k))
  (at level 10, x pattern, m at level 100, k at level 200).

(** The exception a computation raised, if any. *)
Definition fault {A} (x : exn + A) : option exn :=
  match x with
  | inl e => Some e
  | inr _ => None
  end.

(** ** Python string primitives used by the engine *)

Module Py.

(** [s.split(':')] *)
Fixpoint split_colon (s : string) : list string :=
  match s with
  | EmptyString => [EmptyString]
  | String c s' =>
      if Ascii.eqb c ":" then EmptyString :: split_colon s'
      else match split_colon s' with
           | p :: ps => String c p :: ps
           | [] => [String c EmptyString]
           end
  end.

(** The characters [int()] skips around a literal: TAB..CR, FS..US
    and the space. *)
Definition is_space (c : ascii) : bool :=
  let n := nat_of_ascii c in
  ((9 <=? n) && (n <=? 13) || (28 <=? n) && (n <=? 32))%nat.

Fixpoint lstrip (s : string) : string :=
  match s with
  | String c s' => if is_space c then lstrip s' else s
  | EmptyString => EmptyString
  end.

Fixpoint rev_onto (s acc : string) : string :=
  match s with
  | EmptyString => acc
  | String c s' => rev_onto s' (String c acc)
  end.

Definition strip (s : string) : string :=
  rev_onto (lstrip (rev_onto (lstrip s) EmptyString)) EmptyString.

Definition digit_val (c : ascii) : option Z :=
  let n := nat_of_ascii c in
  if ((48 <=? n) && (n <=? 57))%nat then Some (Z.of_nat (n - 48)) else None.

(** Decimal digits, single underscores allowed between two digits.
    [prev] tells whether the previous character was a digit. *)
Fixpoint digits (acc : Z) (prev : bool) (s : string) : option Z :=
  match s with
  | EmptyString => if prev then Some acc else None
  | String c s' =>
      match digit_val c with
      | Some d => digits (10 * acc + d) true s'
      | None => if Ascii.eqb c "_" && prev then digits acc false s' else None
      end
  end.

(** [int(s)] for a [str] argument: optional surrounding whitespace, an
    optional sign, decimal digits.  The interpreter's configurable cap
    on the number of digits is not modelled. *)
Definition int (s : string) : exn + Z :=
  let body := strip s in
  let r := match body with
           | String "+" t => digits 0 false t
           | String "-" t => Z.opp <$> digits 0 false t
           | _ => digits 0 false body
           end in
  match r with
  | Some z => ok z
  | None => raise ValueError
  end.

(** [sorted([a, b])] on two strings: [b] moves to the front only when
    [b < a]. *)
Definition sorted_pair (a b : string) : string * string :=
  if String.ltb b a then (b, a) else (a, b).

(** [list(series.unique())]: distinct values in order of first
    appearance. *)
Fixpoint unique (l : list string) : list string :=
  match l with
  | [] => []
  | x :: l' => x :: filter (fun y => y <> x) (unique l')
  end.

End Py.

(** ** The conflict predicates *)

(** [day_patterns_conflict]: the two patterns, seen as sets of
    characters, share a character. *)
Definition day_patterns_conflict (pattern1 pattern2 : string) : bool :=
  let days1 : gset ascii := list_to_set (list_ascii_of_string pattern1) in
  let days2 : gset ascii := list_to_set (list_ascii_of_string pattern2) in
  bool_decide (0 < size (days1 ∩ days2))%nat.

(** The local helper [time_to_minutes] of [times_overlap]: the unpacking
    [h, m = map(int, ...)] needs exactly two parts, each an integer
    literal; every failure is a [ValueError]. *)
Definition time_to_minutes (time_str : string) : exn + Z :=
  match Py.split_colon time_str with
  | [hs; ms] =>
      let* h := Py.int hs in
      let* m := Py.int ms in
      ok (h * 60 + m)
  | _ => raise ValueError
  end.

(** [times_overlap]: all four times are converted before the comparison. *)
Definition times_overlap (start1 end1 start2 end2 : string) : exn + bool :=
  let* s1 := time_to_minutes start1 in
  let* e1 := time_to_minutes end1 in
  let* s2 := time_to_minutes start2 in
  let* e2 := time_to_minutes end2 in
  ok (Z.ltb s1 e2 && Z.ltb s2 e1).

(** The value stored per course in [course_to_offering]; it is the
    dictionary [offerings_conflict] receives. *)
Record offering : Set := {
  day_pattern : string;
  start_time : string;
  end_time : string;
  term : string
}.

Definition offerings_conflict (offering1 offering2 : offering) : exn + bool :=
  if negb (day_patterns_conflict (day_pattern offering1) (day_pattern offering2))
  then ok false
  else times_overlap (start_time offering1) (end_time offering1)
                     (start_time offering2) (end_time offering2).

(** ** Python floats

    The engine touches floats through seven operations only.  They are
    kept as an interface, so that what is proved of the engine without
    further assumption holds of IEEE 754 binary64 as of any other
    arithmetic, and so that every arithmetic law a proof relies on is
    visible as a hypothesis. *)
Class PyFloat : Type := {
  float : Type;
  (** the literal [0.0] *)
  fzero : float;
  (** [x + y] and [x * y] on floats *)
  fadd : float -> float -> float;
  fmul : float -> float -> float;
  (** [x < y], the only comparison [sorted] performs on its keys *)
  flt : float -> float -> bool;
  (** the conversion of an [int] operand in mixed arithmetic *)
  of_int : Z -> float;
  (** [a / b] on two [int]s with [b] non-zero *)
  truediv : Z -> Z -> float;
  (** [round(x, ndigits)] *)
  round : Z -> float -> float
}.

(** ** Rows of the three input tables *)

Module Schedule.
Record row : Set := {
  course_code : string;
  day_pattern : string;
  start_time : string;
  end_time : string;
  term : string
}.
End Schedule.

Module Plan.
Record row {F : PyFloat} : Type := {
  student_id : string;
  course_code : string;
  term : string;
  likelihood : float;
  path_type : string
}.
End Plan.

(** The cells of a roster row are strings: a roster with a missing
    [path_type], which pandas reads as a NaN equal to nothing, is
    outside the model. *)
Module Student.
Record row : Set := {
  student_id : string;
  name : string;
  year : string;
  path_type : string
}.
End Student.

(** ** Insertion-ordered dictionaries *)

Section Dict.
Context {K V : Type} `{EqDecision K}.

Fixpoint dict_get (d : list (K * V)) (k : K) : option V :=
  match d with
  | [] => None
  | (k', v) :: d' => if decide (k = k') then Some v else dict_get d' k
  end.

(** [d[k] = v]: an existing key keeps its position, a new key goes last. *)
Fixpoint dict_set (d : list (K * V)) (k : K) (v : V) : list (K * V) :=
  match d with
  | [] => [(k, v)]
  | (k', v') :: d' =>
      if decide (k = k') then (k, v) :: d' else (k', v') :: dict_set d' k v
  end.

(** [if k not in d: d[k] = v] *)
Definition dict_setdefault (d : list (K * V)) (k : K) (v : V) : list (K * V) :=
  match dict_get d k with
  | Some _ => d
  | None => dict_set d k v
  end.

(** In-place update of the value stored under a key that is present. *)
Fixpoint dict_update (f : V -> V) (d : list (K * V)) (k : K) : list (K * V) :=
  match d with
  | [] => []
  | (k', v) :: d' =>
      if decide (k = k') then (k', f v) :: d' else (k', v) :: dict_update f d' k
  end.

End Dict.

(** ** The result of [calculate_conflicts] *)

(** [conflict_rate] of a path entry is a float, or the [int] literal [0]
    of the guarded branch. *)
Inductive number {F : PyFloat} : Type :=
| Int (z : Z)
| Float (x : float).

Module PathEntry.
Record t {F : PyFloat} : Type := {
  path_type : string;
  expected_conflicts : float;
  students_with_conflict : Z;
  total_students_in_path : Z;
  conflict_rate : number
}.
End PathEntry.

Module PairEntry.
Record t {F : PyFloat} : Type := {
  course_a : string;
  course_b : string;
  expected_conflicts : float
}.
End PairEntry.

Module CourseEntry.
Record t {F : PyFloat} : Type := {
  course_code : string;
  conflict_score : float
}.
End CourseEntry.

Module Metrics.
Record t {F : PyFloat} : Type := {
  expected_conflicts_all : float;
  students_with_conflict : Z;
  conflict_rate_overall : float;
  by_path_type : list PathEntry.t;
  top_conflicting_pairs : list PairEntry.t;
  top_conflicting_courses : list CourseEntry.t
}.
End Metrics.

Module Result.
Record t {F : PyFloat} : Type := {
  term : list string;
  total_students : Z;
  courses_in_schedule : Z;
  metrics : Metrics.t
}.
End Result.

(** ** The engine *)

Section Engine.
Context {F : PyFloat}.

(** [len(x)] *)
Definition len {A} (l : list A) : Z := Z.of_nat (length l).

(** [sorted(l, key=key, reverse=True)]: a stable sort into descending
    key order that compares keys with [<] only.  The insertion below is
    what every stable sort computes when [<] is a strict weak order on
    the keys present, that is, in binary64, when no key is NaN.  With a
    NaN among the keys the outcome of [list.sort] depends on the runs it
    detects and is modelled only where the list is a single run, no key
    being less than the next: both leave such a list as it is
    ([sorted_desc_single_run]). *)
Fixpoint insert_desc {A} (key : A -> float) (x : A) (l : list A) : list A :=
  match l with
  | [] => [x]
  | y :: l' =>
      if flt (key x) (key y) then y :: insert_desc key x l' else x :: y :: l'
  end.

Definition sorted_desc {A} (key : A -> float) (l : list A) : list A :=
  foldr (insert_desc key) [] l.

(** The value of [conflicts_by_path[path_type]]. *)
Record path_metrics : Type := {
  pm_expected_conflicts : float;
  pm_students_with_conflict : gset string
}.

(** The five accumulators of the student loop. *)
Record accumulators : Type := {
  total_expected_conflicts : float;
  students_with_conflict : gset string;
  conflicts_by_path : list (string * path_metrics);
  conflicts_by_course : list (string * float);
  conflicts_by_pair : list ((string * string) * float)
}.

Definition initial : accumulators :=
  {| total_expected_conflicts := fzero;
     students_with_conflict := ∅;
     conflicts_by_path := [];
     conflicts_by_course := [];
     conflicts_by_pair := [] |}.

(** An element of [student_scheduled_courses]. *)
Record scheduled_course : Type := {
  sc_course_code : string;
  sc_likelihood : float;
  sc_offering : offering
}.

(** [if k not in d: d[k] = 0.0] followed by [d[k] += w] *)
Definition add_score {K} `{EqDecision K}
    (d : list (K * float)) (k : K) (w : float) : list (K * float) :=
  dict_update (fun v => fadd v w) (dict_setdefault d k fzero) k.

(** The body of the [if offerings_conflict(...)] of the pair loop. *)
Definition record_conflict (path_type : string) (course1 course2 : scheduled_course)
    (a : accumulators) : accumulators :=
  let conflict_weight := fmul (sc_likelihood course1) (sc_likelihood course2) in
  let by_course :=
    add_score (add_score (conflicts_by_course a) (sc_course_code course1) conflict_weight)
              (sc_course_code course2) conflict_weight in
  let pair := Py.sorted_pair (sc_course_code course1) (sc_course_code course2) in
  {| total_expected_conflicts := fadd (total_expected_conflicts a) conflict_weight;
     students_with_conflict := students_with_conflict a;
     conflicts_by_path :=
       dict_update
         (fun m => {| pm_expected_conflicts := fadd (pm_expected_conflicts m) conflict_weight;
                      pm_students_with_conflict := pm_students_with_conflict m |})
         (conflicts_by_path a) path_type;
     conflicts_by_course := by_course;
     conflicts_by_pair := add_score (conflicts_by_pair a) pair conflict_weight |}.

(** The inner loop [for course2 in student_scheduled_courses[i+1:]];
    the boolean is [student_has_conflict]. *)
Fixpoint scan_against (path_type : string) (course1 : scheduled_course)
    (rest : list scheduled_course) (st : accumulators * bool)
    : exn + (accumulators * bool) :=
  match rest with
  | [] => ok st
  | course2 :: rest' =>
      let* c := offerings_conflict (sc_offering course1) (sc_offering course2) in
      scan_against path_type course1 rest'
        (if c then (record_conflict path_type course1 course2 (fst st), true) else st)
  end.

(** The outer loop [for i, course1 in enumerate(student_scheduled_courses)]. *)
Fixpoint scan_pairs (path_type : string) (courses : list scheduled_course)
    (st : accumulators * bool) : exn + (accumulators * bool) :=
  match courses with
  | [] => ok st
  | course1 :: rest =>
      let* st' := scan_against path_type course1 rest st in
      scan_pairs path_type rest st'
  end.

(** [student_scheduled_courses]: the plan rows whose course is in the
    lookup, each with the offering found there. *)
Definition scheduled_courses (course_to_offering : gmap string offering)
    (student_courses : list Plan.row) : list scheduled_course :=
  flat_map
    (fun plan_row =>
       match course_to_offering !! Plan.course_code plan_row with
       | Some o => [ {| sc_course_code := Plan.course_code plan_row;
                        sc_likelihood := Plan.likelihood plan_row;
                        sc_offering := o |} ]
       | None => []
       end)
    student_courses.

(** [df[mask].iloc[0]]: the first selected row, [IndexError] when the
    selection is empty. *)
Definition iloc0 {A} (selection : list A) : exn + A :=
  match selection with
  | [] => raise IndexError
  | r :: _ => ok r
  end.

(** One iteration of [for student_id in plans['student_id'].unique()]. *)
Definition scan_student (course_to_offering : gmap string offering)
    (plans : list Plan.row) (students_df : list Student.row)
    (a : accumulators) (student_id : string) : exn + accumulators :=
  let student_courses := filter (fun p => Plan.student_id p = student_id) plans in
  let* student_info :=
    iloc0 (filter (fun s => Student.student_id s = student_id) students_df) in
  let path_type := Student.path_type student_info in
  let a1 :=
    {| total_expected_conflicts := total_expected_conflicts a;
       students_with_conflict := students_with_conflict a;
       conflicts_by_path :=
         dict_setdefault (conflicts_by_path a) path_type
           {| pm_expected_conflicts := fzero; pm_students_with_conflict := ∅ |};
       conflicts_by_course := conflicts_by_course a;
       conflicts_by_pair := conflicts_by_pair a |} in
  let student_scheduled_courses := scheduled_courses course_to_offering student_courses in
  let* (a2, student_has_conflict) :=
    scan_pairs path_type student_scheduled_courses (a1, false) in
  ok (if student_has_conflict : bool then
        {| total_expected_conflicts := total_expected_conflicts a2;
           students_with_conflict := {[ student_id ]} ∪ students_with_conflict a2;
           conflicts_by_path :=
             dict_update
               (fun m => {| pm_expected_conflicts := pm_expected_conflicts m;
                            pm_students_with_conflict :=
                              {[ student_id ]} ∪ pm_students_with_conflict m |})
               (conflicts_by_path a2) path_type;
           conflicts_by_course := conflicts_by_course a2;
           conflicts_by_pair := conflicts_by_pair a2 |}
      else a2).

(** The student loop. *)
Fixpoint scan_students (course_to_offering : gmap string offering)
    (plans : list Plan.row) (students_df : list Student.row)
    (student_ids : list string) (a : accumulators) : exn + accumulators :=
  match student_ids with
  | [] => ok a
  | student_id :: ids =>
      let* a' := scan_student course_to_offering plans students_df a student_id in
      scan_students course_to_offering plans students_df ids a'
  end.

(** One element of [by_path_list]. *)
Definition format_path (students_df : list Student.row)
    (item : string * path_metrics) : PathEntry.t :=
  let (path_type, metrics) := item in
  let total_in_path :=
    len (filter (fun s => Student.path_type s = path_type) students_df) in
  let n := Z.of_nat (size (pm_students_with_conflict metrics)) in
  {| PathEntry.path_type := path_type;
     PathEntry.expected_conflicts := round 2 (pm_expected_conflicts metrics);
     PathEntry.students_with_conflict := n;
     PathEntry.total_students_in_path := total_in_path;
     PathEntry.conflict_rate :=
       if Z.ltb 0 total_in_path
       then Float (round 1 (fmul (truediv n total_in_path) (of_int 100)))
       else Int 0 |}.

Definition format_pair (item : (string * string) * float) : PairEntry.t :=
  let '((a, b), weight) := item in
  {| PairEntry.course_a := a;
     PairEntry.course_b := b;
     PairEntry.expected_conflicts := round 2 weight |}.

Definition format_course (item : string * float) : CourseEntry.t :=
  let (course, score) := item in
  {| CourseEntry.course_code := course;
     CourseEntry.conflict_score := round 2 score |}.

(** [sorted(d.items(), key=lambda x: x[1], reverse=True)[:10]] *)
Definition top10 {K} (d : list (K * float)) : list (K * float) :=
  take 10 (sorted_desc snd d).

(** The dictionary stored for a schedule row. *)
Definition offering_of_row (row : Schedule.row) : offering :=
  {| day_pattern := Schedule.day_pattern row;
     start_time := Schedule.start_time row;
     end_time := Schedule.end_time row;
     term := Schedule.term row |}.

(** [course_to_offering], built by the loop over
    [schedule_df.iterrows()]: every row overwrites the entry of its
    course code. *)
Definition build_lookup (schedule_df : list Schedule.row) : gmap string offering :=
  fold_left
    (fun course_to_offering row =>
       <[ Schedule.course_code row := offering_of_row row ]> course_to_offering)
    schedule_df ∅.

(** The plan rows kept by the [isin] filter on the schedule's terms. *)
Definition plans_in_terms (schedule_df : list Schedule.row)
    (student_plans_df : list Plan.row) : list Plan.row :=
  let terms_in_schedule := Py.unique (map Schedule.term schedule_df) in
  filter (fun p => Plan.term p ∈ terms_in_schedule) student_plans_df.

(** The accumulators after the student loop. *)
Definition student_scan (schedule_df : list Schedule.row)
    (student_plans_df : list Plan.row) (students_df : list Student.row)
    : exn + accumulators :=
  let plans := plans_in_terms schedule_df student_plans_df in
  scan_students (build_lookup schedule_df) plans students_df
    (Py.unique (map Plan.student_id plans)) initial.

(** [len(a) / len(b)] on two [int]s. *)
Definition int_truediv (a b : Z) : exn + float :=
  if Z.eqb b 0 then raise ZeroDivisionError else ok (truediv a b).

Definition calculate_conflicts (schedule_df : list Schedule.row)
    (student_plans_df : list Plan.row) (students_df : list Student.row)
    : exn + Result.t :=
  let terms_in_schedule := Py.unique (map Schedule.term schedule_df) in
  let* a := student_scan schedule_df student_plans_df students_df in
  let by_path_list := map (format_path students_df) (conflicts_by_path a) in
  let top_pairs_formatted := map format_pair (top10 (conflicts_by_pair a)) in
  let top_courses_formatted := map format_course (top10 (conflicts_by_course a)) in
  let n := Z.of_nat (size (students_with_conflict a)) in
  let* ratio := int_truediv n (len students_df) in
  ok {| Result.term := terms_in_schedule;
        Result.total_students := len students_df;
        Result.courses_in_schedule := len schedule_df;
        Result.metrics :=
          {| Metrics.expected_conflicts_all := round 2 (total_expected_conflicts a);
             Metrics.students_with_conflict := n;
             Metrics.conflict_rate_overall := round 1 (fmul ratio (of_int 100));
             Metrics.by_path_type := sorted_desc PathEntry.expected_conflicts by_path_list;
             Metrics.top_conflicting_pairs := top_pairs_formatted;
             Metrics.top_conflicting_courses := top_courses_formatted |} |}.

(** The [/conflicts] endpoint of [app.py]; [student_plans] and
    [students] are the tables loaded at start-up. *)
Definition compute_conflicts (student_plans : list Plan.row)
    (students : list Student.row) (schedule : list Schedule.row) : exn + Result.t :=
  match schedule with
  | [] =>
      ok {| Result.term := [];
            Result.total_students := len students;
            Result.courses_in_schedule := 0;
            Result.metrics :=
              {| Metrics.expected_conflicts_all := fzero;
                 Metrics.students_with_conflict := 0;
                 Metrics.conflict_rate_overall := fzero;
                 Metrics.by_path_type := [];
                 Metrics.top_conflicting_pairs := [];
                 Metrics.top_conflicting_courses := [] |} |}
  | _ => calculate_conflicts schedule student_plans students
  end.

(** [sum(values)] of a list of floats, from the left. *)
Definition fsum (l : list float) : float := fold_left fadd l fzero.

End Engine.

(** ** Decimal rounding *)

(** The integer nearest to [n / d] for [d > 0], ties to even. *)
Definition nearest_even (n d : Z) : Z :=
  let q := Z.div n d in
  match Z.compare (2 * Z.modulo n d) d with
  | Lt => q
  | Gt => q + 1
  | Eq => if Z.even q then q else q + 1
  end.

(** ** IEEE 754 binary64, the floats of the interpreter *)

Module Binary64.

(** An integer as an exact, unnormalised specification float. *)
Definition Z2SF (z : Z) : SpecFloat.spec_float :=
  match z with
  | Z0 => SpecFloat.S754_zero false
  | Zpos p => SpecFloat.S754_finite false p 0
  | Zneg p => SpecFloat.S754_finite true p 0
  end.

(** [float(z)]: the nearest binary64 value, ties to even. *)
Definition of_Z (z : Z) : PrimFloat.float :=
  FloatOps.SF2Prim (SpecFloat.binary_normalize FloatOps.prec FloatOps.emax z 0 false).

(** The correctly rounded quotient of two integers, as [int.__truediv__]
    computes it. *)
Definition div_Z (a b : Z) : PrimFloat.float :=
  FloatOps.SF2Prim (SpecFloat.SFdiv FloatOps.prec FloatOps.emax (Z2SF a) (Z2SF b)).

(** [round(x, ndigits)] for [ndigits >= 0]: the exact value of [x] is
    rounded to [ndigits] decimals, ties to even, and the decimal so
    obtained is converted back to the nearest binary64 value.  Zeros,
    infinities, NaN and integral values are returned unchanged. *)
Definition py_round (ndigits : Z) (x : PrimFloat.float) : PrimFloat.float :=
  match FloatOps.Prim2SF x with
  | SpecFloat.S754_finite s m e =>
      if Z.leb 0 e then x
      else
        let p := 10 ^ ndigits in
        let n := nearest_even (Zpos m * p) (2 ^ (- e)) in
        let q := SpecFloat.SFdiv FloatOps.prec FloatOps.emax (Z2SF n) (Z2SF p) in
        FloatOps.SF2Prim (if s then SpecFloat.SFopp q else q)
  | _ => x
  end.


(** Every binary64 value but NaN. *)
Definition not_nan (x : PrimFloat.float) : Prop :=
  FloatOps.Prim2SF x <> SpecFloat.S754_nan.



#[global] Instance binary64 : PyFloat := {|
  float := PrimFloat.float;
  fzero := PrimFloat.zero;
  fadd := PrimFloat.add;
  fmul := PrimFloat.mul;
  flt := PrimFloat.ltb;
  of_int := of_Z;
  truediv := div_Z;
  round := py_round
|}.

End Binary64.

(** ** Exact arithmetic

    The rationals, with [round] the exact rounding to a number of
    decimals, ties to even: the arithmetic in which likelihoods are the
    real numbers of the specification and no operation rounds. *)

Module Exact.

Definition lt (x y : Qc) : bool := bool_decide (Qclt x y).

Definition of_Z (z : Z) : Qc := Q2Qc (inject_Z z).

Definition div_Z (a b : Z) : Qc := Q2Qc (Qdiv (inject_Z a) (inject_Z b)).

Definition round_decimal (ndigits : Z) (x : Qc) : Qc :=
  let p := 10 ^ ndigits in
  Q2Qc (Qmake (nearest_even (Qnum x * p) (Zpos (Qden x))) (Z.to_pos p)).

Definition rationals : PyFloat := {|
  float := Qc;
  fzero := Q2Qc 0;
  fadd := Qcplus;
  fmul := Qcmult;
  flt := lt;
  of_int := of_Z;
  truediv := div_Z;
  round := round_decimal
|}.

End Exact.



(** ** Vocabulary of the specification *)

#[global] Instance exn_eq_dec : EqDecision exn.
Proof. solve_decision. Defined.

(** The four valid day patterns and the strings that denote them. *)
Inductive pattern : Set := MW | WF | MF | TR.

Definition code (p : pattern) : string :=
  match p with
  | MW => "MW"
  | WF => "WF"
  | MF => "MF"
  | TR => "TR"
  end.

(** The weekdays, and the day-set of each pattern as the specification
    lists them: MW is {M,W}, WF is {W,F}, MF is {M,F}, TR is {T,R}. *)
Inductive day : Set := Mon | Tue | Wed | Thu | Fri.

Definition spec_days (p : pattern) : list day :=
  match p with
  | MW => [Mon; Wed]
  | WF => [Wed; Fri]
  | MF => [Mon; Fri]
  | TR => [Tue; Thu]
  end.

(** A time of day written HH:MM, both fields on two decimal digits. *)
Definition digit (n : nat) : ascii := ascii_of_nat (48 + n mod 10).

Definition two_digits (n : nat) : string :=
  String (digit (n / 10)) (String (digit n) EmptyString).

Definition hhmm (h m : nat) : string :=
  two_digits h ++ ":" ++ two_digits m.

(** Minutes since midnight of the time [h]:[m]. *)
Definition minutes (h m : nat) : Z := Z.of_nat h * 60 + Z.of_nat m.

(** An offering whose two times convert. *)
Definition well_timed (o : offering) : Prop :=
  (exists s, time_to_minutes (start_time o) = inr s)
  /\ (exists e, time_to_minutes (end_time o) = inr e).

(** The number of colons of a string. *)
Fixpoint colons (s : string) : nat :=
  match s with
  | EmptyString => 0
  | String c s' => (if Ascii.eqb c ":" then 1 else 0) + colons s'
  end.

(** One of the four times of two offerings does not convert. *)
Definition some_time_malformed (o1 o2 : offering) : Prop :=
  Exists (fun t => time_to_minutes t = inl ValueError)
    [start_time o1; end_time o1; start_time o2; end_time o2].

(** ** Conflicted students

    The vocabulary of the claims on cohorts: which student the scan
    finds in conflict, and to which path the roster assigns a student. *)

Section Cohorts.
Context {F : PyFloat}.

(** [course1] conflicts with one of the courses after it. *)
Definition conflicts_with (course1 : scheduled_course) (rest : list scheduled_course) : bool :=
  existsb
    (fun course2 =>
       match offerings_conflict (sc_offering course1) (sc_offering course2) with
       | inr true => true
       | _ => false
       end)
    rest.

(** Some pair [i < j] of the list conflicts. *)
Fixpoint any_conflict (courses : list scheduled_course) : bool :=
  match courses with
  | [] => false
  | course1 :: rest => conflicts_with course1 rest || any_conflict rest
  end.

(** The student has two planned courses, both in the schedule, whose
    offerings conflict. *)
Definition conflicted (schedule_df : list Schedule.row)
    (student_plans_df : list Plan.row) (student_id : string) : bool :=
  any_conflict
    (scheduled_courses (build_lookup schedule_df)
       (filter (fun p => Plan.student_id p = student_id)
          (plans_in_terms schedule_df student_plans_df))).

(** The [path_type] of the first roster row of the student. *)
Definition path_of (students_df : list Student.row) (student_id : string) : option string :=
  Student.path_type <$> head (filter (fun s => Student.student_id s = student_id) students_df).

(** The distinct students with a kept plan row that are in conflict and
    belong to the path. *)
Definition conflicted_in_path (schedule_df : list Schedule.row)
    (student_plans_df : list Plan.row) (students_df : list Student.row)
    (path_type : string) : list string :=
  filter
    (fun sid => conflicted schedule_df student_plans_df sid = true
                /\ path_of students_df sid = Some path_type)
    (Py.unique (map Plan.student_id (plans_in_terms schedule_df student_plans_df))).

(** The distinct students with a kept plan row that are in conflict. *)
Definition conflicted_students (schedule_df : list Schedule.row)
    (student_plans_df : list Plan.row) : list string :=
  filter (fun sid => conflicted schedule_df student_plans_df sid = true)
    (Py.unique (map Plan.student_id (plans_in_terms schedule_df student_plans_df))).

(** The students recorded under each path, in the order of the
    dictionary. *)
Definition path_sets (a : accumulators) : list (string * gset string) :=
  map (prod_map id pm_students_with_conflict) (conflicts_by_path a).

(** What the loop maintains about students once the identifiers [done]
    have been processed: [S] is the set of conflicted students, [ps] maps
    each path met so far to its conflicted students. *)
Definition cohort_inv (conf : string -> bool) (path : string -> option string)
    (done : list string) (S : gset string) (ps : list (string * gset string)) : Prop :=
  S = list_to_set (filter (fun x => conf x = true) done)
  /\ NoDup (map fst ps)
  /\ (forall q s, (q, s) ∈ ps ->
                  s = list_to_set (filter (fun x => conf x = true /\ path x = Some q) done))
  /\ (forall x, x ∈ done -> exists q, path x = Some q /\ q ∈ map fst ps).

(** The accounting identity of the accumulators: the course buckets
    add up to the global total counted twice. *)
Definition balanced (a : accumulators) : Prop :=
  fsum (map snd (conflicts_by_course a))
  = fadd (total_expected_conflicts a) (total_expected_conflicts a).

(** The expected conflicts kept under a path. *)
Definition path_score (x : string * path_metrics) : float := pm_expected_conflicts (snd x).

(** The other two breakdowns against the global total: the pair
    buckets, and the expected conflicts kept under the paths. *)
Definition adds_up (a : accumulators) : Prop :=
  fsum (map snd (conflicts_by_pair a)) = total_expected_conflicts a
  /\ fsum (map path_score (conflicts_by_path a)) = total_expected_conflicts a.

(** Nothing recorded yet: zero total, no bucket, no student, and only
    zero entries under the paths. *)
Definition quiet (a : accumulators) : Prop :=
  total_expected_conflicts a = fzero
  /\ students_with_conflict a = ∅
  /\ conflicts_by_course a = []
  /\ conflicts_by_pair a = []
  /\ Forall (fun x => snd x = {| pm_expected_conflicts := fzero;
                                 pm_students_with_conflict := ∅ |})
       (conflicts_by_path a).

(** What a pair key looks like: two course codes in order. *)
Definition ordered_pair (k : string * string) : Prop := String.ltb (snd k) (fst k) = false.

(** The keys a scan keeps: distinct course codes, all from [codes],
    and distinct ordered pairs of such codes. *)
Definition keys_inv (codes : string -> Prop) (a : accumulators) : Prop :=
  NoDup (map fst (conflicts_by_course a))
  /\ Forall codes (map fst (conflicts_by_course a))
  /\ NoDup (map fst (conflicts_by_pair a))
  /\ Forall (fun k => ordered_pair k /\ codes (fst k) /\ codes (snd k))
       (map fst (conflicts_by_pair a)).

(** A course code borne by a schedule row and by a kept plan row. *)
Definition scheduled_and_planned (schedule_df : list Schedule.row)
    (student_plans_df : list Plan.row) (c : string) : Prop :=
  (exists r, r ∈ schedule_df /\ Schedule.course_code r = c)
  /\ (exists p, p ∈ plans_in_terms schedule_df student_plans_df /\ Plan.course_code p = c).

(** A plan row with another [path_type], another [likelihood]. *)
Definition with_path (g : Plan.row -> string) (p : Plan.row) : Plan.row :=
  {| Plan.student_id := Plan.student_id p;
     Plan.course_code := Plan.course_code p;
     Plan.term := Plan.term p;
     Plan.likelihood := Plan.likelihood p;
     Plan.path_type := g p |}.

Definition with_likelihood (g : Plan.row -> float) (p : Plan.row) : Plan.row :=
  {| Plan.student_id := Plan.student_id p;
     Plan.course_code := Plan.course_code p;
     Plan.term := Plan.term p;
     Plan.likelihood := g p;
     Plan.path_type := Plan.path_type p |}.

(** What an entry of [by_path_type] says about students. *)
Definition head_count (e : PathEntry.t) : string * Z * Z * number :=
  (PathEntry.path_type e, PathEntry.students_with_conflict e,
   PathEntry.total_students_in_path e, PathEntry.conflict_rate e).

(** The keys of the two score dictionaries of [a] are among those of
    [a']. *)
Definition grows (a a' : accumulators) : Prop :=
  map fst (conflicts_by_pair a) ⊆ map fst (conflicts_by_pair a')
  /\ map fst (conflicts_by_course a) ⊆ map fst (conflicts_by_course a').

(** The pair and its two courses have their buckets. *)
Definition recorded (c1 c2 : string) (a : accumulators) : Prop :=
  Py.sorted_pair c1 c2 ∈ map fst (conflicts_by_pair a)
  /\ c1 ∈ map fst (conflicts_by_course a)
  /\ c2 ∈ map fst (conflicts_by_course a).

(** The sum of a list of integers. *)
Definition zsum (l : list Z) : Z := foldr Z.add 0 l.

End Cohorts.

(** A list ranked by [score]: no element scores less than a later one. *)
Definition non_increasing {F : PyFloat} {A} (score : A -> float) (l : list A) : Prop :=
  StronglySorted (fun x y => flt (score x) (score y) = false) l.

(** Rounding to [n] decimals reverses the order of no two values of
    the list. *)
Definition round_keeps_order {F : PyFloat} (n : Z) (l : list float) : Prop :=
  forall x y, x ∈ l -> y ∈ l -> flt x y = false -> flt (round n x) (round n y) = false.

(** ** Sample tables

    One term, a few offerings, and rows built from them, in binary64
    and in exact arithmetic. *)

Module Example.

Definition slot (c d s e : string) : Schedule.row :=
  {| Schedule.course_code := c; Schedule.day_pattern := d;
     Schedule.start_time := s; Schedule.end_time := e;
     Schedule.term := "2026FA" |}.

Definition plan (sid c : string) (l : PrimFloat.float) : @Plan.row Binary64.binary64 :=
  {| Plan.student_id := sid; Plan.course_code := c; Plan.term := "2026FA";
     Plan.likelihood := l; Plan.path_type := "Structures" |}.

Definition student (sid path : string) : Student.row :=
  {| Student.student_id := sid; Student.name := sid; Student.year := "JR";
     Student.path_type := path |}.

(** The decimal literal [n / 10^k] as the interpreter reads it: the
    nearest binary64 value. *)
Definition dec (n : Z) (k : Z) : PrimFloat.float := Binary64.div_Z n (10 ^ k).

(** Two overlapping Monday-Wednesday offerings. *)
Definition two_courses : list Schedule.row :=
  [slot "ECI 130" "MW" "10:00" "11:00"; slot "ECI 135" "MW" "10:30" "11:30"].

(** Three offerings that conflict pairwise. *)
Definition three_courses : list Schedule.row :=
  [slot "A" "MW" "10:00" "11:00"; slot "B" "MW" "10:30" "11:30";
   slot "C" "WF" "10:00" "12:00"].

Definition roster : list Student.row :=
  [student "s1" "Structures"; student "s2" "Water"].

(** One student planning both courses of [two_courses], with
    likelihoods 0.8 and 0.5. *)
Definition overlap_plans : list Plan.row :=
  [plan "s1" "ECI 130" (dec 8 1); plan "s1" "ECI 135" (dec 5 1)].

(** The entry [calculate_conflicts] reports for the path of that
    student. *)
Definition structures_entry : PathEntry.t :=
  {| PathEntry.path_type := "Structures";
     PathEntry.expected_conflicts := dec 4 1;
     PathEntry.students_with_conflict := 1;
     PathEntry.total_students_in_path := 1;
     PathEntry.conflict_rate := Float (Binary64.of_Z 100) |}.

(** The result of [calculate_conflicts] on [two_courses],
    [overlap_plans] and [roster]. *)
Definition overlap_result : Result.t :=
  {| Result.term := ["2026FA"];
     Result.total_students := 2;
     Result.courses_in_schedule := 2;
     Result.metrics :=
       {| Metrics.expected_conflicts_all := dec 4 1;
          Metrics.students_with_conflict := 1;
          Metrics.conflict_rate_overall := Binary64.of_Z 50;
          Metrics.by_path_type := [structures_entry];
          Metrics.top_conflicting_pairs :=
            [ {| PairEntry.course_a := "ECI 130";
                 PairEntry.course_b := "ECI 135";
                 PairEntry.expected_conflicts := dec 4 1 |} ];
          Metrics.top_conflicting_courses :=
            [ {| CourseEntry.course_code := "ECI 130";
                 CourseEntry.conflict_score := dec 4 1 |};
              {| CourseEntry.course_code := "ECI 135";
                 CourseEntry.conflict_score := dec 4 1 |} ] |} |}.

(** The same in exact arithmetic: one student plans the three courses
    of [three_courses] with likelihoods 1/2, 1/2 and 1/4. *)
Definition exact_plan (sid c : string) (l : Qc) : @Plan.row Exact.rationals :=
  @Plan.Build_row Exact.rationals sid c "2026FA" l "Structures".

Definition exact_plans : list (@Plan.row Exact.rationals) :=
  [exact_plan "s1" "A" (Q2Qc (Qmake 1 2)); exact_plan "s1" "B" (Q2Qc (Qmake 1 2));
   exact_plan "s1" "C" (Q2Qc (Qmake 1 4))].

(** The accumulators for these plans; the scan raises nothing on them,
    the second branch is never taken. *)
Definition exact_scan : @accumulators Exact.rationals :=
  match student_scan three_courses exact_plans roster with
  | inr a => a
  | inl _ => @initial Exact.rationals
  end.

(** One student planning the three courses of [three_courses]. *)
Definition three_plans (la lb lc : PrimFloat.float) : list Plan.row :=
  [plan "s1" "A" la; plan "s1" "B" lb; plan "s1" "C" lc].

(** With likelihoods 0.5, 0.5 and 0.25 every product and every sum is
    exact in binary64; the result of [calculate_conflicts] is: *)
Definition dyadic_result : Result.t :=
  {| Result.term := ["2026FA"];
     Result.total_students := 2;
     Result.courses_in_schedule := 3;
     Result.metrics :=
       {| Metrics.expected_conflicts_all := dec 5 1;
          Metrics.students_with_conflict := 1;
          Metrics.conflict_rate_overall := Binary64.of_Z 50;
          Metrics.by_path_type :=
            [ {| PathEntry.path_type := "Structures";
                 PathEntry.expected_conflicts := dec 5 1;
                 PathEntry.students_with_conflict := 1;
                 PathEntry.total_students_in_path := 1;
                 PathEntry.conflict_rate := Float (Binary64.of_Z 100) |} ];
          Metrics.top_conflicting_pairs :=
            [ {| PairEntry.course_a := "A"; PairEntry.course_b := "B";
                 PairEntry.expected_conflicts := dec 25 2 |};
              {| PairEntry.course_a := "A"; PairEntry.course_b := "C";
                 PairEntry.expected_conflicts := dec 12 2 |};
              {| PairEntry.course_a := "B"; PairEntry.course_b := "C";
                 PairEntry.expected_conflicts := dec 12 2 |} ];
          Metrics.top_conflicting_courses :=
            [ {| CourseEntry.course_code := "A";
                 CourseEntry.conflict_score := dec 38 2 |};
              {| CourseEntry.course_code := "B";
                 CourseEntry.conflict_score := dec 38 2 |};
              {| CourseEntry.course_code := "C";
                 CourseEntry.conflict_score := dec 25 2 |} ] |} |}.

(** With likelihoods 0.1, 0.2 and 1.0 the sums round; the accumulators
    after the scan (the scan raises nothing, the second branch is never
    taken): *)
Definition tenths_scan : accumulators :=
  match student_scan three_courses (three_plans (dec 1 1) (dec 2 1) (dec 10 1)) roster with
  | inr a => a
  | inl _ => initial
  end.

(** A student with a single planned course, and the result of
    [calculate_conflicts] on [two_courses], these plans and [roster]. *)
Definition single_plans : list Plan.row := [plan "s1" "ECI 130" (dec 8 1)].

Definition single_result : Result.t :=
  {| Result.term := ["2026FA"];
     Result.total_students := 2;
     Result.courses_in_schedule := 2;
     Result.metrics :=
       {| Metrics.expected_conflicts_all := PrimFloat.zero;
          Metrics.students_with_conflict := 0;
          Metrics.conflict_rate_overall := PrimFloat.zero;
          Metrics.by_path_type :=
            [ {| PathEntry.path_type := "Structures";
                 PathEntry.expected_conflicts := PrimFloat.zero;
                 PathEntry.students_with_conflict := 0;
                 PathEntry.total_students_in_path := 1;
                 PathEntry.conflict_rate := Float PrimFloat.zero |} ];
          Metrics.top_conflicting_pairs := [];
          Metrics.top_conflicting_courses := [] |} |}.

(** Two students of two paths, each planning both courses of
    [two_courses]: "s1" with likelihoods 0.8 and 0.5, "s2" with 1.0 and
    1.0. *)
Definition two_path_plans : list Plan.row :=
  [plan "s1" "ECI 130" (dec 8 1); plan "s1" "ECI 135" (dec 5 1);
   plan "s2" "ECI 130" (dec 10 1); plan "s2" "ECI 135" (dec 10 1)].

(** The result of [calculate_conflicts] on [two_courses], these plans
    and [roster]. *)
Definition two_path_result : Result.t :=
  {| Result.term := ["2026FA"];
     Result.total_students := 2;
     Result.courses_in_schedule := 2;
     Result.metrics :=
       {| Metrics.expected_conflicts_all := dec 14 1;
          Metrics.students_with_conflict := 2;
          Metrics.conflict_rate_overall := Binary64.of_Z 100;
          Metrics.by_path_type :=
            [ {| PathEntry.path_type := "Water";
                 PathEntry.expected_conflicts := Binary64.of_Z 1;
                 PathEntry.students_with_conflict := 1;
                 PathEntry.total_students_in_path := 1;
                 PathEntry.conflict_rate := Float (Binary64.of_Z 100) |};
              {| PathEntry.path_type := "Structures";
                 PathEntry.expected_conflicts := dec 4 1;
                 PathEntry.students_with_conflict := 1;
                 PathEntry.total_students_in_path := 1;
                 PathEntry.conflict_rate := Float (Binary64.of_Z 100) |} ];
          Metrics.top_conflicting_pairs :=
            [ {| PairEntry.course_a := "ECI 130";
                 PairEntry.course_b := "ECI 135";
                 PairEntry.expected_conflicts := dec 14 1 |} ];
          Metrics.top_conflicting_courses :=
            [ {| CourseEntry.course_code := "ECI 130";
                 CourseEntry.conflict_score := dec 14 1 |};
              {| CourseEntry.course_code := "ECI 135";
                 CourseEntry.conflict_score := dec 14 1 |} ] |} |}.

(** [two_courses] with a start time that does not parse. *)
Definition late_courses : list Schedule.row :=
  [slot "ECI 130" "MW" "10:00" "11:00"; slot "ECI 135" "MW" "10h30" "11:30"].

(** One student with two plan rows for the same course. *)
Definition duplicate_plans : list Plan.row :=
  [plan "s1" "ECI 130" (dec 8 1); plan "s1" "ECI 130" (dec 8 1)].

(** The accumulators behind [dyadic_result] (the scan raises nothing,
    the second branch is never taken). *)
Definition dyadic_scan : accumulators :=
  match student_scan three_courses (three_plans (dec 5 1) (dec 5 1) (dec 25 2)) roster with
  | inr a => a
  | inl _ => initial
  end.

(** Three students, the second with a likelihood that is NaN, as a
    missing cell of the plan table reads. *)
Definition nan_roster : list Student.row :=
  [student "s1" "Structures"; student "s2" "Water"; student "s3" "Water"].

Definition nan_plans : list Plan.row :=
  [plan "s1" "A" (dec 5 1); plan "s1" "B" (dec 5 1);
   plan "s2" "A" PrimFloat.nan; plan "s2" "C" (dec 10 1);
   plan "s3" "B" (dec 10 1); plan "s3" "C" (dec 10 1)].

(** The result of [calculate_conflicts] on [three_courses], these plans
    and [nan_roster]. *)
Definition nan_result : Result.t :=
  {| Result.term := ["2026FA"];
     Result.total_students := 3;
     Result.courses_in_schedule := 3;
     Result.metrics :=
       {| Metrics.expected_conflicts_all := PrimFloat.nan;
          Metrics.students_with_conflict := 3;
          Metrics.conflict_rate_overall := Binary64.of_Z 100;
          Metrics.by_path_type :=
            [ {| PathEntry.path_type := "Structures";
                 PathEntry.expected_conflicts := dec 25 2;
                 PathEntry.students_with_conflict := 1;
                 PathEntry.total_students_in_path := 1;
                 PathEntry.conflict_rate := Float (Binary64.of_Z 100) |};
              {| PathEntry.path_type := "Water";
                 PathEntry.expected_conflicts := PrimFloat.nan;
                 PathEntry.students_with_conflict := 2;
                 PathEntry.total_students_in_path := 2;
                 PathEntry.conflict_rate := Float (Binary64.of_Z 100) |} ];
          Metrics.top_conflicting_pairs :=
            [ {| PairEntry.course_a := "A"; PairEntry.course_b := "B";
                 PairEntry.expected_conflicts := dec 25 2 |};
              {| PairEntry.course_a := "A"; PairEntry.course_b := "C";
                 PairEntry.expected_conflicts := PrimFloat.nan |};
              {| PairEntry.course_a := "B"; PairEntry.course_b := "C";
                 PairEntry.expected_conflicts := Binary64.of_Z 1 |} ];
          Metrics.top_conflicting_courses :=
            [ {| CourseEntry.course_code := "A";
                 CourseEntry.conflict_score := PrimFloat.nan |};
              {| CourseEntry.course_code := "B";
                 CourseEntry.conflict_score := dec 125 2 |};
              {| CourseEntry.course_code := "C";
                 CourseEntry.conflict_score := PrimFloat.nan |} ] |} |}.

(** The result behind [tenths_scan]: likelihoods 0.1, 0.2 and 1.0. *)
Definition tenths_result : Result.t :=
  {| Result.term := ["2026FA"];
     Result.total_students := 2;
     Result.courses_in_schedule := 3;
     Result.metrics :=
       {| Metrics.expected_conflicts_all := dec 32 2;
          Metrics.students_with_conflict := 1;
          Metrics.conflict_rate_overall := Binary64.of_Z 50;
          Metrics.by_path_type :=
            [ {| PathEntry.path_type := "Structures";
                 PathEntry.expected_conflicts := dec 32 2;
                 PathEntry.students_with_conflict := 1;
                 PathEntry.total_students_in_path := 1;
                 PathEntry.conflict_rate := Float (Binary64.of_Z 100) |} ];
          Metrics.top_conflicting_pairs :=
            [ {| PairEntry.course_a := "B"; PairEntry.course_b := "C";
                 PairEntry.expected_conflicts := dec 2 1 |};
              {| PairEntry.course_a := "A"; PairEntry.course_b := "C";
                 PairEntry.expected_conflicts := dec 1 1 |};
              {| PairEntry.course_a := "A"; PairEntry.course_b := "B";
                 PairEntry.expected_conflicts := dec 2 2 |} ];
          Metrics.top_conflicting_courses :=
            [ {| CourseEntry.course_code := "C";
                 CourseEntry.conflict_score := dec 3 1 |};
              {| CourseEntry.course_code := "B";
                 CourseEntry.conflict_score := dec 22 2 |};
              {| CourseEntry.course_code := "A";
                 CourseEntry.conflict_score := dec 12 2 |} ] |} |}.


End Example.

(** * Properties *)

(** Decide a closed decidable proposition by evaluation. *)
Ltac by_compute := apply (bool_decide_unpack _); vm_compute; exact I.

(** ** Time parsing and overlap *)

Lemma int_two_digits (n : nat) : (n < 100)%nat -> Py.int (two_digits n) = inr (Z.of_nat n).
Proof.
  intros Hn.
  assert (H : Forall (fun k => Py.int (two_digits k) = inr (Z.of_nat k)) (seq 0 100)).
  { by_compute. }
  rewrite Forall_forall in H. apply H, elem_of_seq. lia.
Qed.

Lemma split_colon_hhmm (h m : nat) :
  (h < 100)%nat -> (m < 100)%nat ->
  Py.split_colon (hhmm h m) = [two_digits h; two_digits m].
Proof.
  intros Hh Hm.
  assert (H1 : Forall (fun k => Py.split_colon (two_digits k) = [two_digits k]) (seq 0 100)).
  { by_compute. }
  assert (H2 : Forall (fun k => forall s,
                 Py.split_colon (two_digits k ++ ":" ++ s)
                 = two_digits k :: Py.split_colon s) (seq 0 100)).
  { apply Forall_forall. intros k Hk s. apply elem_of_seq in Hk.
    assert (Hd : Forall (fun k => Ascii.eqb (digit (k / 10)) ":" = false
                                  /\ Ascii.eqb (digit k) ":" = false) (seq 0 100)).
    { by_compute. }
    rewrite Forall_forall in Hd. destruct (Hd k) as [Ha Hb]; [apply elem_of_seq; lia|].
    unfold two_digits, String.append. cbn [Py.split_colon]. rewrite Ha, Hb.
    change (Ascii.eqb ":" ":") with true. cbn iota.
    destruct (Py.split_colon s); reflexivity. }
  rewrite Forall_forall in H1, H2. unfold hhmm.
  rewrite (H2 h), (H1 m) by (apply elem_of_seq; lia). reflexivity.
Qed.

Lemma time_to_minutes_hhmm (h m : nat) :
  (h < 100)%nat -> (m < 100)%nat -> time_to_minutes (hhmm h m) = inr (minutes h m).
Proof.
  intros Hh Hm. unfold time_to_minutes.
  rewrite split_colon_hhmm, !int_two_digits by assumption. reflexivity.
Qed.

(** Whatever the four strings, once they convert the answer is the
    half-open interval test on the minutes. *)
Lemma times_overlap_minutes (start1 end1 start2 end2 : string) (s1 e1 s2 e2 : Z) :
  time_to_minutes start1 = inr s1 -> time_to_minutes end1 = inr e1 ->
  time_to_minutes start2 = inr s2 -> time_to_minutes end2 = inr e2 ->
  times_overlap start1 end1 start2 end2 = inr (bool_decide (s1 < e2 /\ s2 < e1)).
Proof.
  intros H1 H2 H3 H4. unfold times_overlap. rewrite H1, H2, H3, H4. cbn.
  unfold ok. f_equal.
  destruct (Z.ltb_spec s1 e2), (Z.ltb_spec s2 e1); cbn; symmetry;
    (apply bool_decide_eq_true_2 || apply bool_decide_eq_false_2); lia.
Qed.

(** C1.  For all HH:MM times, [times_overlap] answers exactly the
    half-open interval test [s1 < e2 and s2 < e1] on the minutes since
    midnight.  Intervals that only touch do not overlap:
    09:00-10:00 against 10:00-11:00 is false, 09:00-10:30 against
    10:00-11:00 is true. *)
Theorem times_overlap_half_open (h1 m1 h2 m2 h3 m3 h4 m4 : nat) :
  (h1 < 100 /\ m1 < 100)%nat -> (h2 < 100 /\ m2 < 100)%nat ->
  (h3 < 100 /\ m3 < 100)%nat -> (h4 < 100 /\ m4 < 100)%nat ->
  times_overlap (hhmm h1 m1) (hhmm h2 m2) (hhmm h3 m3) (hhmm h4 m4)
  = inr (bool_decide (minutes h1 m1 < minutes h4 m4 /\ minutes h3 m3 < minutes h2 m2))
  /\ times_overlap "09:00" "10:00" "10:00" "11:00" = inr false
  /\ times_overlap "09:00" "10:30" "10:00" "11:00" = inr true.
Proof.
  intros [] [] [] []. split; [|split; reflexivity].
  apply times_overlap_minutes; apply time_to_minutes_hhmm; assumption.
Qed.

(** An instance: 13:10-14:00 against 13:59-15:00 overlap by one minute. *)
Lemma times_overlap_half_open_witness :
  times_overlap "13:10" "14:00" "13:59" "15:00" = inr true
  /\ times_overlap "09:00" "10:00" "10:00" "11:00" = inr false
  /\ times_overlap "09:00" "10:30" "10:00" "11:00" = inr true.
Proof.
  apply (times_overlap_half_open 13 10 14 0 13 59 15 0); lia.
Defined.

(** ** Day patterns *)

Lemma day_patterns_conflict_comm (p q : string) :
  day_patterns_conflict p q = day_patterns_conflict q p.
Proof.
  unfold day_patterns_conflict. cbn zeta.
  rewrite (comm_L (∩) (list_to_set (list_ascii_of_string p))). reflexivity.
Qed.

(** C2.  On the four valid patterns [day_patterns_conflict] holds
    exactly when the day-sets of the specification intersect; TR
    conflicts with TR only, and MW, WF, MF conflict with themselves and
    with one another. *)
Theorem day_patterns_conflict_valid (p q : pattern) :
  (day_patterns_conflict (code p) (code q) = true
   <-> exists d, d ∈ spec_days p /\ d ∈ spec_days q)
  /\ (day_patterns_conflict (code TR) (code q) = true <-> q = TR)
  /\ (day_patterns_conflict (code p) (code TR) = true <-> p = TR)
  /\ (p <> TR -> q <> TR -> day_patterns_conflict (code p) (code q) = true).
Proof.
  repeat split.
  - destruct p, q; vm_compute; intros H; try discriminate H;
      first [ exists Mon; set_solver | exists Tue; set_solver
            | exists Wed; set_solver | exists Fri; set_solver ].
  - intros (d & Hp & Hq). destruct p, q; try reflexivity; exfalso;
      destruct d; revert Hp Hq; rewrite !list_elem_of_In; cbn; intuition discriminate.
  - destruct q; vm_compute; congruence.
  - intros ->. reflexivity.
  - destruct p; vm_compute; congruence.
  - intros ->. reflexivity.
  - intros Hp Hq. destruct p, q; try reflexivity; congruence.
Qed.

(** ** Symmetry *)

Lemma int_error (s : string) (e : exn) : Py.int s = inl e -> e = ValueError.
Proof.
  unfold Py.int, ok, raise. cbv zeta. intros H.
  match type of H with
  | match ?r with Some _ => _ | None => _ end = _ => destruct r
  end; congruence.
Qed.

Lemma time_to_minutes_error (s : string) (e : exn) :
  time_to_minutes s = inl e -> e = ValueError.
Proof.
  unfold time_to_minutes, raise, ok. intros H.
  destruct (Py.split_colon s) as [|hs [|ms [|]]]; try (cbn in H; congruence).
  destruct (Py.int hs) eqn:Hh; cbn in H; [apply int_error in Hh; congruence|].
  destruct (Py.int ms) eqn:Hm; cbn in H; [apply int_error in Hm; congruence|].
  discriminate.
Qed.

Lemma times_overlap_comm (start1 end1 start2 end2 : string) :
  times_overlap start1 end1 start2 end2 = times_overlap start2 end2 start1 end1.
Proof.
  unfold times_overlap.
  destruct (time_to_minutes start1) as [x1|s1] eqn:H1,
           (time_to_minutes end1) as [y1|e1] eqn:H2,
           (time_to_minutes start2) as [x2|s2] eqn:H3,
           (time_to_minutes end2) as [y2|e2] eqn:H4; cbn;
    repeat match goal with
           | H : time_to_minutes _ = inl _ |- _ => apply time_to_minutes_error in H; subst
           end; try reflexivity.
  unfold ok. f_equal. apply andb_comm.
Qed.

Lemma offerings_conflict_comm (o1 o2 : offering) :
  offerings_conflict o1 o2 = offerings_conflict o2 o1.
Proof.
  unfold offerings_conflict.
  rewrite (day_patterns_conflict_comm (day_pattern o2)).
  destruct (day_patterns_conflict _ _); cbn; [apply times_overlap_comm | reflexivity].
Qed.

(** C3.  Both predicates are symmetric: [day_patterns_conflict] on any
    two patterns, [offerings_conflict] on any two offerings, with the
    same exception raised in either order when a time is malformed.
    Every valid pattern conflicts with itself. *)
Theorem conflict_predicates_symmetric :
  (forall p q : pattern,
     day_patterns_conflict (code p) (code q) = day_patterns_conflict (code q) (code p))
  /\ (forall o1 o2 : offering, offerings_conflict o1 o2 = offerings_conflict o2 o1)
  /\ (forall p : pattern, day_patterns_conflict (code p) (code p) = true).
Proof.
  split; [|split].
  - intros p q. apply day_patterns_conflict_comm.
  - apply offerings_conflict_comm.
  - intros []; reflexivity.
Qed.

Local Open Scope list_scope.

(** ** The empty schedule *)

(** C5.  For every roster and plan table, the endpoint answers an empty
    schedule with the zero-valued result, whatever the plans hold:
    no term, the roster size, no course, zero metrics and empty
    lists.  The student scan is left to the non-empty schedules. *)
Theorem empty_schedule_short_circuit `{F : PyFloat}
    (student_plans : list Plan.row) (students : list Student.row) :
  compute_conflicts student_plans students []
  = inr {| Result.term := [];
           Result.total_students := len students;
           Result.courses_in_schedule := 0;
           Result.metrics :=
             {| Metrics.expected_conflicts_all := fzero;
                Metrics.students_with_conflict := 0;
                Metrics.conflict_rate_overall := fzero;
                Metrics.by_path_type := [];
                Metrics.top_conflicting_pairs := [];
                Metrics.top_conflicting_courses := [] |} |}
  /\ (forall schedule : list Schedule.row,
        schedule <> [] ->
        compute_conflicts student_plans students schedule
        = calculate_conflicts schedule student_plans students).
Proof.
  split; [reflexivity|].
  intros [|row schedule] Hne; [congruence|reflexivity].
Qed.

(** ** Distinct values *)

Lemma elem_of_unique (x : string) (l : list string) : x ∈ Py.unique l <-> x ∈ l.
Proof.
  induction l as [|y l IH]; cbn [Py.unique]; [reflexivity|].
  rewrite !elem_of_cons, list_elem_of_filter, IH.
  destruct (decide (x = y)); tauto.
Qed.

Lemma NoDup_unique (l : list string) : NoDup (Py.unique l).
Proof.
  induction l as [|y l IH]; cbn [Py.unique]; constructor.
  - rewrite list_elem_of_filter. tauto.
  - apply NoDup_filter, IH.
Qed.

(** ** The course lookup *)

Lemma fold_insert_lookup (rows : list Schedule.row) (m : gmap string offering) (c : string) :
  fold_left (fun m row => <[ Schedule.course_code row := offering_of_row row ]> m) rows m !! c
  = match last (filter (fun r => Schedule.course_code r = c) rows) with
    | Some r => Some (offering_of_row r)
    | None => m !! c
    end.
Proof.
  revert m. induction rows as [|r rows IH]; intros m; [reflexivity|].
  cbn [fold_left]. rewrite IH, filter_cons.
  destruct (decide (Schedule.course_code r = c)) as [<-|Hne].
  - rewrite last_cons. destruct (last _); [reflexivity|]. apply lookup_insert_eq.
  - destruct (last _); [reflexivity|]. apply lookup_insert_ne, Hne.
Qed.

Lemma build_lookup_last (schedule_df : list Schedule.row) (c : string) :
  build_lookup schedule_df !! c
  = offering_of_row <$> last (filter (fun r => Schedule.course_code r = c) schedule_df).
Proof.
  unfold build_lookup. rewrite fold_insert_lookup.
  destruct (last _); [reflexivity | apply lookup_empty].
Qed.

Lemma calculate_conflicts_counts `{F : PyFloat} (schedule_df : list Schedule.row)
    (student_plans_df : list Plan.row) (students_df : list Student.row) (res : Result.t) :
  calculate_conflicts schedule_df student_plans_df students_df = inr res ->
  Result.term res = Py.unique (map Schedule.term schedule_df)
  /\ Result.total_students res = len students_df
  /\ Result.courses_in_schedule res = len schedule_df.
Proof.
  unfold calculate_conflicts. intros H.
  destruct (student_scan _ _ _) as [?|a]; [discriminate|]. cbn in H.
  destruct (int_truediv _ _) as [?|ratio]; [discriminate|]. cbn in H.
  injection H as <-. auto.
Qed.

Lemma build_lookup_drop_earlier (before after : list Schedule.row) (r r' : Schedule.row) :
  r' ∈ after -> Schedule.course_code r' = Schedule.course_code r ->
  build_lookup (before ++ r :: after) = build_lookup (before ++ after).
Proof.
  intros Hin Hcode. apply map_eq. intros c.
  rewrite !build_lookup_last, !filter_app, filter_cons.
  destruct (decide (Schedule.course_code r = c)) as [Hc|]; [|reflexivity].
  assert (Hr' : r' ∈ filter (fun r0 => Schedule.course_code r0 = c) after)
    by (apply list_elem_of_filter; split; [congruence|assumption]).
  destruct (filter _ after) as [|x l]; [inversion Hr'|].
  rewrite !last_app, last_cons_cons. reflexivity.
Qed.

Lemma plans_in_terms_drop `{F : PyFloat} (before after : list Schedule.row)
    (r r' : Schedule.row) (student_plans_df : list Plan.row) :
  r' ∈ before ++ after -> Schedule.term r' = Schedule.term r ->
  plans_in_terms (before ++ r :: after) student_plans_df
  = plans_in_terms (before ++ after) student_plans_df.
Proof.
  intros Hin Hterm. unfold plans_in_terms. apply list_filter_iff. intros p.
  rewrite !elem_of_unique, !list_elem_of_In, !in_map_iff.
  split; intros (x & Hx & Hin').
  - apply in_app_iff in Hin' as [Hin'|[<-|Hin']].
    + exists x. split; [assumption|]. apply in_app_iff. auto.
    + exists r'. split; [congruence|]. apply list_elem_of_In, Hin.
    + exists x. split; [assumption|]. apply in_app_iff. auto.
  - exists x. split; [assumption|].
    apply in_app_iff in Hin' as [Hin'|Hin']; apply in_app_iff; [left|right; right]; assumption.
Qed.

(** C8.  The course lookup keeps, for each course code, the last
    schedule row bearing it.  An earlier row with the same code leaves
    no trace in the lookup, and none in the student scan as long as its
    term also appears on another row (the term filter on the plans reads
    the terms of all rows).  [courses_in_schedule] nevertheless counts
    every row. *)
Theorem duplicate_course_last_wins :
  (forall (schedule_df : list Schedule.row) (c : string),
     build_lookup schedule_df !! c
     = offering_of_row <$> last (filter (fun r => Schedule.course_code r = c) schedule_df))
  /\ (forall (before after : list Schedule.row) (r r' : Schedule.row),
        r' ∈ after -> Schedule.course_code r' = Schedule.course_code r ->
        build_lookup (before ++ r :: after) = build_lookup (before ++ after))
  /\ (forall (F : PyFloat) (before after : list Schedule.row) (r r' r'' : Schedule.row)
             (student_plans_df : list Plan.row) (students_df : list Student.row),
        r' ∈ after -> Schedule.course_code r' = Schedule.course_code r ->
        r'' ∈ before ++ after -> Schedule.term r'' = Schedule.term r ->
        student_scan (before ++ r :: after) student_plans_df students_df
        = student_scan (before ++ after) student_plans_df students_df)
  /\ (forall (F : PyFloat) (schedule_df : list Schedule.row)
             (student_plans_df : list Plan.row) (students_df : list Student.row)
             (res : Result.t),
        calculate_conflicts schedule_df student_plans_df students_df = inr res ->
        Result.courses_in_schedule res = len schedule_df).
Proof.
  split; [exact build_lookup_last|split; [exact build_lookup_drop_earlier|split]].
  - intros F before after r r' r'' student_plans_df students_df Hin Hcode Hin' Hterm.
    unfold student_scan.
    rewrite (build_lookup_drop_earlier before after r r' Hin Hcode).
    rewrite (plans_in_terms_drop before after r r'' student_plans_df Hin' Hterm).
    reflexivity.
  - intros F schedule_df student_plans_df students_df res H.
    apply calculate_conflicts_counts in H. tauto.
Qed.

(** ** Which exceptions the student loop raises *)

Lemma offerings_conflict_error (o1 o2 : offering) (e : exn) :
  offerings_conflict o1 o2 = inl e -> e = ValueError.
Proof.
  unfold offerings_conflict, times_overlap, ok. intros H.
  destruct (negb _); [discriminate|].
  repeat match type of H with
         | context [time_to_minutes ?s] =>
             let E := fresh "E" in
             destruct (time_to_minutes s) eqn:E; cbn in H;
             [apply time_to_minutes_error in E; congruence|]
         end.
  discriminate.
Qed.

Lemma offerings_conflict_total (o1 o2 : offering) :
  well_timed o1 -> well_timed o2 -> exists b, offerings_conflict o1 o2 = inr b.
Proof.
  intros [[s1 H1] [e1 H2]] [[s2 H3] [e2 H4]]. unfold offerings_conflict, times_overlap.
  destruct (negb _); [eexists; reflexivity|].
  rewrite H1, H2, H3, H4. eexists; reflexivity.
Qed.

Section Faults.
Context {F : PyFloat}.

Lemma scan_against_error path_type c1 rest st e :
  scan_against path_type c1 rest st = inl e -> e = ValueError.
Proof.
  revert st. induction rest as [|c2 rest IH]; intros st H; [discriminate|].
  cbn [scan_against] in H.
  destruct (offerings_conflict _ _) eqn:E; cbn in H;
    [apply offerings_conflict_error in E; congruence | eauto].
Qed.

Lemma scan_pairs_error path_type courses st e :
  scan_pairs path_type courses st = inl e -> e = ValueError.
Proof.
  revert st. induction courses as [|c1 rest IH]; intros st H; [discriminate|].
  cbn [scan_pairs] in H.
  destruct (scan_against _ _ _ _) eqn:E; cbn in H;
    [apply scan_against_error in E; congruence | eauto].
Qed.

Lemma scan_against_total path_type c1 rest st :
  well_timed (sc_offering c1) -> Forall (fun c => well_timed (sc_offering c)) rest ->
  exists st', scan_against path_type c1 rest st = inr st'.
Proof.
  intros H1 Hrest. revert st. induction Hrest as [|c2 rest H2 _ IH]; intros st.
  - eexists; reflexivity.
  - cbn [scan_against]. destruct (offerings_conflict_total _ _ H1 H2) as [b ->]. apply IH.
Qed.

Lemma scan_pairs_total path_type courses st :
  Forall (fun c => well_timed (sc_offering c)) courses ->
  exists st', scan_pairs path_type courses st = inr st'.
Proof.
  intros H. revert st. induction H as [|c1 rest H1 Hrest IH]; intros st.
  - eexists; reflexivity.
  - cbn [scan_pairs].
    destruct (scan_against_total path_type c1 rest st H1 Hrest) as [st' ->]. apply IH.
Qed.

Lemma scan_student_orphan cto plans students_df a sid :
  filter (fun s => Student.student_id s = sid) students_df = [] ->
  scan_student cto plans students_df a sid = inl IndexError.
Proof. unfold scan_student. intros ->. reflexivity. Qed.

Lemma scan_student_error cto plans students_df a sid e :
  scan_student cto plans students_df a sid = inl e ->
  (e = IndexError /\ filter (fun s => Student.student_id s = sid) students_df = [])
  \/ (e = ValueError /\ filter (fun s => Student.student_id s = sid) students_df <> []).
Proof.
  unfold scan_student. intros H.
  destruct (filter _ students_df) as [|info sel]; cbn in H; [left; split; congruence|].
  right. split; [|discriminate].
  destruct (scan_pairs _ _ _) as [e'|[a2 b]] eqn:E; cbn in H; [|discriminate].
  apply scan_pairs_error in E. congruence.
Qed.

Lemma scan_students_orphan cto plans students_df ids a sid :
  sid ∈ ids ->
  filter (fun s => Student.student_id s = sid) students_df = [] ->
  scan_students cto plans students_df ids a = inl IndexError
  \/ scan_students cto plans students_df ids a = inl ValueError.
Proof.
  intros Hin Horphan. revert a. induction ids as [|x ids IH]; intros a; [inversion Hin|].
  cbn [scan_students].
  destruct (scan_student cto plans students_df a x) as [e|a'] eqn:E; cbn.
  - apply scan_student_error in E as [ [-> _] | [-> _] ]; auto.
  - apply elem_of_cons in Hin as [->|Hin]; [|apply IH, Hin].
    rewrite scan_student_orphan in E by assumption. discriminate.
Qed.

Lemma scan_students_error cto plans students_df ids a e :
  scan_students cto plans students_df ids a = inl e ->
  (e = IndexError
   /\ exists sid, sid ∈ ids /\ filter (fun s => Student.student_id s = sid) students_df = [])
  \/ e = ValueError.
Proof.
  revert a. induction ids as [|x ids IH]; intros a H; [discriminate|].
  cbn [scan_students] in H.
  destruct (scan_student cto plans students_df a x) as [e'|a'] eqn:E; cbn in H.
  - injection H as ->. apply scan_student_error in E as [ [-> Hx] | [-> _] ]; [left|right; reflexivity].
    split; [reflexivity|]. exists x. split; [apply list_elem_of_here|assumption].
  - apply IH in H as [ [-> (sid & Hin & Hsid)] | ->]; [left|right; reflexivity].
    split; [reflexivity|]. exists sid. split; [apply list_elem_of_further|]; assumption.
Qed.

End Faults.

Section Totality.
Context {F : PyFloat}.

Lemma lookup_well_timed (schedule_df : list Schedule.row) (c : string) (o : offering) :
  Forall (fun r => well_timed (offering_of_row r)) schedule_df ->
  build_lookup schedule_df !! c = Some o -> well_timed o.
Proof.
  intros Hall. rewrite build_lookup_last.
  destruct (last _) as [r|] eqn:E; [|discriminate]. intros [= <-].
  apply last_Some_elem_of, list_elem_of_filter in E as [_ Hr].
  rewrite Forall_forall in Hall. auto.
Qed.

Lemma scheduled_courses_well_timed cto (student_courses : list Plan.row) :
  (forall c o, cto !! c = Some o -> well_timed o) ->
  Forall (fun c => well_timed (sc_offering c)) (scheduled_courses cto student_courses).
Proof.
  intros Hcto. unfold scheduled_courses.
  induction student_courses as [|p l IH]; cbn [flat_map]; [constructor|].
  destruct (cto !! Plan.course_code p) eqn:E; cbn; [constructor|]; eauto.
Qed.

Lemma scan_student_total cto plans students_df a sid :
  (forall c o, cto !! c = Some o -> well_timed o) ->
  filter (fun s => Student.student_id s = sid) students_df <> [] ->
  exists a', scan_student cto plans students_df a sid = inr a'.
Proof.
  intros Hcto Hsel. unfold scan_student.
  destruct (filter _ students_df) as [|info sel]; [congruence|]. cbn.
  edestruct scan_pairs_total as [[a2 b] ->];
    [apply scheduled_courses_well_timed, Hcto|]. cbn. eexists; reflexivity.
Qed.

Lemma scan_students_total cto plans students_df ids a :
  (forall c o, cto !! c = Some o -> well_timed o) ->
  (forall sid, sid ∈ ids -> filter (fun s => Student.student_id s = sid) students_df <> []) ->
  exists a', scan_students cto plans students_df ids a = inr a'.
Proof.
  intros Hcto. revert a. induction ids as [|x ids IH]; intros a Hids.
  - eexists; reflexivity.
  - cbn [scan_students].
    destruct (scan_student_total cto plans students_df a x Hcto) as [a' ->];
      [apply Hids, list_elem_of_here|].
    cbn. apply IH. intros sid Hin. apply Hids, list_elem_of_further, Hin.
Qed.

Lemma scan_students_orphan_index cto plans students_df ids a sid :
  (forall c o, cto !! c = Some o -> well_timed o) ->
  sid ∈ ids ->
  filter (fun s => Student.student_id s = sid) students_df = [] ->
  scan_students cto plans students_df ids a = inl IndexError.
Proof.
  intros Hcto Hin Horphan. revert a. induction ids as [|x ids IH]; intros a; [inversion Hin|].
  cbn [scan_students].
  destruct (filter (fun s => Student.student_id s = x) students_df) as [|info sel] eqn:E.
  - rewrite scan_student_orphan by assumption. reflexivity.
  - destruct (scan_student_total cto plans students_df a x Hcto) as [a' ->]; [congruence|].
    cbn. apply elem_of_cons in Hin as [->|Hin]; [congruence|]. apply IH, Hin.
Qed.

(** No roster row bears the identifier. *)
Lemma selection_empty (students_df : list Student.row) (sid : string) :
  filter (fun s => Student.student_id s = sid) students_df = []
  <-> forall s, s ∈ students_df -> Student.student_id s <> sid.
Proof.
  induction students_df as [|r l IH]; [split; [intros _ s Hs; inversion Hs|reflexivity]|].
  rewrite filter_cons. destruct (decide (Student.student_id r = sid)) as [Hr|Hr].
  - split; [discriminate|]. intros H. destruct (H r); [apply list_elem_of_here|assumption].
  - rewrite IH. split.
    + intros H s [->|Hs]%elem_of_cons; auto.
    + intros H s Hs. apply H, list_elem_of_further, Hs.
Qed.

Lemma planned_ids (plans : list Plan.row) (sid : string) :
  sid ∈ Py.unique (map Plan.student_id plans)
  <-> exists p, p ∈ plans /\ Plan.student_id p = sid.
Proof.
  rewrite elem_of_unique, list_elem_of_In, in_map_iff.
  split; intros (p & H1 & H2); exists p; rewrite ?list_elem_of_In in *; auto.
Qed.

Lemma calculate_conflicts_scan_error schedule_df student_plans_df students_df e :
  student_scan schedule_df student_plans_df students_df = inl e ->
  calculate_conflicts schedule_df student_plans_df students_df = inl e.
Proof. unfold calculate_conflicts. intros ->. reflexivity. Qed.

Lemma calculate_conflicts_error schedule_df student_plans_df students_df e :
  calculate_conflicts schedule_df student_plans_df students_df = inl e ->
  student_scan schedule_df student_plans_df students_df = inl e
  \/ (e = ZeroDivisionError /\ students_df = []
      /\ exists a, student_scan schedule_df student_plans_df students_df = inr a).
Proof.
  unfold calculate_conflicts. intros H.
  destruct (student_scan _ _ _) as [e'|a]; cbn in H; [left; congruence|]. right.
  unfold int_truediv, len in H. destruct students_df; cbn in H; [|discriminate].
  injection H as <-. eauto.
Qed.

Lemma calculate_conflicts_total schedule_df student_plans_df students_df a :
  student_scan schedule_df student_plans_df students_df = inr a ->
  students_df <> [] ->
  exists res, calculate_conflicts schedule_df student_plans_df students_df = inr res.
Proof.
  unfold calculate_conflicts. intros -> Hne. cbn.
  unfold int_truediv, len. destruct students_df; [congruence|]. cbn. eexists; reflexivity.
Qed.

End Totality.

(** ** Orphaned plan rows *)

(** C9.  When a plan row kept by the term filter names a student absent
    from the roster, [calculate_conflicts] raises instead of returning:
    the roster lookup raises [IndexError], unless a malformed time met
    earlier in the loop has already raised [ValueError].  When every kept
    plan row names a roster student, no [IndexError] is raised. *)
Theorem orphan_plan_row_faults `{F : PyFloat} (schedule_df : list Schedule.row)
    (student_plans_df : list Plan.row) (students_df : list Student.row) :
  ((exists p, p ∈ plans_in_terms schedule_df student_plans_df
              /\ forall s, s ∈ students_df -> Student.student_id s <> Plan.student_id p) ->
   (calculate_conflicts schedule_df student_plans_df students_df = inl IndexError
    \/ calculate_conflicts schedule_df student_plans_df students_df = inl ValueError)
   /\ (Forall (fun r => well_timed (offering_of_row r)) schedule_df ->
       calculate_conflicts schedule_df student_plans_df students_df = inl IndexError))
  /\ ((forall p, p ∈ plans_in_terms schedule_df student_plans_df ->
                 exists s, s ∈ students_df /\ Student.student_id s = Plan.student_id p) ->
      calculate_conflicts schedule_df student_plans_df students_df <> inl IndexError).
Proof.
  split.
  - intros (p & Hp & Horphan).
    assert (Hin : Plan.student_id p
                  ∈ Py.unique (map Plan.student_id (plans_in_terms schedule_df student_plans_df)))
      by (apply planned_ids; eauto).
    apply selection_empty in Horphan. split.
    + destruct (scan_students_orphan (build_lookup schedule_df)
                  (plans_in_terms schedule_df student_plans_df) students_df _ initial _
                  Hin Horphan) as [H|H]; [left|right];
        apply calculate_conflicts_scan_error, H.
    + intros Htimes. apply calculate_conflicts_scan_error.
      apply scan_students_orphan_index with (sid := Plan.student_id p); try assumption.
      intros c o. apply lookup_well_timed, Htimes.
  - intros Hall H. apply calculate_conflicts_error in H as [H|[? _]]; [|discriminate].
    apply scan_students_error in H as [[_ (sid & Hin & Hsel)]|?]; [|discriminate].
    apply planned_ids in Hin as (p & Hp & <-).
    destruct (Hall p Hp) as (s & Hs & Hid).
    rewrite selection_empty in Hsel. exact (Hsel s Hs Hid).
Qed.

(** An instance: a plan row of the unknown student "ghost" raises
    [IndexError]; the same row for the roster student "s1" does not. *)
Lemma orphan_plan_row_faults_witness :
  calculate_conflicts Example.two_courses
    [Example.plan "ghost" "ECI 130" (Example.dec 8 1)] Example.roster = inl IndexError
  /\ calculate_conflicts Example.two_courses
       [Example.plan "s1" "ECI 130" (Example.dec 8 1)] Example.roster <> inl IndexError.
Proof.
  split.
  - apply (orphan_plan_row_faults Example.two_courses
             [Example.plan "ghost" "ECI 130" (Example.dec 8 1)] Example.roster).
    + eexists. split; [apply list_elem_of_here|].
      intros s Hs. apply list_elem_of_In in Hs.
      destruct Hs as [<-|[<-|[]]]; discriminate.
    + repeat constructor; eexists; reflexivity.
  - apply (orphan_plan_row_faults Example.two_courses
             [Example.plan "s1" "ECI 130" (Example.dec 8 1)] Example.roster).
    intros p Hp. apply list_elem_of_In in Hp. destruct Hp as [<-|[]].
    eexists. split; [apply list_elem_of_here|reflexivity].
Defined.

(** ** The empty roster *)

(** C10, as stated: a non-empty schedule with an empty roster always
    ends in a division by zero.  It does not: as soon as one plan row
    falls in the schedule's terms, the roster lookup of the first
    student raises [IndexError] before any division is reached. *)
Lemma empty_roster_not_always_zero_division :
  ~ (forall (F : PyFloat) (schedule_df : list Schedule.row)
            (student_plans_df : list Plan.row),
       schedule_df <> [] ->
       calculate_conflicts schedule_df student_plans_df [] = inl ZeroDivisionError).
Proof.
  intros H.
  specialize (H Binary64.binary64 Example.two_courses
                [Example.plan "s1" "ECI 130" (Example.dec 8 1)]).
  assert (E : calculate_conflicts Example.two_courses
                [Example.plan "s1" "ECI 130" (Example.dec 8 1)] [] = inl IndexError)
    by reflexivity.
  rewrite E in H. specialize (H ltac:(discriminate)). discriminate H.
Qed.

(** C10, amended.  On a non-empty schedule with an empty roster
    [calculate_conflicts] raises: [ZeroDivisionError] at the overall
    rate when no plan row falls in the schedule's terms, [IndexError] at
    the first roster lookup otherwise.  With a non-empty roster the
    division never raises, and the call returns a result whenever the
    kept plan rows name roster students and the schedule's times are
    well formed. *)
Theorem empty_roster_faults `{F : PyFloat} (schedule_df : list Schedule.row)
    (student_plans_df : list Plan.row) :
  schedule_df <> [] ->
  (plans_in_terms schedule_df student_plans_df = [] ->
   calculate_conflicts schedule_df student_plans_df [] = inl ZeroDivisionError)
  /\ (plans_in_terms schedule_df student_plans_df <> [] ->
      calculate_conflicts schedule_df student_plans_df [] = inl IndexError)
  /\ (forall students_df : list Student.row,
        students_df <> [] ->
        calculate_conflicts schedule_df student_plans_df students_df <> inl ZeroDivisionError
        /\ ((forall p, p ∈ plans_in_terms schedule_df student_plans_df ->
                       exists s, s ∈ students_df /\ Student.student_id s = Plan.student_id p) ->
            Forall (fun r => well_timed (offering_of_row r)) schedule_df ->
            exists res,
              calculate_conflicts schedule_df student_plans_df students_df = inr res)).
Proof.
  intros _. split; [|split].
  - intros Hnone. unfold calculate_conflicts, student_scan. rewrite Hnone. reflexivity.
  - intros Hsome. apply calculate_conflicts_scan_error. unfold student_scan.
    destruct (plans_in_terms schedule_df student_plans_df) as [|p l]; [congruence|].
    reflexivity.
  - intros students_df Hne. split.
    + intros H. apply calculate_conflicts_error in H as [H|(_ & Hnil & _)]; [|congruence].
      apply scan_students_error in H as [[? _]|?]; discriminate.
    + intros Hall Htimes.
      destruct (scan_students_total (build_lookup schedule_df)
                  (plans_in_terms schedule_df student_plans_df) students_df
                  (Py.unique (map Plan.student_id
                     (plans_in_terms schedule_df student_plans_df))) initial) as [a Ha].
      * intros c o. apply lookup_well_timed, Htimes.
      * intros sid (p & Hp & <-)%planned_ids Hsel.
        destruct (Hall p Hp) as (s & Hs & Hid).
        rewrite selection_empty in Hsel. exact (Hsel s Hs Hid).
      * apply calculate_conflicts_total with (a := a); assumption.
Qed.

(** An instance: no plan row at all, an empty roster, and the division
    by the roster size raises. *)
Lemma empty_roster_faults_witness :
  calculate_conflicts Example.two_courses (@nil (@Plan.row Binary64.binary64)) []
  = inl ZeroDivisionError.
Proof.
  apply (empty_roster_faults Example.two_courses []);
    [discriminate | reflexivity].
Defined.

(** ** Dictionaries *)

Section DictFacts.
Context {K V : Type} `{EqDecision K}.
Implicit Types (d : list (K * V)) (k : K) (v : V).

Lemma dict_get_None d k : dict_get d k = None <-> k ∉ map fst d.
Proof.
  induction d as [|[k' v'] d IH]; cbn [dict_get map fst].
  - split; [intros _ H; inversion H|reflexivity].
  - rewrite not_elem_of_cons. destruct (decide (k = k')); [|tauto].
    split; [discriminate|tauto].
Qed.

Lemma dict_set_fresh d k v : k ∉ map fst d -> dict_set d k v = (d ++ [(k, v)])%list.
Proof.
  induction d as [|[k' v'] d IH]; cbn [dict_set map fst app]; [reflexivity|].
  rewrite not_elem_of_cons. intros [Hne Hin].
  destruct (decide (k = k')); [tauto|]. rewrite IH by assumption. reflexivity.
Qed.

Lemma dict_setdefault_spec d k v :
  dict_setdefault d k v = if decide (k ∈ map fst d) then d else (d ++ [(k, v)])%list.
Proof.
  unfold dict_setdefault. destruct (decide (k ∈ map fst d)) as [Hin|Hout].
  - destruct (dict_get d k) eqn:E; [reflexivity|]. apply dict_get_None in E. tauto.
  - apply dict_get_None in Hout as E. rewrite E. apply dict_set_fresh, Hout.
Qed.

Lemma dict_update_keys (f : V -> V) d k : map fst (dict_update f d k) = map fst d.
Proof.
  induction d as [|[k' v'] d IH]; cbn [dict_update map fst]; [reflexivity|].
  destruct (decide (k = k')); cbn [map fst]; congruence.
Qed.

Lemma dict_update_absent (f : V -> V) d k : k ∉ map fst d -> dict_update f d k = d.
Proof.
  induction d as [|[k' v'] d IH]; cbn [dict_update map fst]; [reflexivity|].
  rewrite not_elem_of_cons. intros [Hne Hin].
  destruct (decide (k = k')); [tauto|]. rewrite IH by assumption. reflexivity.
Qed.

Lemma dict_update_ext (f g : V -> V) d k :
  (forall v, f v = g v) -> dict_update f d k = dict_update g d k.
Proof.
  intros Hfg. induction d as [|[k' v'] d IH]; cbn [dict_update]; [reflexivity|].
  destruct (decide (k = k')); congruence.
Qed.

Lemma dict_update_id d k : dict_update (fun v => v) d k = d.
Proof.
  induction d as [|[k' v'] d IH]; cbn [dict_update]; [reflexivity|].
  destruct (decide (k = k')); congruence.
Qed.

(** With distinct keys, an update changes the entry of its key and no
    other. *)
Lemma elem_of_dict_update (f : V -> V) d k k' v' :
  NoDup (map fst d) ->
  (k', v') ∈ dict_update f d k
  <-> (k' <> k /\ (k', v') ∈ d) \/ (k' = k /\ exists v, (k, v) ∈ d /\ v' = f v).
Proof.
  induction d as [|[k0 v0] d IH]; cbn [dict_update map fst]; intros Hnd.
  - split; [intros H; inversion H|]. intros [[_ H]|[_ (v & H & _)]]; inversion H.
  - apply NoDup_cons in Hnd as [Hk0 Hnd]. specialize (IH Hnd).
    assert (Hfst : forall v, (k0, v) ∈ d -> False).
    { intros v Hv. apply Hk0. apply list_elem_of_In, in_map_iff.
      exists (k0, v). split; [reflexivity|apply list_elem_of_In, Hv]. }
    destruct (decide (k = k0)) as [->|Hne]; repeat setoid_rewrite elem_of_cons.
    + split.
      * intros [Heq|Hin].
        -- injection Heq as -> ->. right. split; [reflexivity|]. exists v0. split; [left|]; reflexivity.
        -- left. split; [intros ->; eauto|auto].
      * intros [[Hne [Heq|Hin]]|[-> (v & [Heq|Hin] & ->)]].
        -- injection Heq as -> ->. congruence.
        -- right. assumption.
        -- injection Heq as ->. left. reflexivity.
        -- exfalso. eauto.
    + rewrite IH. split.
      * intros [Heq|[[H1 H2]|[-> (v & Hv & ->)]]].
        -- injection Heq as -> ->. left. split; [congruence|left; reflexivity].
        -- left. auto.
        -- right. split; [reflexivity|]. exists v. split; [right; assumption|reflexivity].
      * intros [[H1 [Heq|Hin]]|[-> (v & [Heq|Hin] & ->)]].
        -- left. assumption.
        -- right. left. auto.
        -- injection Heq as Hk _. congruence.
        -- right. right. split; [reflexivity|]. exists v. split; [assumption|reflexivity].
Qed.

End DictFacts.

Section DictMap.
Context {K V W : Type} `{EqDecision K}.

Lemma dict_get_map (h : V -> W) (d : list (K * V)) (k : K) :
  dict_get (map (prod_map id h) d) k = h <$> dict_get d k.
Proof.
  induction d as [|[k' v'] d IH]; cbn [dict_get map prod_map fst snd id]; [reflexivity|].
  destruct (decide (k = k')); [reflexivity|exact IH].
Qed.

Lemma map_fst_prod_map (h : V -> W) (d : list (K * V)) :
  map fst (map (prod_map id h) d) = map fst d.
Proof. induction d as [|[k' v'] d IH]; cbn; congruence. Qed.

Lemma map_dict_setdefault (h : V -> W) (d : list (K * V)) (k : K) (v : V) :
  map (prod_map id h) (dict_setdefault d k v)
  = dict_setdefault (map (prod_map id h) d) k (h v).
Proof.
  rewrite !dict_setdefault_spec, map_fst_prod_map.
  destruct (decide (k ∈ map fst d)); [reflexivity|]. rewrite map_app. reflexivity.
Qed.

Lemma map_dict_update (h : V -> W) (f : V -> V) (g : W -> W) (d : list (K * V)) (k : K) :
  (forall v, h (f v) = g (h v)) ->
  map (prod_map id h) (dict_update f d k) = dict_update g (map (prod_map id h) d) k.
Proof.
  intros Hfg. induction d as [|[k' v'] d IH]; cbn [dict_update map prod_map fst snd id];
    [reflexivity|].
  destruct (decide (k = k')); cbn [map prod_map fst snd id]; congruence.
Qed.

End DictMap.

(** ** What the loop records about students *)

Lemma cohort_inv_nil (conf : string -> bool) (path : string -> option string) :
  cohort_inv conf path [] ∅ [].
Proof.
  repeat split.
  - constructor.
  - intros q s H. inversion H.
  - intros x H. inversion H.
Qed.

Lemma filter_snoc {A} (P : A -> Prop) `{forall x, Decision (P x)} (l : list A) (x : A) :
  filter P (l ++ [x]) = (filter P l ++ if decide (P x) then [x] else [])%list.
Proof. rewrite filter_app. reflexivity. Qed.

Lemma filter_none {A} (P : A -> Prop) `{forall x, Decision (P x)} (l : list A) :
  (forall x, x ∈ l -> ~ P x) -> filter P l = [].
Proof.
  induction l as [|x l IH]; intros Hl; [reflexivity|].
  rewrite filter_cons, decide_False by apply Hl, list_elem_of_here.
  apply IH. intros y Hy. apply Hl, list_elem_of_further, Hy.
Qed.

Lemma list_to_set_snoc (l : list string) (x : string) :
  list_to_set (l ++ [x]) =@{gset string} {[ x ]} ∪ list_to_set l.
Proof.
  rewrite list_to_set_app_L. cbn. rewrite (right_id_L ∅ (∪)). apply (comm_L (∪)).
Qed.

Lemma cohort_inv_setdefault conf path done S ps p :
  cohort_inv conf path done S ps ->
  cohort_inv conf path done S (dict_setdefault ps p ∅)
  /\ p ∈ map fst (dict_setdefault ps p ∅).
Proof.
  intros (HS & Hnd & Hsets & Hcov). rewrite dict_setdefault_spec.
  destruct (decide (p ∈ map fst ps)) as [Hin|Hout]; [repeat split; assumption|].
  assert (Hkeys : map fst (ps ++ [(p, ∅ : gset string)]) = (map fst ps ++ [p])%list)
    by (rewrite map_app; reflexivity).
  rewrite Hkeys. split; [|apply elem_of_app; right; apply list_elem_of_here].
  split; [assumption|split; [|split]].
  - rewrite Hkeys. apply NoDup_app. split; [assumption|split].
    + intros x Hx Hx'. apply list_elem_of_singleton in Hx' as ->. tauto.
    + apply NoDup_singleton.
  - intros q s [Hqs|Hqs]%elem_of_app; [apply Hsets, Hqs|].
    apply list_elem_of_singleton in Hqs. injection Hqs as -> ->.
    assert (E : filter (fun x => conf x = true /\ path x = Some p) done = []).
    { apply filter_none. intros x Hx [_ Hpx].
      destruct (Hcov x Hx) as (q & Hq & Hin). congruence. }
    rewrite E. reflexivity.
  - intros x Hx. destruct (Hcov x Hx) as (q & Hq & Hin). exists q.
    split; [assumption|]. rewrite Hkeys. apply elem_of_app. auto.
Qed.

Lemma cohort_inv_step conf path done S ps sid p :
  cohort_inv conf path done S ps ->
  path sid = Some p ->
  cohort_inv conf path (done ++ [sid])
    (if conf sid then {[ sid ]} ∪ S else S)
    (if conf sid
     then dict_update (fun s => {[ sid ]} ∪ s) (dict_setdefault ps p ∅) p
     else dict_setdefault ps p ∅).
Proof.
  intros Hinv Hp.
  destruct (cohort_inv_setdefault conf path done S ps p Hinv)
    as [(HS & Hnd & Hsets & Hcov) Hkey].
  set (ps1 := dict_setdefault ps p ∅) in *.
  assert (Hcov' : forall ps' : list (string * gset string), map fst ps' = map fst ps1 ->
            forall x, x ∈ (done ++ [sid])%list -> exists q, path x = Some q /\ q ∈ map fst ps').
  { intros ps' E x [Hx|Hx]%elem_of_app; rewrite E.
    - apply Hcov, Hx.
    - apply list_elem_of_singleton in Hx as ->. eauto. }
  destruct (conf sid) eqn:Hconf; (split; [|split; [|split]]).
  - rewrite filter_snoc, decide_True, list_to_set_snoc, <- HS by assumption. reflexivity.
  - rewrite dict_update_keys. assumption.
  - intros q s Hqs. apply elem_of_dict_update in Hqs; [|assumption].
    destruct Hqs as [[Hne Hqs]|[-> (s0 & Hs0 & ->)]]; rewrite filter_snoc.
    + rewrite decide_False, app_nil_r by (intros [_ H]; congruence). apply Hsets, Hqs.
    + rewrite decide_True, list_to_set_snoc, <- (Hsets p s0 Hs0) by auto. reflexivity.
  - apply Hcov', dict_update_keys.
  - rewrite filter_snoc, decide_False by congruence.
    rewrite app_nil_r. assumption.
  - assumption.
  - intros q s Hqs. rewrite filter_snoc, decide_False by (intros [H _]; congruence).
    rewrite app_nil_r. apply Hsets, Hqs.
  - apply Hcov'. reflexivity.
Qed.

Section StudentView.
Context {F : PyFloat}.

Lemma record_conflict_students path_type c1 c2 a :
  students_with_conflict (record_conflict path_type c1 c2 a) = students_with_conflict a
  /\ path_sets (record_conflict path_type c1 c2 a) = path_sets a.
Proof.
  split; [reflexivity|]. unfold path_sets, record_conflict. cbn [conflicts_by_path].
  rewrite (map_dict_update _ _ (fun s => s)) by reflexivity. apply dict_update_id.
Qed.

Lemma scan_against_students path_type c1 rest a b a' b' :
  scan_against path_type c1 rest (a, b) = inr (a', b') ->
  students_with_conflict a' = students_with_conflict a
  /\ path_sets a' = path_sets a
  /\ b' = b || conflicts_with c1 rest.
Proof.
  revert a b. induction rest as [|c2 rest IH]; intros a b H.
  - injection H as <- <-. rewrite orb_false_r. auto.
  - cbn [scan_against] in H. cbn [conflicts_with existsb].
    destruct (offerings_conflict _ _) as [e|[|]]; cbn in H; [discriminate| |].
    + apply IH in H as (-> & -> & ->).
      destruct (record_conflict_students path_type c1 c2 a) as [E1 E2].
      rewrite orb_true_r. auto.
    + apply IH in H as (-> & -> & ->). auto.
Qed.

Lemma scan_pairs_students path_type courses a b a' b' :
  scan_pairs path_type courses (a, b) = inr (a', b') ->
  students_with_conflict a' = students_with_conflict a
  /\ path_sets a' = path_sets a
  /\ b' = b || any_conflict courses.
Proof.
  revert a b. induction courses as [|c1 rest IH]; intros a b H.
  - injection H as <- <-. rewrite orb_false_r. auto.
  - cbn [scan_pairs] in H. cbn [any_conflict].
    destruct (scan_against _ _ _ _) as [e|[a1 b1]] eqn:E; cbn in H; [discriminate|].
    apply scan_against_students in E as (E1 & E2 & ->).
    apply IH in H as (-> & -> & ->). rewrite orb_assoc. auto.
Qed.

Lemma scan_student_students cto plans students_df a sid a' :
  scan_student cto plans students_df a sid = inr a' ->
  let b := any_conflict
             (scheduled_courses cto (filter (fun p => Plan.student_id p = sid) plans)) in
  exists p, path_of students_df sid = Some p
    /\ students_with_conflict a'
       = (if b then {[ sid ]} ∪ students_with_conflict a else students_with_conflict a)
    /\ path_sets a'
       = (if b
          then dict_update (fun s => {[ sid ]} ∪ s) (dict_setdefault (path_sets a) p ∅) p
          else dict_setdefault (path_sets a) p ∅).
Proof.
  intros H b. unfold scan_student in H. unfold path_of.
  destruct (filter _ students_df) as [|info sel]; [discriminate|]. cbn in H.
  exists (Student.path_type info). split; [reflexivity|].
  destruct (scan_pairs _ _ _) as [e|[a2 b2]] eqn:E; cbn in H; [discriminate|].
  apply scan_pairs_students in E as (E1 & E2 & ->). cbn [orb] in H. fold b in H.
  unfold path_sets in E2. cbn [conflicts_by_path students_with_conflict] in E1, E2.
  rewrite map_dict_setdefault in E2. cbn in E2.
  injection H as <-. destruct b; cbn [students_with_conflict conflicts_by_path].
  - split; [congruence|]. unfold path_sets. cbn [conflicts_by_path].
    rewrite (map_dict_update _ _ (fun s => {[ sid ]} ∪ s)) by reflexivity.
    unfold path_sets in E2. rewrite E2. reflexivity.
  - split; [assumption|]. exact E2.
Qed.

Lemma scan_students_inv cto plans students_df ids done a a' :
  let conf sid :=
    any_conflict (scheduled_courses cto (filter (fun p => Plan.student_id p = sid) plans)) in
  scan_students cto plans students_df ids a = inr a' ->
  cohort_inv conf (path_of students_df) done (students_with_conflict a) (path_sets a) ->
  cohort_inv conf (path_of students_df) (done ++ ids)
    (students_with_conflict a') (path_sets a').
Proof.
  intros conf. revert done a. induction ids as [|sid ids IH]; intros done a H Hinv.
  - injection H as <-. rewrite app_nil_r. assumption.
  - cbn [scan_students] in H.
    destruct (scan_student cto plans students_df a sid) as [e|a1] eqn:E; cbn in H;
      [discriminate|].
    apply scan_student_students in E as (p & Hp & E1 & E2).
    rewrite (cons_middle sid done ids), app_assoc. apply (IH _ a1 H).
    rewrite E1, E2. apply cohort_inv_step; assumption.
Qed.

End StudentView.

(** ** Sorting *)

Section Sorting.
Context {F : PyFloat} {A : Type} (key : A -> float).

Lemma insert_desc_perm (x : A) (l : list A) : insert_desc key x l ≡ₚ x :: l.
Proof.
  induction l as [|y l IH]; cbn [insert_desc]; [reflexivity|].
  destruct (flt (key x) (key y)); [|reflexivity].
  rewrite IH. apply Permutation_swap.
Qed.

Lemma sorted_desc_perm (l : list A) : sorted_desc key l ≡ₚ l.
Proof.
  unfold sorted_desc. induction l as [|x l IH]; cbn [foldr]; [reflexivity|].
  rewrite insert_desc_perm, IH. reflexivity.
Qed.

Lemma elem_of_sorted_desc (x : A) (l : list A) : x ∈ sorted_desc key l <-> x ∈ l.
Proof. rewrite sorted_desc_perm. reflexivity. Qed.

End Sorting.

(** ** Cohort rates *)

Lemma student_scan_cohorts `{F : PyFloat} (schedule_df : list Schedule.row)
    (student_plans_df : list Plan.row) (students_df : list Student.row) (a : accumulators) :
  student_scan schedule_df student_plans_df students_df = inr a ->
  cohort_inv (conflicted schedule_df student_plans_df) (path_of students_df)
    (Py.unique (map Plan.student_id (plans_in_terms schedule_df student_plans_df)))
    (students_with_conflict a) (path_sets a).
Proof.
  unfold student_scan. intros H.
  apply (scan_students_inv _ _ _ _ [] initial a H). apply cohort_inv_nil.
Qed.

(** The overall count is the number of distinct conflicted students. *)
Lemma students_with_conflict_count `{F : PyFloat} (schedule_df : list Schedule.row)
    (student_plans_df : list Plan.row) (students_df : list Student.row) (res : Result.t) :
  calculate_conflicts schedule_df student_plans_df students_df = inr res ->
  Metrics.students_with_conflict (Result.metrics res)
  = len (conflicted_students schedule_df student_plans_df).
Proof.
  unfold calculate_conflicts. intros H.
  destruct (student_scan _ _ _) as [?|a] eqn:Hscan; [discriminate|]. cbn in H.
  destruct (int_truediv _ _) as [?|ratio]; [discriminate|]. cbn in H.
  injection H as <-. cbn [Result.metrics Metrics.students_with_conflict].
  apply student_scan_cohorts in Hscan as (-> & _).
  unfold len, conflicted_students. f_equal. apply size_list_to_set.
  apply NoDup_filter, NoDup_unique.
Qed.

(** C6.  Every entry of [by_path_type] carries the number of distinct
    conflicted students of its path, the number of roster rows of that
    path, and as [conflict_rate] the first divided by the second, times
    100, rounded to one decimal.  The entry of a path without roster row
    gets the integer 0 as its rate, and building an entry raises
    nothing: no division by zero can come out of it. *)
Theorem path_conflict_rate `{F : PyFloat} (schedule_df : list Schedule.row)
    (student_plans_df : list Plan.row) (students_df : list Student.row)
    (res : Result.t) (e : PathEntry.t) :
  calculate_conflicts schedule_df student_plans_df students_df = inr res ->
  e ∈ Metrics.by_path_type (Result.metrics res) ->
  let n := len (conflicted_in_path schedule_df student_plans_df students_df
                  (PathEntry.path_type e)) in
  let total := len (filter (fun s => Student.path_type s = PathEntry.path_type e)
                      students_df) in
  PathEntry.students_with_conflict e = n
  /\ PathEntry.total_students_in_path e = total
  /\ PathEntry.conflict_rate e
     = (if Z.ltb 0 total
        then Float (round 1 (fmul (truediv n total) (of_int 100)))
        else Int 0)
  /\ (forall item : string * path_metrics,
        len (filter (fun s => Student.path_type s = fst item) students_df) = 0 ->
        PathEntry.conflict_rate (format_path students_df item) = Int 0).
Proof.
  intros H He n total.
  assert (Hzero : forall item : string * path_metrics,
            len (filter (fun s => Student.path_type s = fst item) students_df) = 0 ->
            PathEntry.conflict_rate (format_path students_df item) = Int 0).
  { intros [p pm] H0. cbn [fst] in H0. cbn [format_path PathEntry.conflict_rate].
    rewrite H0. reflexivity. }
  unfold calculate_conflicts in H.
  destruct (student_scan _ _ _) as [?|a] eqn:Hscan; [discriminate|]. cbn in H.
  destruct (int_truediv _ _) as [?|ratio]; [discriminate|]. cbn in H.
  injection H as <-. cbn [Result.metrics Metrics.by_path_type] in He.
  apply elem_of_sorted_desc, list_elem_of_In, in_map_iff in He as ([p pm] & <- & Hin).
  apply list_elem_of_In in Hin.
  apply student_scan_cohorts in Hscan as (_ & _ & Hsets & _).
  assert (Hset : pm_students_with_conflict pm
                 = list_to_set (conflicted_in_path schedule_df student_plans_df students_df p)).
  { apply Hsets. unfold path_sets. apply list_elem_of_In, in_map_iff.
    exists (p, pm). split; [reflexivity|apply list_elem_of_In, Hin]. }
  assert (Hn : Z.of_nat (size (pm_students_with_conflict pm)) = n).
  { rewrite Hset, size_list_to_set; [reflexivity|].
    apply NoDup_filter, NoDup_unique. }
  subst n total. cbn [format_path PathEntry.path_type PathEntry.students_with_conflict
                      PathEntry.total_students_in_path PathEntry.conflict_rate] in *.
  rewrite Hn. auto.
Qed.


Lemma overlap_result_computed :
  calculate_conflicts Example.two_courses Example.overlap_plans Example.roster
  = inr Example.overlap_result.
Proof. reflexivity. Qed.

(** An instance, in binary64: the entry of path "Structures" in
    [Example.overlap_result]. *)
Lemma path_conflict_rate_witness :
  PathEntry.students_with_conflict Example.structures_entry
  = len (conflicted_in_path Example.two_courses Example.overlap_plans Example.roster
           "Structures")
  /\ PathEntry.total_students_in_path Example.structures_entry
     = len (filter (fun s => Student.path_type s = "Structures") Example.roster)
  /\ PathEntry.conflict_rate Example.structures_entry
     = Float (round 1 (fmul (truediv 1 1) (of_int 100))).
Proof.
  destruct (path_conflict_rate Example.two_courses Example.overlap_plans Example.roster
              Example.overlap_result Example.structures_entry)
    as (H1 & H2 & H3 & _).
  - reflexivity.
  - apply list_elem_of_here.
  - exact (conj H1 (conj H2 H3)).
Defined.


(** ** Ranked lists *)

Section Ranking.
Context {F : PyFloat}.

(** What ranking needs of the floats.  [proper] singles out the values
    on which the order behaves, every value but NaN in binary64: [<] is
    asymmetric, and "not less" is transitive on proper values. *)
Variable proper : float -> Prop.
Hypothesis flt_asym : forall x y : float, flt x y = true -> flt y x = false.
Hypothesis fge_trans :
  forall x y z : float, proper x -> proper y -> proper z ->
    flt x y = false -> flt y z = false -> flt x z = false.

Lemma insert_desc_sorted {A} (key : A -> float) (x : A) (l : list A) :
  proper (key x) -> Forall (fun y => proper (key y)) l ->
  non_increasing key l -> non_increasing key (insert_desc key x l).
Proof.
  unfold non_increasing. intros Hx Hl H. induction H as [|y l Hs IH Hy]; cbn [insert_desc].
  - repeat constructor.
  - apply Forall_cons in Hl as [Hpy Hl].
    destruct (flt (key x) (key y)) eqn:E.
    + constructor; [apply IH, Hl|].
      rewrite (insert_desc_perm key x l). constructor; [apply flt_asym, E|assumption].
    + constructor; [constructor; assumption|].
      constructor; [assumption|].
      rewrite Forall_forall in Hy, Hl. apply Forall_forall. intros z Hz.
      apply (fge_trans _ (key y)); auto.
Qed.

Lemma sorted_desc_sorted {A} (key : A -> float) (l : list A) :
  Forall (fun y => proper (key y)) l -> non_increasing key (sorted_desc key l).
Proof.
  unfold sorted_desc. induction 1 as [|x l Hx Hl IH]; cbn [foldr]; [constructor|].
  apply insert_desc_sorted; [assumption| |assumption].
  fold (sorted_desc key l). rewrite sorted_desc_perm. assumption.
Qed.



Lemma top10_proper {K} (d : list (K * float)) :
  Forall proper (map snd d) -> Forall (fun x => proper (snd x)) (top10 d).
Proof.
  intros Hd. unfold top10. apply Forall_take. rewrite sorted_desc_perm.
  apply Forall_forall. intros x Hx. rewrite Forall_forall in Hd.
  apply Hd, list_elem_of_In, in_map, list_elem_of_In, Hx.
Qed.

Lemma top10_length {K} (d : list (K * float)) : (length (top10 d) <= 10)%nat.
Proof. unfold top10. rewrite length_take. lia. Qed.

Lemma non_increasing_map {A B} (key : A -> float) (key' : B -> float) (f : A -> B)
    (l : list A) :
  (forall x y, proper (key x) -> proper (key y) ->
               flt (key x) (key y) = false -> flt (key' (f x)) (key' (f y)) = false) ->
  Forall (fun x => proper (key x)) l ->
  non_increasing key l -> non_increasing key' (map f l).
Proof.
  unfold non_increasing. intros Hf Hl H.
  induction H as [|y l Hs IH Hy]; cbn [map]; [constructor|].
  apply Forall_cons in Hl as [Hpy Hl]. constructor; [apply IH, Hl|].
  rewrite Forall_forall in Hy, Hl. apply Forall_forall. intros z Hz.
  apply list_elem_of_In, in_map_iff in Hz as (x & <- & Hx). apply list_elem_of_In in Hx.
  apply Hf; auto.
Qed.



End Ranking.

(** The lengths need no assumption at all. *)
Lemma top_lists_length `{F : PyFloat} (schedule_df : list Schedule.row)
    (student_plans_df : list Plan.row) (students_df : list Student.row) (res : Result.t) :
  calculate_conflicts schedule_df student_plans_df students_df = inr res ->
  (length (Metrics.top_conflicting_pairs (Result.metrics res)) <= 10)%nat
  /\ (length (Metrics.top_conflicting_courses (Result.metrics res)) <= 10)%nat.
Proof.
  unfold calculate_conflicts. intros H.
  destruct (student_scan _ _ _) as [?|a]; [discriminate|]. cbn in H.
  destruct (int_truediv _ _) as [?|ratio]; [discriminate|]. cbn in H.
  injection H as <-.
  cbn [Result.metrics Metrics.top_conflicting_pairs Metrics.top_conflicting_courses].
  rewrite !length_map. split; apply top10_length.
Qed.

(** ** The order of binary64 *)

Lemma compare_cont_Eq_spec (m1 m2 : positive) :
  CompareSpec (m1 = m2) (m1 < m2)%positive (m2 < m1)%positive (Pos.compare_cont Eq m1 m2).
Proof. change (Pos.compare_cont Eq m1 m2) with (Pos.compare m1 m2). apply Pos.compare_spec. Qed.

Ltac cmp_cases :=
  repeat match goal with
         | |- context [Z.compare ?a ?b] => destruct (Z.compare_spec a b)
         | |- context [Pos.compare_cont Eq ?a ?b] => destruct (compare_cont_Eq_spec a b)
         end.

Lemma SFltb_asym (x y : SpecFloat.spec_float) :
  SpecFloat.SFltb x y = true -> SpecFloat.SFltb y x = false.
Proof.
  unfold SpecFloat.SFltb, SpecFloat.SFcompare.
  destruct x as [sx|sx| |sx mx ex], y as [sy|sy| |sy my ey];
    try destruct sx; try destruct sy; cbn; try congruence;
    cmp_cases; cbn; try congruence; try lia.
Qed.

Lemma SFge_trans (x y z : SpecFloat.spec_float) :
  x <> SpecFloat.S754_nan -> y <> SpecFloat.S754_nan -> z <> SpecFloat.S754_nan ->
  SpecFloat.SFltb x y = false -> SpecFloat.SFltb y z = false -> SpecFloat.SFltb x z = false.
Proof.
  unfold SpecFloat.SFltb, SpecFloat.SFcompare.
  destruct x as [sx|sx| |sx mx ex], y as [sy|sy| |sy my ey], z as [sz|sz| |sz mz ez];
    try destruct sx; try destruct sy; try destruct sz; cbn; try congruence;
    intros _ _ _; cmp_cases; cbn; try congruence; try lia.
Qed.

Lemma binary64_lt_asym (x y : PrimFloat.float) :
  PrimFloat.ltb x y = true -> PrimFloat.ltb y x = false.
Proof. rewrite !FloatAxioms.ltb_spec. apply SFltb_asym. Qed.

Lemma binary64_ge_trans (x y z : PrimFloat.float) :
  Binary64.not_nan x -> Binary64.not_nan y -> Binary64.not_nan z ->
  PrimFloat.ltb x y = false -> PrimFloat.ltb y z = false -> PrimFloat.ltb x z = false.
Proof. rewrite !FloatAxioms.ltb_spec. apply SFge_trans. Qed.


(** ** The exact arithmetic obeys the laws *)

Lemma nearest_even_bounds (n d : Z) :
  0 < d -> 2 * n - d <= 2 * (d * nearest_even n d) <= 2 * n + d.
Proof.
  intros Hd. unfold nearest_even.
  pose proof (Z.div_mod n d ltac:(lia)) as Hdiv.
  pose proof (Z.mod_pos_bound n d Hd) as Hmod.
  destruct (Z.compare_spec (2 * (n mod d)) d) as [E|E|E];
    [destruct (Z.even (n / d))| |]; nia.
Qed.

Lemma nearest_even_mono (n1 d1 n2 d2 : Z) :
  0 < d1 -> 0 < d2 -> n1 * d2 < n2 * d1 ->
  nearest_even n1 d1 <= nearest_even n2 d2.
Proof.
  intros H1 H2 Hlt.
  pose proof (nearest_even_bounds n1 d1 H1) as [_ B1].
  pose proof (nearest_even_bounds n2 d2 H2) as [B2 _].
  destruct (Z_le_gt_dec (nearest_even n1 d1) (nearest_even n2 d2)) as [|Hgt]; [assumption|].
  exfalso.
  assert (E1 : 2 * (d1 * nearest_even n1 d1) * d2 <= (2 * n1 + d1) * d2) by nia.
  assert (E2 : (2 * n2 - d2) * d1 <= 2 * (d2 * nearest_even n2 d2) * d1) by nia.
  assert (E3 : (nearest_even n2 d2 + 1) * (d1 * d2) <= nearest_even n1 d1 * (d1 * d2)) by nia.
  nia.
Qed.

Lemma Q2Qc_le (a b : Z) (p : positive) : a <= b -> Qcle (Q2Qc (Qmake a p)) (Q2Qc (Qmake b p)).
Proof.
  intros Hab. unfold Qcle. cbn [this Q2Qc]. rewrite !Qred_correct.
  unfold Qle. cbn [Qnum Qden]. nia.
Qed.

Lemma exact_lt_false (x y : Qc) : Exact.lt x y = false <-> Qcle y x.
Proof.
  unfold Exact.lt. rewrite bool_decide_eq_false. split.
  - apply Qcnot_lt_le.
  - intros H1 H2. exact (Qclt_not_le _ _ H2 H1).
Qed.

Lemma exact_lt_asym (x y : Qc) : Exact.lt x y = true -> Exact.lt y x = false.
Proof.
  unfold Exact.lt. rewrite bool_decide_eq_true. intros H.
  apply exact_lt_false, Qclt_le_weak, H.
Qed.

Lemma exact_ge_trans (x y z : Qc) :
  Exact.lt x y = false -> Exact.lt y z = false -> Exact.lt x z = false.
Proof. rewrite !exact_lt_false. intros H1 H2. exact (Qcle_trans _ _ _ H2 H1). Qed.

Lemma exact_round_mono (n : Z) (x y : Qc) :
  Exact.lt x y = false ->
  Exact.lt (Exact.round_decimal n x) (Exact.round_decimal n y) = false.
Proof.
  rewrite !exact_lt_false. intros Hle.
  apply Qcle_lt_or_eq in Hle as [Hlt| ->]; [|apply Qcle_refl].
  unfold Exact.round_decimal. apply Q2Qc_le.
  assert (Hp : 0 <= 10 ^ n) by (apply Z.pow_nonneg; lia).
  destruct (Z.eq_dec (10 ^ n) 0) as [->|Hne].
  - rewrite !Z.mul_0_r. reflexivity.
  - apply nearest_even_mono; try reflexivity.
    unfold Qclt, Qlt in Hlt. nia.
Qed.

Lemma exact_add_0_l (x : Qc) : Qcplus (Q2Qc 0) x = x.
Proof. apply Qcplus_0_l. Qed.

Lemma exact_double (x : Qc) : Qcmult (Exact.of_Z 2) x = Qcplus x x.
Proof.
  assert (E : Exact.of_Z 2 = Qcplus (Q2Qc 1) (Q2Qc 1)) by (apply Qc_is_canon; reflexivity).
  rewrite E. ring.
Qed.


(** In exact arithmetic rounding keeps the order of any two values. *)
Lemma exact_round_keeps_order (n : Z) (l : list Qc) :
  round_keeps_order (F := Exact.rationals) n l.
Proof. intros x y _ _. apply exact_round_mono. Qed.

(** ** Ranked top lists in binary64 *)

Lemma nan_result_computed :
  calculate_conflicts Example.three_courses Example.nan_plans Example.nan_roster
  = inr Example.nan_result.
Proof. reflexivity. Qed.

Lemma tenths_result_computed :
  calculate_conflicts Example.three_courses
    (Example.three_plans (Example.dec 1 1) (Example.dec 2 1) (Example.dec 10 1))
    Example.roster
  = inr Example.tenths_result.
Proof. reflexivity. Qed.

(** ** Scores that are never NaN *)

(** What the rounding of the specification floats returns on a
    mantissa that is not negative: a value of the sign asked for, never
    NaN. *)
Section SignOfRounding.
Variables prec emax : Z.









End SignOfRounding.













(** A list in which no element scores less than the next is left as it
    is, whatever the scores: it is a single run of the sort. *)
Lemma sorted_desc_single_run `{F : PyFloat} {A} (key : A -> float) (l : list A) :
  Sorted (fun x y => flt (key x) (key y) = false) l -> sorted_desc key l = l.
Proof.
  unfold sorted_desc. induction 1 as [|x l Hl IH Hx]; [reflexivity|].
  cbn [foldr]. rewrite IH. destruct Hx as [|y l' Hy]; [reflexivity|].
  cbn [insert_desc]. rewrite Hy. reflexivity.
Qed.




(** ** Per-course scores against the global total *)

Lemma dyadic_result_computed :
  calculate_conflicts Example.three_courses
    (Example.three_plans (Example.dec 5 1) (Example.dec 5 1) (Example.dec 25 2))
    Example.roster
  = inr Example.dyadic_result.
Proof. reflexivity. Qed.

Lemma tenths_scan_computed :
  student_scan Example.three_courses
    (Example.three_plans (Example.dec 1 1) (Example.dec 2 1) (Example.dec 10 1))
    Example.roster
  = inr Example.tenths_scan.
Proof. reflexivity. Qed.

(** C4, as stated, read on the emitted values and read on the
    accumulators.  Neither holds in binary64.  With likelihoods 0.5, 0.5
    and 0.25 the emitted course scores 0.38, 0.38 and 0.25 add up to
    1.01 while twice the emitted total is 1.0: each figure is rounded to
    two decimals on its own.  With likelihoods 0.1, 0.2 and 1.0 the
    accumulated course scores add up to 0.6400000000000001 while twice
    the accumulated total is 0.64: float addition is not associative. *)
Lemma per_course_sum_differs :
  ~ (forall (F : PyFloat) (schedule_df : list Schedule.row)
            (student_plans_df : list Plan.row) (students_df : list Student.row)
            (res : Result.t),
       calculate_conflicts schedule_df student_plans_df students_df = inr res ->
       fsum (map CourseEntry.conflict_score
               (Metrics.top_conflicting_courses (Result.metrics res)))
       = fmul (of_int 2) (Metrics.expected_conflicts_all (Result.metrics res)))
  /\ ~ (forall (F : PyFloat) (schedule_df : list Schedule.row)
               (student_plans_df : list Plan.row) (students_df : list Student.row)
               (a : accumulators),
          student_scan schedule_df student_plans_df students_df = inr a ->
          fsum (map snd (conflicts_by_course a))
          = fmul (of_int 2) (total_expected_conflicts a)).
Proof.
  split; intros H.
  - specialize (H Binary64.binary64 _ _ _ _ dyadic_result_computed).
    assert (N : PrimFloat.eqb
                  (fsum (map CourseEntry.conflict_score
                     (Metrics.top_conflicting_courses (Result.metrics Example.dyadic_result))))
                  (fmul (of_int 2)
                     (Metrics.expected_conflicts_all (Result.metrics Example.dyadic_result)))
                = false) by reflexivity.
    rewrite H in N.
    assert (Y : PrimFloat.eqb
                  (fmul (of_int 2)
                     (Metrics.expected_conflicts_all (Result.metrics Example.dyadic_result)))
                  (fmul (of_int 2)
                     (Metrics.expected_conflicts_all (Result.metrics Example.dyadic_result)))
                = true) by reflexivity.
    congruence.
  - specialize (H Binary64.binary64 _ _ _ _ tenths_scan_computed).
    assert (N : PrimFloat.eqb
                  (fsum (map snd (conflicts_by_course Example.tenths_scan)))
                  (fmul (of_int 2) (total_expected_conflicts Example.tenths_scan))
                = false) by reflexivity.
    rewrite H in N.
    assert (Y : PrimFloat.eqb
                  (fmul (of_int 2) (total_expected_conflicts Example.tenths_scan))
                  (fmul (of_int 2) (total_expected_conflicts Example.tenths_scan))
                = true) by reflexivity.
    congruence.
Qed.

(** The figures behind the two divergences. *)
Lemma per_course_sum_figures :
  fsum (map CourseEntry.conflict_score
          (Metrics.top_conflicting_courses (Result.metrics Example.dyadic_result)))
  = Example.dec 101 2
  /\ fmul (of_int 2) (Metrics.expected_conflicts_all (Result.metrics Example.dyadic_result))
     = Example.dec 1 0
  /\ fsum (map snd (conflicts_by_course Example.tenths_scan))
     = Example.dec 6400000000000001 16
  /\ fmul (of_int 2) (total_expected_conflicts Example.tenths_scan) = Example.dec 64 2.
Proof. repeat split; reflexivity. Qed.

Section Accounting.
Context {F : PyFloat}.

(** Exact addition: a commutative monoid, with doubling as
    multiplication by two. *)
Hypothesis fadd_assoc : forall x y z : float, fadd x (fadd y z) = fadd (fadd x y) z.
Hypothesis fadd_comm : forall x y : float, fadd x y = fadd y x.
Hypothesis fadd_0_l : forall x : float, fadd fzero x = x.
Hypothesis fmul_2 : forall x : float, fmul (of_int 2) x = fadd x x.

Lemma fold_fadd (l : list float) (x : float) : fold_left fadd l x = fadd x (fsum l).
Proof.
  unfold fsum. revert x. induction l as [|y l IH]; intros x; cbn [fold_left].
  - rewrite fadd_comm, fadd_0_l. reflexivity.
  - rewrite (IH (fadd x y)), (IH (fadd fzero y)), fadd_0_l, fadd_assoc. reflexivity.
Qed.

Lemma fsum_cons (x : float) (l : list float) : fsum (x :: l) = fadd x (fsum l).
Proof. unfold fsum at 1. cbn [fold_left]. rewrite fold_fadd, fadd_0_l. reflexivity. Qed.

Lemma add_score_head {K} `{EqDecision K} (d : list (K * float)) (k : K) (v w : float) :
  add_score ((k, v) :: d) k w = (k, fadd v w) :: d.
Proof.
  unfold add_score, dict_setdefault. cbn [dict_get]. rewrite decide_True by reflexivity.
  cbn [dict_update]. rewrite decide_True by reflexivity. reflexivity.
Qed.

Lemma add_score_tail {K} `{EqDecision K} (d : list (K * float)) (k k' : K) (v w : float) :
  k <> k' -> add_score ((k', v) :: d) k w = (k', v) :: add_score d k w.
Proof.
  intros Hne. unfold add_score, dict_setdefault. cbn [dict_get].
  rewrite decide_False by assumption.
  destruct (dict_get d k); cbn [dict_set dict_update]; rewrite ?decide_False by assumption;
    cbn [dict_update]; rewrite ?decide_False by assumption; reflexivity.
Qed.

(** Adding a weight to one bucket adds it to the sum of the buckets. *)
Lemma fsum_add_score {K} `{EqDecision K} (d : list (K * float)) (k : K) (w : float) :
  fsum (map snd (add_score d k w)) = fadd (fsum (map snd d)) w.
Proof.
  induction d as [|[k' v] d IH].
  - unfold add_score, dict_setdefault. cbn. rewrite decide_True by reflexivity. cbn.
    unfold fsum. cbn. rewrite !fadd_0_l. reflexivity.
  - destruct (decide (k = k')) as [<-|Hne].
    + rewrite add_score_head. cbn [map snd]. rewrite !fsum_cons.
      rewrite <- !fadd_assoc, (fadd_comm w). reflexivity.
    + rewrite add_score_tail by assumption. cbn [map snd]. rewrite !fsum_cons, IH.
      apply fadd_assoc.
Qed.

Lemma balanced_initial : balanced initial.
Proof. unfold balanced, fsum. cbn. rewrite fadd_0_l. reflexivity. Qed.

Lemma balanced_record path_type c1 c2 a :
  balanced a -> balanced (record_conflict path_type c1 c2 a).
Proof.
  unfold balanced, record_conflict. cbn [conflicts_by_course total_expected_conflicts].
  intros H. rewrite !fsum_add_score, H.
  set (t := total_expected_conflicts a). set (w := fmul _ _).
  rewrite <- !fadd_assoc. f_equal.
  rewrite (fadd_comm w (fadd t w)), <- !fadd_assoc. reflexivity.
Qed.

Lemma balanced_scan_against path_type c1 rest a b a' b' :
  scan_against path_type c1 rest (a, b) = inr (a', b') -> balanced a -> balanced a'.
Proof.
  revert a b. induction rest as [|c2 rest IH]; intros a b H Ha.
  - injection H as <- <-. assumption.
  - cbn [scan_against] in H.
    destruct (offerings_conflict _ _) as [e|[|]]; cbn in H; [discriminate| |].
    + apply IH in H; [assumption|]. apply balanced_record, Ha.
    + apply IH in H; assumption.
Qed.

Lemma balanced_scan_pairs path_type courses a b a' b' :
  scan_pairs path_type courses (a, b) = inr (a', b') -> balanced a -> balanced a'.
Proof.
  revert a b. induction courses as [|c1 rest IH]; intros a b H Ha.
  - injection H as <- <-. assumption.
  - cbn [scan_pairs] in H.
    destruct (scan_against _ _ _ _) as [e|[a1 b1]] eqn:E; cbn in H; [discriminate|].
    apply balanced_scan_against in E; [|assumption]. apply IH in H; assumption.
Qed.

Lemma balanced_scan_student cto plans students_df a sid a' :
  scan_student cto plans students_df a sid = inr a' -> balanced a -> balanced a'.
Proof.
  unfold scan_student. intros H Ha.
  destruct (iloc0 _) as [e|info]; cbn in H; [discriminate|].
  destruct (scan_pairs _ _ _) as [e|[a2 b2]] eqn:E; cbn in H; [discriminate|].
  apply balanced_scan_pairs in E; [|exact Ha].
  injection H as <-. destruct b2; exact E.
Qed.

Lemma balanced_scan_students cto plans students_df ids a a' :
  scan_students cto plans students_df ids a = inr a' -> balanced a -> balanced a'.
Proof.
  revert a. induction ids as [|sid ids IH]; intros a H Ha.
  - injection H as <-. assumption.
  - cbn [scan_students] in H.
    destruct (scan_student _ _ _ _ _) as [e|a1] eqn:E; cbn in H; [discriminate|].
    apply balanced_scan_student in E; [|assumption]. apply IH in H; assumption.
Qed.

(** C4, amended.  When float addition is exact, the per-course scores
    accumulated by the scan add up to twice the accumulated global
    total: every conflicting pair adds its weight to two course buckets
    and once to the total. *)
Theorem per_course_sum_twice_total (schedule_df : list Schedule.row)
    (student_plans_df : list Plan.row) (students_df : list Student.row)
    (a : accumulators) :
  student_scan schedule_df student_plans_df students_df = inr a ->
  fsum (map snd (conflicts_by_course a)) = fmul (of_int 2) (total_expected_conflicts a).
Proof.
  unfold student_scan. intros H. rewrite fmul_2.
  exact (balanced_scan_students _ _ _ _ _ _ H balanced_initial).
Qed.

End Accounting.

(** An instance, in exact arithmetic, where the four laws hold. *)
Lemma per_course_sum_twice_total_witness :
  fsum (map snd (conflicts_by_course Example.exact_scan))
  = fmul (of_int 2) (total_expected_conflicts Example.exact_scan).
Proof.
  apply (per_course_sum_twice_total (F := Exact.rationals)
           Qcplus_assoc Qcplus_comm exact_add_0_l exact_double
           Example.three_courses Example.exact_plans Example.roster).
  reflexivity.
Defined.

(** * Further properties of the predicates *)

Lemma day_patterns_conflict_chars (p q : string) :
  day_patterns_conflict p q = true
  <-> exists c, c ∈ list_ascii_of_string p /\ c ∈ list_ascii_of_string q.
Proof.
  unfold day_patterns_conflict. cbn zeta. rewrite bool_decide_eq_true. split.
  - intros [c Hc]%size_pos_elem_of. exists c.
    rewrite elem_of_intersection, !elem_of_list_to_set in Hc. exact Hc.
  - intros (c & Hp & Hq).
    assert (Hc : c ∈ (list_to_set (list_ascii_of_string p) : gset ascii)
                     ∩ list_to_set (list_ascii_of_string q))
      by (rewrite elem_of_intersection, !elem_of_list_to_set; auto).
    destruct (Nat.eq_dec (size ((list_to_set (list_ascii_of_string p) : gset ascii)
                                ∩ list_to_set (list_ascii_of_string q))) 0%nat) as [E|E];
      [|lia].
    apply size_empty_inv in E. rewrite E in Hc. apply elem_of_empty in Hc as [].
Qed.

Lemma day_patterns_conflict_self (p : string) :
  p <> EmptyString -> day_patterns_conflict p p = true.
Proof.
  intros Hne. apply day_patterns_conflict_chars. destruct p as [|c p]; [congruence|].
  exists c. split; apply list_elem_of_here.
Qed.

(** X1.  On any two strings, valid patterns or not,
    [day_patterns_conflict] holds exactly when the strings share a
    character.  The empty string conflicts with nothing, itself
    included; every other string conflicts with itself. *)
Theorem day_patterns_share_a_character (p q : string) :
  (day_patterns_conflict p q = true
   <-> exists c, c ∈ list_ascii_of_string p /\ c ∈ list_ascii_of_string q)
  /\ day_patterns_conflict EmptyString q = false
  /\ day_patterns_conflict p EmptyString = false
  /\ (p <> EmptyString -> day_patterns_conflict p p = true).
Proof.
  split; [apply day_patterns_conflict_chars|]. split; [|split].
  - apply not_true_is_false. rewrite day_patterns_conflict_chars.
    intros (c & Hc & _). inversion Hc.
  - apply not_true_is_false. rewrite day_patterns_conflict_chars.
    intros (c & _ & Hc). inversion Hc.
  - apply day_patterns_conflict_self.
Qed.

Lemma split_colon_length (s : string) : length (Py.split_colon s) = S (colons s).
Proof.
  induction s as [|c s IH]; [reflexivity|]. cbn [Py.split_colon colons].
  destruct (Ascii.eqb c ":"); cbn [length]; [rewrite IH; reflexivity|].
  destruct (Py.split_colon s); cbn [length] in *; [discriminate|]. exact IH.
Qed.

(** X2.  [time_to_minutes] raises [ValueError] on every string that does
    not hold exactly one colon (the unpacking into [h, m] needs two
    parts), and it never raises anything else. *)
Theorem time_to_minutes_needs_one_colon (time_str : string) :
  colons time_str <> 1%nat ->
  time_to_minutes time_str = inl ValueError
  /\ forall (s : string) (e : exn), time_to_minutes s = inl e -> e = ValueError.
Proof.
  intros Hc. split; [|exact time_to_minutes_error].
  unfold time_to_minutes. pose proof (split_colon_length time_str) as Hlen.
  destruct (Py.split_colon time_str) as [|hs [|ms [|]]]; try reflexivity.
  cbn [length] in Hlen. congruence.
Qed.

(** Instances: no colon, and hours, minutes and seconds. *)
Lemma time_to_minutes_needs_one_colon_witness :
  time_to_minutes "0930" = inl ValueError
  /\ time_to_minutes "09:30:00" = inl ValueError.
Proof.
  split.
  - apply (time_to_minutes_needs_one_colon "0930"). cbn. lia.
  - apply (time_to_minutes_needs_one_colon "09:30:00"). cbn. lia.
Defined.

(** X3.  [time_to_minutes] checks no range: any two fields of two
    digits convert, 24:00 and 99:99 included, to sixty times the first
    plus the second. *)
Theorem time_to_minutes_unbounded (h m : nat) :
  (h < 100)%nat -> (m < 100)%nat ->
  time_to_minutes (hhmm h m) = inr (Z.of_nat h * 60 + Z.of_nat m).
Proof. intros Hh Hm. rewrite time_to_minutes_hhmm by assumption. reflexivity. Qed.

Lemma time_to_minutes_unbounded_witness :
  time_to_minutes "99:99" = inr 6039.
Proof. apply (time_to_minutes_unbounded 99 99); lia. Defined.

Lemma times_overlap_malformed (start1 end1 start2 end2 : string) :
  Exists (fun t => time_to_minutes t = inl ValueError) [start1; end1; start2; end2] ->
  times_overlap start1 end1 start2 end2 = inl ValueError.
Proof.
  intros H. unfold times_overlap.
  destruct (time_to_minutes start1) as [e|s1] eqn:E1; cbn;
    [apply time_to_minutes_error in E1 as ->; reflexivity|].
  destruct (time_to_minutes end1) as [e|e1] eqn:E2; cbn;
    [apply time_to_minutes_error in E2 as ->; reflexivity|].
  destruct (time_to_minutes start2) as [e|s2] eqn:E3; cbn;
    [apply time_to_minutes_error in E3 as ->; reflexivity|].
  destruct (time_to_minutes end2) as [e|e2] eqn:E4; cbn;
    [apply time_to_minutes_error in E4 as ->; reflexivity|].
  repeat (apply Exists_cons in H as [H|H]; [congruence|]). inversion H.
Qed.

(** X4.  [offerings_conflict] looks at the times only when the day
    patterns share a day: with a malformed time among the four, it
    raises [ValueError] when they do and answers [False], the malformed
    time unnoticed, when they do not. *)
Theorem offerings_conflict_short_circuit (o1 o2 : offering) :
  some_time_malformed o1 o2 ->
  offerings_conflict o1 o2
  = if day_patterns_conflict (day_pattern o1) (day_pattern o2)
    then inl ValueError else inr false.
Proof.
  intros H. unfold offerings_conflict.
  destruct (day_patterns_conflict _ _); cbn [negb]; [|reflexivity].
  apply times_overlap_malformed, H.
Qed.

Lemma offerings_conflict_short_circuit_witness :
  offerings_conflict
    {| day_pattern := "MW"; start_time := "10am"; end_time := "11:00"; term := "2026FA" |}
    {| day_pattern := "TR"; start_time := "10:00"; end_time := "11:00"; term := "2026FA" |}
  = inr false
  /\ offerings_conflict
       {| day_pattern := "MW"; start_time := "10am"; end_time := "11:00"; term := "2026FA" |}
       {| day_pattern := "WF"; start_time := "10:00"; end_time := "11:00"; term := "2026FA" |}
     = inl ValueError.
Proof.
  split.
  - apply (offerings_conflict_short_circuit
             {| day_pattern := "MW"; start_time := "10am"; end_time := "11:00";
                term := "2026FA" |}
             {| day_pattern := "TR"; start_time := "10:00"; end_time := "11:00";
                term := "2026FA" |}).
    apply Exists_cons_hd. reflexivity.
  - apply (offerings_conflict_short_circuit
             {| day_pattern := "MW"; start_time := "10am"; end_time := "11:00";
                term := "2026FA" |}
             {| day_pattern := "WF"; start_time := "10:00"; end_time := "11:00";
                term := "2026FA" |}).
    apply Exists_cons_hd. reflexivity.
Defined.

(** X5.  An offering is compared with itself like any other: it
    conflicts with itself exactly when its day pattern is not empty and
    its start lies before its end. *)
Theorem offering_conflicts_with_itself (o : offering) (s e : Z) :
  time_to_minutes (start_time o) = inr s ->
  time_to_minutes (end_time o) = inr e ->
  offerings_conflict o o
  = inr (negb (String.eqb (day_pattern o) EmptyString) && Z.ltb s e).
Proof.
  intros Hs He. unfold offerings_conflict, times_overlap.
  destruct (day_pattern o) as [|c p] eqn:Hp.
  - reflexivity.
  - rewrite day_patterns_conflict_self by discriminate. cbn [negb]. rewrite Hs, He. cbn.
    rewrite andb_diag. reflexivity.
Qed.

Lemma offering_conflicts_with_itself_witness :
  offerings_conflict
    {| day_pattern := "MW"; start_time := "10:00"; end_time := "11:00"; term := "2026FA" |}
    {| day_pattern := "MW"; start_time := "10:00"; end_time := "11:00"; term := "2026FA" |}
  = inr true.
Proof.
  apply (offering_conflicts_with_itself
           {| day_pattern := "MW"; start_time := "10:00"; end_time := "11:00";
              term := "2026FA" |} 600 660); reflexivity.
Defined.

(** * Further properties of the engine *)

(** ** Scans without conflict *)

Section Quiet.
Context {F : PyFloat}.

Lemma scan_against_quiet path_type c1 rest st st' :
  scan_against path_type c1 rest st = inr st' ->
  conflicts_with c1 rest = false -> st' = st.
Proof.
  revert st. induction rest as [|c2 rest IH]; intros st H Hq.
  - injection H as <-. reflexivity.
  - cbn [scan_against] in H. cbn [conflicts_with existsb] in Hq.
    destruct (offerings_conflict _ _) as [e|[|]]; cbn in H; [discriminate|discriminate|].
    apply IH; assumption.
Qed.

Lemma scan_pairs_quiet path_type courses st st' :
  scan_pairs path_type courses st = inr st' ->
  any_conflict courses = false -> st' = st.
Proof.
  revert st. induction courses as [|c1 rest IH]; intros st H Hq.
  - injection H as <-. reflexivity.
  - cbn [scan_pairs] in H. cbn [any_conflict] in Hq.
    apply orb_false_elim in Hq as [Hq1 Hq2].
    destruct (scan_against _ _ _ _) as [e|st1] eqn:E; cbn in H; [discriminate|].
    apply scan_against_quiet in E; [subst st1|assumption]. apply IH; assumption.
Qed.

Lemma scan_student_quiet cto plans students_df a sid a' :
  scan_student cto plans students_df a sid = inr a' ->
  any_conflict (scheduled_courses cto (filter (fun p => Plan.student_id p = sid) plans))
  = false ->
  quiet a -> quiet a'.
Proof.
  unfold scan_student. intros H Hq (Q1 & Q2 & Q3 & Q4 & Q5).
  destruct (iloc0 _) as [e|info]; cbn in H; [discriminate|].
  destruct (scan_pairs _ _ _) as [e|[a2 b2]] eqn:E; cbn in H; [discriminate|].
  apply scan_pairs_quiet in E; [|assumption]. injection E as -> ->.
  injection H as <-. repeat split; cbn; try assumption.
  rewrite dict_setdefault_spec. destruct (decide _); [assumption|].
  apply Forall_app. split; [assumption|]. repeat constructor.
Qed.

Lemma scan_students_quiet cto plans students_df ids a a' :
  scan_students cto plans students_df ids a = inr a' ->
  (forall sid, sid ∈ ids ->
     any_conflict (scheduled_courses cto (filter (fun p => Plan.student_id p = sid) plans))
     = false) ->
  quiet a -> quiet a'.
Proof.
  revert a. induction ids as [|sid ids IH]; intros a H Hq Ha.
  - injection H as <-. assumption.
  - cbn [scan_students] in H.
    destruct (scan_student _ _ _ _ _) as [e|a1] eqn:E; cbn in H; [discriminate|].
    apply scan_student_quiet in E; [|apply Hq, list_elem_of_here|assumption].
    apply (IH a1); [assumption| |assumption].
    intros x Hx. apply Hq, list_elem_of_further, Hx.
Qed.

Lemma any_conflict_short (courses : list scheduled_course) :
  (length courses <= 1)%nat -> any_conflict courses = false.
Proof. destruct courses as [|c1 [|c2 l]]; cbn; [reflexivity|reflexivity|lia]. Qed.

End Quiet.

Lemma single_result_computed :
  calculate_conflicts Example.two_courses Example.single_plans Example.roster
  = inr Example.single_result.
Proof. reflexivity. Qed.

Lemma conflicted_students_nil `{F : PyFloat} (schedule_df : list Schedule.row)
    (student_plans_df : list Plan.row) (sid : string) :
  conflicted_students schedule_df student_plans_df = [] ->
  sid ∈ Py.unique (map Plan.student_id (plans_in_terms schedule_df student_plans_df)) ->
  conflicted schedule_df student_plans_df sid = false.
Proof.
  unfold conflicted_students. intros Hnil Hin.
  destruct (conflicted schedule_df student_plans_df sid) eqn:E; [|reflexivity].
  exfalso. eapply filter_nil_not_elem_of; [exact Hnil| |exact Hin]. exact E.
Qed.

(** X6.  When no student is in conflict, nothing is scored: the expected
    conflicts are the rounded zero, no student is counted, both top lists
    are empty, and every path met still gets an entry, with zero
    expected conflicts and no student. *)
Theorem no_conflict_no_score `{F : PyFloat} (schedule_df : list Schedule.row)
    (student_plans_df : list Plan.row) (students_df : list Student.row) (res : Result.t) :
  calculate_conflicts schedule_df student_plans_df students_df = inr res ->
  conflicted_students schedule_df student_plans_df = [] ->
  Metrics.expected_conflicts_all (Result.metrics res) = round 2 fzero
  /\ Metrics.students_with_conflict (Result.metrics res) = 0
  /\ Metrics.top_conflicting_pairs (Result.metrics res) = []
  /\ Metrics.top_conflicting_courses (Result.metrics res) = []
  /\ Forall (fun e => PathEntry.expected_conflicts e = round 2 fzero
                      /\ PathEntry.students_with_conflict e = 0)
       (Metrics.by_path_type (Result.metrics res)).
Proof.
  unfold calculate_conflicts. intros H Hnil.
  destruct (student_scan _ _ _) as [?|a] eqn:Hscan; [discriminate|]. cbn in H.
  destruct (int_truediv _ _) as [?|ratio]; [discriminate|]. cbn in H.
  injection H as <-. cbn [Result.metrics Metrics.expected_conflicts_all
    Metrics.students_with_conflict Metrics.top_conflicting_pairs
    Metrics.top_conflicting_courses Metrics.by_path_type].
  assert (Hq : quiet a).
  { unfold student_scan in Hscan. eapply scan_students_quiet; [exact Hscan| |].
    - intros sid Hin. apply (conflicted_students_nil _ _ _ Hnil Hin).
    - repeat split. constructor. }
  destruct Hq as (-> & -> & -> & -> & Hpaths).
  repeat split.
  rewrite sorted_desc_perm. apply Forall_forall. intros e He.
  apply list_elem_of_In, in_map_iff in He as ([p pm] & <- & Hin).
  rewrite Forall_forall in Hpaths. apply list_elem_of_In, Hpaths in Hin.
  cbn [snd] in Hin. subst pm. split; reflexivity.
Qed.

(** An instance, in binary64: a single planned course. *)
Lemma no_conflict_no_score_witness :
  Metrics.expected_conflicts_all (Result.metrics Example.single_result) = round 2 fzero
  /\ Metrics.students_with_conflict (Result.metrics Example.single_result) = 0
  /\ Metrics.top_conflicting_pairs (Result.metrics Example.single_result) = []
  /\ Metrics.top_conflicting_courses (Result.metrics Example.single_result) = []
  /\ Forall (fun e => PathEntry.expected_conflicts e = round 2 fzero
                      /\ PathEntry.students_with_conflict e = 0)
       (Metrics.by_path_type (Result.metrics Example.single_result)).
Proof.
  apply (no_conflict_no_score Example.two_courses Example.single_plans Example.roster);
    reflexivity.
Defined.

(** ** The overall count and rate *)

Lemma path_of_roster (students_df : list Student.row) (sid q : string) :
  path_of students_df sid = Some q -> sid ∈ map Student.student_id students_df.
Proof.
  unfold path_of. destruct (filter _ students_df) as [|r l] eqn:E; [discriminate|]. intros _.
  assert (Hr : r ∈ filter (fun s => Student.student_id s = sid) students_df)
    by (rewrite E; apply list_elem_of_here).
  apply list_elem_of_filter in Hr as [<- Hr].
  apply list_elem_of_In, in_map, list_elem_of_In, Hr.
Qed.

(** X7.  [students_with_conflict] is the number of distinct conflicted
    students, each counted once however many of their pairs conflict; it
    never exceeds the roster size, which is positive whenever a result
    is returned, and [conflict_rate_overall] is the one over the other,
    times 100, rounded to one decimal. *)
Theorem students_with_conflict_bounds `{F : PyFloat} (schedule_df : list Schedule.row)
    (student_plans_df : list Plan.row) (students_df : list Student.row) (res : Result.t) :
  calculate_conflicts schedule_df student_plans_df students_df = inr res ->
  let n := Metrics.students_with_conflict (Result.metrics res) in
  let total := Result.total_students res in
  n = len (conflicted_students schedule_df student_plans_df)
  /\ 0 <= n <= total
  /\ 0 < total
  /\ total = len students_df
  /\ Metrics.conflict_rate_overall (Result.metrics res)
     = round 1 (fmul (truediv n total) (of_int 100)).
Proof.
  intros H n total.
  assert (Hn : n = len (conflicted_students schedule_df student_plans_df))
    by (apply students_with_conflict_count with (students_df := students_df), H).
  unfold calculate_conflicts in H.
  destruct (student_scan _ _ _) as [?|a] eqn:Hscan; [discriminate|]. cbn in H.
  unfold int_truediv in H.
  destruct (Z.eqb_spec (len students_df) 0) as [?|Hpos]; [discriminate|]. cbn in H.
  injection H as <-. subst n total. cbn in *.
  apply student_scan_cohorts in Hscan as (_ & _ & _ & Hcov).
  assert (Hle : (length (conflicted_students schedule_df student_plans_df)
                 <= length students_df)%nat).
  { rewrite <- (length_map Student.student_id students_df).
    apply submseteq_length, NoDup_submseteq.
    - apply NoDup_filter, NoDup_unique.
    - intros sid [_ Hin]%list_elem_of_filter.
      destruct (Hcov sid Hin) as (q & Hq & _). eapply path_of_roster, Hq. }
  unfold len in *. repeat split; try lia. 
Qed.

Lemma students_with_conflict_bounds_witness :
  Metrics.students_with_conflict (Result.metrics Example.overlap_result)
  = len (conflicted_students Example.two_courses Example.overlap_plans)
  /\ 0 <= Metrics.students_with_conflict (Result.metrics Example.overlap_result)
     <= Result.total_students Example.overlap_result
  /\ 0 < Result.total_students Example.overlap_result
  /\ Result.total_students Example.overlap_result = len Example.roster
  /\ Metrics.conflict_rate_overall (Result.metrics Example.overlap_result)
     = round 1 (fmul (truediv 1 2) (of_int 100)).
Proof.
  apply (students_with_conflict_bounds Example.two_courses Example.overlap_plans
           Example.roster Example.overlap_result).
  reflexivity.
Defined.

(** ** Plan rows outside the schedule's terms *)

(** X8.  A plan row whose term appears on no schedule row is ignored
    wherever it sits in the table: it changes neither the result nor the
    exception raised, even when its student is missing from the
    roster. *)
Theorem off_term_plan_row_ignored `{F : PyFloat} (schedule_df : list Schedule.row)
    (before after : list Plan.row) (p : Plan.row) (students_df : list Student.row) :
  Plan.term p ∉ map Schedule.term schedule_df ->
  calculate_conflicts schedule_df (before ++ p :: after) students_df
  = calculate_conflicts schedule_df (before ++ after) students_df.
Proof.
  intros Hterm. unfold calculate_conflicts, student_scan.
  assert (E : plans_in_terms schedule_df (before ++ p :: after)
              = plans_in_terms schedule_df (before ++ after)).
  { unfold plans_in_terms. rewrite !filter_app, filter_cons_False; [reflexivity|].
    rewrite elem_of_unique. exact Hterm. }
  rewrite E. reflexivity.
Qed.

(** An instance: a row of the unknown student "ghost" in term 2027WI. *)
Lemma off_term_plan_row_ignored_witness :
  calculate_conflicts Example.two_courses
    (Example.overlap_plans
     ++ {| Plan.student_id := "ghost"; Plan.course_code := "ECI 130";
           Plan.term := "2027WI"; Plan.likelihood := Example.dec 5 1;
           Plan.path_type := "Water" |} :: [])
    Example.roster
  = calculate_conflicts Example.two_courses (Example.overlap_plans ++ []) Example.roster.
Proof.
  apply (off_term_plan_row_ignored Example.two_courses Example.overlap_plans []).
  cbn. rewrite !not_elem_of_cons. repeat split; try discriminate. apply not_elem_of_nil.
Defined.

(** ** The keys of the score dictionaries *)

Section Keys.
Context {F : PyFloat}.

Lemma add_score_keys {K} `{EqDecision K} (d : list (K * float)) (k : K) (w : float) :
  map fst (add_score d k w)
  = if decide (k ∈ map fst d) then map fst d else map fst d ++ [k].
Proof.
  unfold add_score. rewrite dict_update_keys, dict_setdefault_spec.
  destruct (decide _); [reflexivity|]. rewrite map_app. reflexivity.
Qed.

Lemma add_score_NoDup {K} `{EqDecision K} (d : list (K * float)) (k : K) (w : float) :
  NoDup (map fst d) -> NoDup (map fst (add_score d k w)).
Proof.
  intros Hd. rewrite add_score_keys. destruct (decide _) as [|Hk]; [assumption|].
  apply NoDup_app. split; [assumption|]. split; [|apply NoDup_singleton].
  intros x Hx Hx'. apply list_elem_of_singleton in Hx' as ->. tauto.
Qed.

Lemma add_score_Forall {K} `{EqDecision K} (P : K -> Prop) (d : list (K * float))
    (k : K) (w : float) :
  P k -> Forall P (map fst d) -> Forall P (map fst (add_score d k w)).
Proof.
  intros Hk Hd. rewrite add_score_keys. destruct (decide _); [assumption|].
  apply Forall_app. split; [assumption|]. repeat constructor. assumption.
Qed.

Lemma sorted_pair_ordered (a b : string) : ordered_pair (Py.sorted_pair a b).
Proof.
  unfold ordered_pair, Py.sorted_pair. destruct (String.ltb b a) eqn:E; cbn [fst snd].
  - unfold String.ltb in *. rewrite String.compare_antisym.
    destruct (String.compare b a); cbn; congruence.
  - assumption.
Qed.

Lemma keys_inv_record codes path_type c1 c2 a :
  codes (sc_course_code c1) -> codes (sc_course_code c2) ->
  keys_inv codes a -> keys_inv codes (record_conflict path_type c1 c2 a).
Proof.
  intros H1 H2 (I1 & I2 & I3 & I4). unfold keys_inv, record_conflict.
  cbn [conflicts_by_course conflicts_by_pair]. repeat split.
  - apply add_score_NoDup, add_score_NoDup, I1.
  - apply add_score_Forall; [assumption|]. apply add_score_Forall; assumption.
  - apply add_score_NoDup, I3.
  - apply add_score_Forall; [|assumption]. split; [apply sorted_pair_ordered|].
    unfold Py.sorted_pair. destruct (String.ltb _ _); cbn [fst snd]; auto.
Qed.

Lemma keys_inv_scan_against codes path_type c1 rest a b a' b' :
  scan_against path_type c1 rest (a, b) = inr (a', b') ->
  codes (sc_course_code c1) -> Forall (fun c => codes (sc_course_code c)) rest ->
  keys_inv codes a -> keys_inv codes a'.
Proof.
  intros H H1 Hrest. revert a b H. induction Hrest as [|c2 rest H2 _ IH]; intros a b H Ha.
  - injection H as <- <-. assumption.
  - cbn [scan_against] in H.
    destruct (offerings_conflict _ _) as [e|[|]]; cbn in H; [discriminate| |].
    + apply IH in H; [assumption|]. apply keys_inv_record; assumption.
    + apply IH in H; assumption.
Qed.

Lemma keys_inv_scan_pairs codes path_type courses a b a' b' :
  scan_pairs path_type courses (a, b) = inr (a', b') ->
  Forall (fun c => codes (sc_course_code c)) courses ->
  keys_inv codes a -> keys_inv codes a'.
Proof.
  intros H Hc. revert a b H. induction Hc as [|c1 rest H1 Hrest IH]; intros a b H Ha.
  - injection H as <- <-. assumption.
  - cbn [scan_pairs] in H.
    destruct (scan_against _ _ _ _) as [e|[a1 b1]] eqn:E; cbn in H; [discriminate|].
    apply keys_inv_scan_against with (codes := codes) in E; try assumption.
    apply IH in H; assumption.
Qed.

Lemma scheduled_courses_codes cto (student_courses : list Plan.row) :
  Forall (fun c => is_Some (cto !! sc_course_code c)
                   /\ exists p, p ∈ student_courses /\ Plan.course_code p = sc_course_code c)
    (scheduled_courses cto student_courses).
Proof.
  unfold scheduled_courses. induction student_courses as [|p l IH]; cbn [flat_map];
    [constructor|].
  apply Forall_app. split.
  - destruct (cto !! Plan.course_code p) eqn:E; repeat constructor; cbn.
    + rewrite E. eauto.
    + exists p. split; [apply list_elem_of_here|reflexivity].
  - eapply Forall_impl; [exact IH|]. cbn. intros c [Hc (q & Hq & Hcode)].
    split; [assumption|]. exists q. split; [apply list_elem_of_further|]; assumption.
Qed.

Lemma keys_inv_scan_student codes cto plans students_df a sid a' :
  (forall p, p ∈ plans -> is_Some (cto !! Plan.course_code p) ->
             codes (Plan.course_code p)) ->
  scan_student cto plans students_df a sid = inr a' ->
  keys_inv codes a -> keys_inv codes a'.
Proof.
  unfold scan_student. intros Hcodes H Ha.
  destruct (iloc0 _) as [e|info]; cbn in H; [discriminate|].
  destruct (scan_pairs _ _ _) as [e|[a2 b2]] eqn:E; cbn in H; [discriminate|].
  apply keys_inv_scan_pairs with (codes := codes) in E.
  - injection H as <-. destruct b2; exact E.
  - eapply Forall_impl; [apply scheduled_courses_codes|]. cbn.
    intros c [Hc (p & Hp & Hcode)]. rewrite <- Hcode.
    apply list_elem_of_filter in Hp as [_ Hp]. apply Hcodes; [assumption|].
    rewrite Hcode. assumption.
  - exact Ha.
Qed.

Lemma keys_inv_scan_students codes cto plans students_df ids a a' :
  (forall p, p ∈ plans -> is_Some (cto !! Plan.course_code p) ->
             codes (Plan.course_code p)) ->
  scan_students cto plans students_df ids a = inr a' ->
  keys_inv codes a -> keys_inv codes a'.
Proof.
  intros Hcodes. revert a. induction ids as [|sid ids IH]; intros a H Ha.
  - injection H as <-. assumption.
  - cbn [scan_students] in H.
    destruct (scan_student _ _ _ _ _) as [e|a1] eqn:E; cbn in H; [discriminate|].
    apply keys_inv_scan_student with (codes := codes) in E; try assumption.
    apply (IH a1); assumption.
Qed.

End Keys.

Section TopKeys.
Context {F : PyFloat}.

Lemma top10_subseteq {K} (d : list (K * float)) (x : K * float) : x ∈ top10 d -> x ∈ d.
Proof.
  unfold top10. intros Hx. apply (subseteq_take 10) in Hx.
  apply elem_of_sorted_desc in Hx. exact Hx.
Qed.

Lemma top10_NoDup {K} (d : list (K * float)) :
  NoDup (map fst d) -> NoDup (map fst (top10 d)).
Proof.
  intros Hd. unfold top10.
  assert (Hs : NoDup (map fst (sorted_desc snd d))).
  { assert (Hp : map fst (sorted_desc snd d) ≡ₚ map fst d)
      by apply Permutation_map, sorted_desc_perm.
    rewrite Hp. exact Hd. }
  eapply sublist_NoDup; [exact Hs|].
  apply (fmap_sublist fst), sublist_take.
Qed.

Lemma student_scan_keys (schedule_df : list Schedule.row)
    (student_plans_df : list Plan.row) (students_df : list Student.row) (a : accumulators) :
  student_scan schedule_df student_plans_df students_df = inr a ->
  keys_inv (scheduled_and_planned schedule_df student_plans_df) a.
Proof.
  unfold student_scan. intros H. eapply keys_inv_scan_students; [|exact H|].
  - intros p Hp [o Ho]. split; [|eauto].
    rewrite build_lookup_last in Ho.
    destruct (last _) as [r|] eqn:E; [|discriminate].
    apply last_Some_elem_of, list_elem_of_filter in E as [Hcode Hr]. eauto.
  - repeat split; constructor.
Qed.

Lemma ltb_antisym (a b : string) :
  String.ltb a b = false -> String.ltb b a = false -> a = b.
Proof.
  unfold String.ltb. rewrite (String.compare_antisym a b).
  destruct (String.compare b a) eqn:E; cbn; try discriminate.
  intros _ _. symmetry. apply String.compare_eq_iff, E.
Qed.

End TopKeys.

(** X9.  No course code appears twice in [top_conflicting_courses] and
    no pair twice in [top_conflicting_pairs]; every pair lists its two
    courses in lexicographic order, so that a pair and its mirror image
    share one entry. *)
Theorem top_lists_distinct_keys `{F : PyFloat} (schedule_df : list Schedule.row)
    (student_plans_df : list Plan.row) (students_df : list Student.row) (res : Result.t) :
  calculate_conflicts schedule_df student_plans_df students_df = inr res ->
  NoDup (map CourseEntry.course_code (Metrics.top_conflicting_courses (Result.metrics res)))
  /\ NoDup (map (fun e => (PairEntry.course_a e, PairEntry.course_b e))
              (Metrics.top_conflicting_pairs (Result.metrics res)))
  /\ Forall (fun e => String.ltb (PairEntry.course_b e) (PairEntry.course_a e) = false)
       (Metrics.top_conflicting_pairs (Result.metrics res))
  /\ (forall e e', e ∈ Metrics.top_conflicting_pairs (Result.metrics res) ->
                   e' ∈ Metrics.top_conflicting_pairs (Result.metrics res) ->
                   PairEntry.course_a e' = PairEntry.course_b e ->
                   PairEntry.course_b e' = PairEntry.course_a e ->
                   PairEntry.course_a e = PairEntry.course_b e).
Proof.
  unfold calculate_conflicts. intros H.
  destruct (student_scan _ _ _) as [?|a] eqn:Hscan; [discriminate|]. cbn in H.
  destruct (int_truediv _ _) as [?|ratio]; [discriminate|]. cbn in H.
  injection H as <-.
  cbn [Result.metrics Metrics.top_conflicting_pairs Metrics.top_conflicting_courses].
  apply student_scan_keys in Hscan as (I1 & _ & I3 & I4).
  assert (Hordered : Forall (fun e => String.ltb (PairEntry.course_b e) (PairEntry.course_a e)
                                      = false)
                       (map format_pair (top10 (conflicts_by_pair a)))).
  { apply Forall_forall. intros e He.
    apply list_elem_of_In, in_map_iff in He as ([[x y] w] & <- & Hin).
    apply list_elem_of_In, top10_subseteq in Hin. rewrite Forall_forall in I4.
    destruct (I4 (x, y)) as [Hxy _]; [|exact Hxy].
    apply list_elem_of_In, in_map_iff. exists (x, y, w).
    split; [reflexivity|apply list_elem_of_In, Hin]. }
  split; [|split; [|split]].
  - rewrite map_map.
    rewrite (map_ext _ fst) by (intros [? ?]; reflexivity). apply top10_NoDup, I1.
  - rewrite map_map.
    rewrite (map_ext _ fst) by (intros [[? ?] ?]; reflexivity). apply top10_NoDup, I3.
  - exact Hordered.
  - intros e e' He He' Ha Hb. rewrite Forall_forall in Hordered.
    pose proof (Hordered e He) as H1. pose proof (Hordered e' He') as H2.
    rewrite Ha, Hb in H2. symmetry. apply ltb_antisym; assumption.
Qed.

Lemma top_lists_distinct_keys_witness :
  NoDup (map CourseEntry.course_code
           (Metrics.top_conflicting_courses (Result.metrics Example.dyadic_result)))
  /\ NoDup (map (fun e => (PairEntry.course_a e, PairEntry.course_b e))
              (Metrics.top_conflicting_pairs (Result.metrics Example.dyadic_result)))
  /\ Forall (fun e => String.ltb (PairEntry.course_b e) (PairEntry.course_a e) = false)
       (Metrics.top_conflicting_pairs (Result.metrics Example.dyadic_result)).
Proof.
  destruct (top_lists_distinct_keys Example.three_courses
              (Example.three_plans (Example.dec 5 1) (Example.dec 5 1) (Example.dec 25 2))
              Example.roster Example.dyadic_result) as (H1 & H2 & H3 & _).
  - reflexivity.
  - exact (conj H1 (conj H2 H3)).
Defined.

(** X10.  The top lists report scheduled courses only: every course
    code of [top_conflicting_courses], and both codes of every entry of
    [top_conflicting_pairs], is borne by a schedule row and by a plan row
    kept by the term filter. *)
Theorem reported_courses_are_scheduled `{F : PyFloat} (schedule_df : list Schedule.row)
    (student_plans_df : list Plan.row) (students_df : list Student.row) (res : Result.t) :
  calculate_conflicts schedule_df student_plans_df students_df = inr res ->
  Forall (fun e => scheduled_and_planned schedule_df student_plans_df
                     (CourseEntry.course_code e))
    (Metrics.top_conflicting_courses (Result.metrics res))
  /\ Forall (fun e => scheduled_and_planned schedule_df student_plans_df (PairEntry.course_a e)
                      /\ scheduled_and_planned schedule_df student_plans_df
                           (PairEntry.course_b e))
       (Metrics.top_conflicting_pairs (Result.metrics res)).
Proof.
  unfold calculate_conflicts. intros H.
  destruct (student_scan _ _ _) as [?|a] eqn:Hscan; [discriminate|]. cbn in H.
  destruct (int_truediv _ _) as [?|ratio]; [discriminate|]. cbn in H.
  injection H as <-.
  cbn [Result.metrics Metrics.top_conflicting_pairs Metrics.top_conflicting_courses].
  apply student_scan_keys in Hscan as (_ & I2 & _ & I4).
  rewrite Forall_forall in I2. rewrite Forall_forall in I4. split; apply Forall_forall; intros e He.
  - apply list_elem_of_In, in_map_iff in He as ([c w] & <- & Hin).
    apply list_elem_of_In, top10_subseteq in Hin. apply I2.
    apply list_elem_of_In, in_map_iff. exists (c, w).
    split; [reflexivity|apply list_elem_of_In, Hin].
  - apply list_elem_of_In, in_map_iff in He as ([[x y] w] & <- & Hin).
    apply list_elem_of_In, top10_subseteq in Hin.
    destruct (I4 (x, y)) as (_ & Hx & Hy); [|split; assumption].
    apply list_elem_of_In, in_map_iff. exists (x, y, w).
    split; [reflexivity|apply list_elem_of_In, Hin].
Qed.

Lemma reported_courses_are_scheduled_witness :
  Forall (fun e => scheduled_and_planned Example.two_courses Example.overlap_plans
                     (CourseEntry.course_code e))
    (Metrics.top_conflicting_courses (Result.metrics Example.overlap_result))
  /\ Forall (fun e => scheduled_and_planned Example.two_courses Example.overlap_plans
                        (PairEntry.course_a e)
                      /\ scheduled_and_planned Example.two_courses Example.overlap_plans
                           (PairEntry.course_b e))
       (Metrics.top_conflicting_pairs (Result.metrics Example.overlap_result)).
Proof.
  apply (reported_courses_are_scheduled Example.two_courses Example.overlap_plans
           Example.roster Example.overlap_result).
  reflexivity.
Defined.

(** ** The paths of the breakdown *)

Lemma two_path_result_computed :
  calculate_conflicts Example.two_courses Example.two_path_plans Example.roster
  = inr Example.two_path_result.
Proof. reflexivity. Qed.

Section Paths.
Context {F : PyFloat}.

Lemma scan_student_paths cto plans students_df a sid a' :
  scan_student cto plans students_df a sid = inr a' ->
  exists p, path_of students_df sid = Some p
    /\ forall q, q ∈ map fst (path_sets a') <-> q ∈ map fst (path_sets a) \/ q = p.
Proof.
  intros H. apply scan_student_students in H as (p & Hp & _ & E).
  exists p. split; [assumption|]. intros q. rewrite E. clear E.
  assert (Hkeys : q ∈ map fst (dict_setdefault (path_sets a) p (∅ : gset string))
                  <-> q ∈ map fst (path_sets a) \/ q = p).
  { rewrite dict_setdefault_spec.
    destruct (decide (p ∈ map fst (path_sets a))) as [Hin|Hout].
    - split; [auto|]. intros [?| ->]; assumption.
    - rewrite map_app, elem_of_app. cbn [map fst]. rewrite list_elem_of_singleton.
      reflexivity. }
  destruct (any_conflict _); [rewrite dict_update_keys|]; exact Hkeys.
Qed.

Lemma scan_students_paths cto plans students_df ids done a a' :
  scan_students cto plans students_df ids a = inr a' ->
  (forall q, q ∈ map fst (path_sets a)
             <-> exists x, x ∈ done /\ path_of students_df x = Some q) ->
  forall q, q ∈ map fst (path_sets a')
            <-> exists x, x ∈ done ++ ids /\ path_of students_df x = Some q.
Proof.
  revert done a. induction ids as [|sid ids IH]; intros done a H Hinv.
  - injection H as <-. rewrite app_nil_r. assumption.
  - cbn [scan_students] in H.
    destruct (scan_student cto plans students_df a sid) as [e|a1] eqn:E; cbn in H;
      [discriminate|].
    apply scan_student_paths in E as (p & Hp & Hkeys).
    rewrite (cons_middle sid done ids), app_assoc. apply (IH _ a1 H).
    intros q. rewrite Hkeys, Hinv. split.
    + intros [(x & Hx & Hq)| ->].
      * exists x. split; [apply elem_of_app; auto|assumption].
      * exists sid. split; [apply elem_of_app; right; apply list_elem_of_here|assumption].
    + intros (x & [Hx|Hx]%elem_of_app & Hq); [left; eauto|].
      apply list_elem_of_singleton in Hx as ->. right. congruence.
Qed.

Lemma student_scan_paths (schedule_df : list Schedule.row)
    (student_plans_df : list Plan.row) (students_df : list Student.row) (a : accumulators) :
  student_scan schedule_df student_plans_df students_df = inr a ->
  NoDup (map fst (conflicts_by_path a))
  /\ forall q, q ∈ map fst (conflicts_by_path a)
               <-> exists p, p ∈ plans_in_terms schedule_df student_plans_df
                             /\ path_of students_df (Plan.student_id p) = Some q.
Proof.
  intros H. pose proof (student_scan_cohorts _ _ _ _ H) as (_ & Hnd & _).
  unfold path_sets in Hnd. rewrite map_fst_prod_map in Hnd. split; [exact Hnd|].
  unfold student_scan in H.
  assert (Hkeys : forall q, q ∈ map fst (path_sets a)
            <-> exists x, x ∈ Py.unique (map Plan.student_id
                                            (plans_in_terms schedule_df student_plans_df))
                          /\ path_of students_df x = Some q).
  { apply (scan_students_paths _ _ _ _ [] initial a H).
    intros q'. cbn. split; [intros Hq; inversion Hq|intros (x & Hx & _); inversion Hx]. }
  intros q. specialize (Hkeys q). unfold path_sets in Hkeys.
  rewrite map_fst_prod_map in Hkeys. rewrite Hkeys. split.
  - intros (x & (p & Hp & <-)%planned_ids & Hq). eauto.
  - intros (p & Hp & Hq). exists (Plan.student_id p). split; [|assumption].
    apply planned_ids. eauto.
Qed.

Lemma by_path_type_keys (students_df : list Student.row) (d : list (string * path_metrics)) :
  map PathEntry.path_type (sorted_desc PathEntry.expected_conflicts
                             (map (format_path students_df) d))
  ≡ₚ map fst d.
Proof.
  rewrite sorted_desc_perm, map_map.
  rewrite (map_ext _ fst) by (intros [? ?]; reflexivity). reflexivity.
Qed.

End Paths.

(** X11.  The breakdown [by_path_type] holds exactly one entry for each
    path the roster gives to a student with a plan row kept by the term
    filter, whether that student is in conflict or not; a path of the
    roster without such a student has no entry. *)
Theorem by_path_type_one_entry_per_planned_path `{F : PyFloat}
    (schedule_df : list Schedule.row) (student_plans_df : list Plan.row)
    (students_df : list Student.row) (res : Result.t) :
  calculate_conflicts schedule_df student_plans_df students_df = inr res ->
  NoDup (map PathEntry.path_type (Metrics.by_path_type (Result.metrics res)))
  /\ forall q, q ∈ map PathEntry.path_type (Metrics.by_path_type (Result.metrics res))
               <-> exists p, p ∈ plans_in_terms schedule_df student_plans_df
                             /\ path_of students_df (Plan.student_id p) = Some q.
Proof.
  unfold calculate_conflicts. intros H.
  destruct (student_scan _ _ _) as [?|a] eqn:Hscan; [discriminate|]. cbn in H.
  destruct (int_truediv _ _) as [?|ratio]; [discriminate|]. cbn in H.
  injection H as <-. cbn [Result.metrics Metrics.by_path_type].
  apply student_scan_paths in Hscan as [Hnd Hkeys].
  split.
  - rewrite by_path_type_keys. exact Hnd.
  - intros q. rewrite by_path_type_keys. apply Hkeys.
Qed.

Lemma by_path_type_one_entry_per_planned_path_witness :
  NoDup (map PathEntry.path_type
           (Metrics.by_path_type (Result.metrics Example.two_path_result)))
  /\ forall q, q ∈ map PathEntry.path_type
                     (Metrics.by_path_type (Result.metrics Example.two_path_result))
               <-> exists p, p ∈ plans_in_terms Example.two_courses Example.two_path_plans
                             /\ path_of Example.roster (Plan.student_id p) = Some q.
Proof.
  apply (by_path_type_one_entry_per_planned_path Example.two_courses Example.two_path_plans
           Example.roster Example.two_path_result).
  reflexivity.
Defined.

(** ** The breakdown is ranked *)

Section PathRanking.
Context {F : PyFloat}.
Variable proper : float -> Prop.
Hypothesis flt_asym : forall x y : float, flt x y = true -> flt y x = false.
Hypothesis fge_trans :
  forall x y z : float, proper x -> proper y -> proper z ->
    flt x y = false -> flt y z = false -> flt x z = false.

(** X12.  The breakdown [by_path_type] is ranked by the rounded
    [expected_conflicts] it displays, no entry scoring less than a later
    one, whenever these figures are proper values (in binary64: none is
    NaN). *)
Theorem by_path_type_ranked (schedule_df : list Schedule.row)
    (student_plans_df : list Plan.row) (students_df : list Student.row) (res : Result.t) :
  calculate_conflicts schedule_df student_plans_df students_df = inr res ->
  Forall (fun e => proper (PathEntry.expected_conflicts e))
    (Metrics.by_path_type (Result.metrics res)) ->
  non_increasing PathEntry.expected_conflicts (Metrics.by_path_type (Result.metrics res)).
Proof.
  unfold calculate_conflicts. intros H.
  destruct (student_scan _ _ _) as [?|a] eqn:Hscan; [discriminate|]. cbn in H.
  destruct (int_truediv _ _) as [?|ratio]; [discriminate|]. cbn in H.
  injection H as <-. cbn [Result.metrics Metrics.by_path_type]. intros Hproper.
  apply (sorted_desc_sorted proper flt_asym fge_trans).
  rewrite sorted_desc_perm in Hproper. exact Hproper.
Qed.

End PathRanking.

Lemma by_path_type_ranked_witness :
  non_increasing PathEntry.expected_conflicts
    (Metrics.by_path_type (Result.metrics Example.two_path_result)).
Proof.
  apply (by_path_type_ranked (F := Binary64.binary64) Binary64.not_nan
           binary64_lt_asym binary64_ge_trans
           Example.two_courses Example.two_path_plans Example.roster
           Example.two_path_result).
  - reflexivity.
  - repeat constructor; intros H; discriminate H.
Defined.

(** ** Pair scores and path scores against the global total *)

Section Breakdown.
Context {F : PyFloat}.

Hypothesis fadd_assoc : forall x y z : float, fadd x (fadd y z) = fadd (fadd x y) z.
Hypothesis fadd_comm : forall x y : float, fadd x y = fadd y x.
Hypothesis fadd_0_l : forall x : float, fadd fzero x = x.

Lemma fsum_snoc (l : list float) (x : float) : fsum (l ++ [x]) = fadd (fsum l) x.
Proof. unfold fsum. rewrite fold_left_app. reflexivity. Qed.

(** Adding a weight under a path that is present adds it to the sum
    over the paths. *)
Lemma fsum_path_update (d : list (string * path_metrics)) (k : string) (w : float) :
  k ∈ map fst d ->
  fsum (map path_score
          (dict_update
             (fun m => {| pm_expected_conflicts := fadd (pm_expected_conflicts m) w;
                          pm_students_with_conflict := pm_students_with_conflict m |})
             d k))
  = fadd (fsum (map path_score d)) w.
Proof.
  induction d as [|[k' v] d IH]; cbn [map fst dict_update]; intros Hin; [inversion Hin|].
  destruct (decide (k = k')) as [->|Hne]; cbn [map].
  - rewrite !(fsum_cons fadd_assoc fadd_comm fadd_0_l). unfold path_score at 1 3. cbn [snd].
    cbn [pm_expected_conflicts].
    rewrite <- !fadd_assoc. f_equal. apply fadd_comm.
  - apply elem_of_cons in Hin as [?|Hin]; [congruence|].
    rewrite !(fsum_cons fadd_assoc fadd_comm fadd_0_l), IH by assumption.
    apply fadd_assoc.
Qed.

(** Recording a student under a path leaves the scores alone. *)
Lemma path_score_students (d : list (string * path_metrics)) (k sid : string) :
  map path_score
    (dict_update
       (fun m => {| pm_expected_conflicts := pm_expected_conflicts m;
                    pm_students_with_conflict := {[ sid ]} ∪ pm_students_with_conflict m |})
       d k)
  = map path_score d.
Proof.
  induction d as [|[k' v] d IH]; cbn [map dict_update]; [reflexivity|].
  destruct (decide (k = k')); cbn [map]; [reflexivity|]. rewrite IH. reflexivity.
Qed.

Lemma adds_up_record path_type c1 c2 a :
  path_type ∈ map fst (conflicts_by_path a) ->
  adds_up a -> adds_up (record_conflict path_type c1 c2 a).
Proof.
  unfold adds_up, record_conflict.
  cbn [conflicts_by_pair conflicts_by_path total_expected_conflicts].
  intros Hin [H1 H2]. split.
  - rewrite (fsum_add_score fadd_assoc fadd_comm fadd_0_l), H1. reflexivity.
  - rewrite fsum_path_update, H2 by assumption. reflexivity.
Qed.

Lemma adds_up_scan_against path_type c1 rest a b a' b' :
  scan_against path_type c1 rest (a, b) = inr (a', b') ->
  path_type ∈ map fst (conflicts_by_path a) -> adds_up a ->
  map fst (conflicts_by_path a') = map fst (conflicts_by_path a) /\ adds_up a'.
Proof.
  revert a b. induction rest as [|c2 rest IH]; intros a b H Hin Ha.
  - injection H as <- <-. auto.
  - cbn [scan_against] in H.
    destruct (offerings_conflict _ _) as [e|[|]]; cbn in H; [discriminate| |].
    + apply IH in H as [E Ha'].
      * split; [|assumption]. rewrite E. unfold record_conflict. cbn [conflicts_by_path].
        apply dict_update_keys.
      * unfold record_conflict. cbn [conflicts_by_path]. rewrite dict_update_keys.
        assumption.
      * apply adds_up_record; assumption.
    + apply IH in H; assumption.
Qed.

Lemma adds_up_scan_pairs path_type courses a b a' b' :
  scan_pairs path_type courses (a, b) = inr (a', b') ->
  path_type ∈ map fst (conflicts_by_path a) -> adds_up a ->
  map fst (conflicts_by_path a') = map fst (conflicts_by_path a) /\ adds_up a'.
Proof.
  revert a b. induction courses as [|c1 rest IH]; intros a b H Hin Ha.
  - injection H as <- <-. auto.
  - cbn [scan_pairs] in H.
    destruct (scan_against _ _ _ _) as [e|[a1 b1]] eqn:E; cbn in H; [discriminate|].
    apply adds_up_scan_against in E as [E1 Ha1]; [|assumption..].
    apply IH in H as [E2 Ha']; [|rewrite E1|]; try assumption.
    split; [congruence|assumption].
Qed.

Lemma adds_up_scan_student cto plans students_df a sid a' :
  scan_student cto plans students_df a sid = inr a' -> adds_up a -> adds_up a'.
Proof.
  unfold scan_student. intros H [H1 H2].
  destruct (iloc0 _) as [e|info]; cbn in H; [discriminate|].
  destruct (scan_pairs _ _ _) as [e|[a2 b2]] eqn:E; cbn in H; [discriminate|].
  apply adds_up_scan_pairs in E as [_ [E1 E2]].
  - injection H as <-. destruct b2; [|split; assumption].
    unfold adds_up. cbn [conflicts_by_pair conflicts_by_path total_expected_conflicts].
    split; [assumption|]. rewrite path_score_students. exact E2.
  - cbn [conflicts_by_path]. rewrite dict_setdefault_spec.
    destruct (decide _) as [Hin|Hout]; [assumption|].
    rewrite map_app. apply elem_of_app. right. apply list_elem_of_here.
  - unfold adds_up. cbn [conflicts_by_pair conflicts_by_path total_expected_conflicts].
    split; [assumption|]. rewrite dict_setdefault_spec.
    destruct (decide _) as [Hin|Hout]; [assumption|].
    rewrite map_app. cbn [map snd pm_expected_conflicts].
    rewrite fsum_snoc, H2, fadd_comm. apply fadd_0_l.
Qed.

Lemma adds_up_scan_students cto plans students_df ids a a' :
  scan_students cto plans students_df ids a = inr a' -> adds_up a -> adds_up a'.
Proof.
  revert a. induction ids as [|sid ids IH]; intros a H Ha.
  - injection H as <-. assumption.
  - cbn [scan_students] in H.
    destruct (scan_student _ _ _ _ _) as [e|a1] eqn:E; cbn in H; [discriminate|].
    apply adds_up_scan_student in E; [|assumption]. apply IH in H; assumption.
Qed.

(** X13.  When float addition is exact, the scores accumulated per
    pair of courses add up to the accumulated global total, and so do
    the expected conflicts accumulated per path: every conflicting pair
    of a student adds its weight once to the total, to one pair and to
    the student's path. *)
Theorem pair_and_path_scores_sum_to_total (schedule_df : list Schedule.row)
    (student_plans_df : list Plan.row) (students_df : list Student.row)
    (a : accumulators) :
  student_scan schedule_df student_plans_df students_df = inr a ->
  fsum (map snd (conflicts_by_pair a)) = total_expected_conflicts a
  /\ fsum (map (fun x => pm_expected_conflicts (snd x)) (conflicts_by_path a))
     = total_expected_conflicts a.
Proof.
  unfold student_scan. intros H.
  apply (adds_up_scan_students _ _ _ _ _ _ H).
  split; unfold fsum; reflexivity.
Qed.

End Breakdown.

Lemma pair_and_path_scores_sum_to_total_witness :
  fsum (map snd (conflicts_by_pair Example.exact_scan))
  = total_expected_conflicts Example.exact_scan
  /\ fsum (map (fun x => pm_expected_conflicts (snd x))
             (conflicts_by_path Example.exact_scan))
     = total_expected_conflicts Example.exact_scan.
Proof.
  apply (pair_and_path_scores_sum_to_total (F := Exact.rationals)
           Qcplus_assoc Qcplus_comm exact_add_0_l
           Example.three_courses Example.exact_plans Example.roster).
  reflexivity.
Defined.

(** ** Columns of the plan table the engine does not read *)

Section PlanColumns.
Context {F : PyFloat}.

Lemma filter_map_comm {A B} (P : B -> Prop) (Q : A -> Prop)
    `{forall x, Decision (P x)} `{forall x, Decision (Q x)} (h : A -> B) (l : list A) :
  (forall x, P (h x) <-> Q x) -> filter P (map h l) = map h (filter Q l).
Proof.
  intros HPQ. induction l as [|x l IH]; [reflexivity|].
  cbn [map]. rewrite !filter_cons.
  destruct (decide (P (h x))) as [HP|HP], (decide (Q x)) as [HQ|HQ];
    cbn [map]; rewrite ?IH; try reflexivity; exfalso; apply HPQ in HP || apply HP, HPQ; tauto.
Qed.

Variable h : Plan.row -> Plan.row.
Hypothesis h_student : forall p, Plan.student_id (h p) = Plan.student_id p.
Hypothesis h_course : forall p, Plan.course_code (h p) = Plan.course_code p.
Hypothesis h_term : forall p, Plan.term (h p) = Plan.term p.

Lemma plans_in_terms_map schedule_df (student_plans_df : list Plan.row) :
  plans_in_terms schedule_df (map h student_plans_df)
  = map h (plans_in_terms schedule_df student_plans_df).
Proof.
  unfold plans_in_terms. apply filter_map_comm. intros p. rewrite h_term. reflexivity.
Qed.

Lemma student_courses_map (plans : list Plan.row) (sid : string) :
  filter (fun p => Plan.student_id p = sid) (map h plans)
  = map h (filter (fun p => Plan.student_id p = sid) plans).
Proof. apply filter_map_comm. intros p. rewrite h_student. reflexivity. Qed.

Lemma student_ids_map (plans : list Plan.row) :
  map Plan.student_id (map h plans) = map Plan.student_id plans.
Proof. rewrite map_map. apply map_ext, h_student. Qed.

(** The offerings a student is scanned on. *)
Lemma scheduled_offerings_map cto (student_courses : list Plan.row) :
  map sc_offering (scheduled_courses cto (map h student_courses))
  = map sc_offering (scheduled_courses cto student_courses).
Proof.
  unfold scheduled_courses.
  induction student_courses as [|p l IH]; [reflexivity|].
  cbn [map flat_map]. rewrite !map_app, IH, h_course.
  destruct (cto !! Plan.course_code p); reflexivity.
Qed.

Hypothesis h_likelihood : forall p, Plan.likelihood (h p) = Plan.likelihood p.

Lemma scheduled_courses_map cto (student_courses : list Plan.row) :
  scheduled_courses cto (map h student_courses) = scheduled_courses cto student_courses.
Proof.
  unfold scheduled_courses.
  induction student_courses as [|p l IH]; [reflexivity|].
  cbn [map flat_map]. rewrite IH, h_course, h_likelihood. reflexivity.
Qed.

Lemma scan_students_map cto (plans : list Plan.row) students_df ids a :
  scan_students cto (map h plans) students_df ids a
  = scan_students cto plans students_df ids a.
Proof.
  revert a. induction ids as [|sid ids IH]; intros a; [reflexivity|].
  cbn [scan_students].
  assert (E : scan_student cto (map h plans) students_df a sid
              = scan_student cto plans students_df a sid).
  { unfold scan_student. rewrite student_courses_map, scheduled_courses_map. reflexivity. }
  rewrite E. destruct (scan_student cto plans students_df a sid); cbn; [reflexivity|apply IH].
Qed.

Lemma calculate_conflicts_map schedule_df (student_plans_df : list Plan.row) students_df :
  calculate_conflicts schedule_df (map h student_plans_df) students_df
  = calculate_conflicts schedule_df student_plans_df students_df.
Proof.
  unfold calculate_conflicts, student_scan.
  rewrite plans_in_terms_map, student_ids_map, scan_students_map. reflexivity.
Qed.

End PlanColumns.

(** X14.  The [path_type] column of the plan table is never read: a
    student's path comes from the roster, and rewriting the column in
    any way changes neither the result nor the exception raised. *)
Theorem plan_path_type_ignored `{F : PyFloat} (g : Plan.row -> string)
    (schedule_df : list Schedule.row) (student_plans_df : list Plan.row)
    (students_df : list Student.row) :
  calculate_conflicts schedule_df (map (with_path g) student_plans_df) students_df
  = calculate_conflicts schedule_df student_plans_df students_df.
Proof. apply calculate_conflicts_map; reflexivity. Qed.

(** ** What the likelihoods do not decide *)

Section Weights.
Context {F : PyFloat}.

Lemma conflicts_with_offerings (c1 c1' : scheduled_course) (rest rest' : list scheduled_course) :
  sc_offering c1 = sc_offering c1' -> map sc_offering rest = map sc_offering rest' ->
  conflicts_with c1 rest = conflicts_with c1' rest'.
Proof.
  intros H1. revert rest'. induction rest as [|c2 rest IH]; intros [|c2' rest'] H;
    try discriminate; [reflexivity|].
  cbn [map] in H. injection H as H2 H. unfold conflicts_with in *. cbn [existsb].
  rewrite (IH rest' H), H1, H2. reflexivity.
Qed.

Lemma any_conflict_offerings (courses courses' : list scheduled_course) :
  map sc_offering courses = map sc_offering courses' ->
  any_conflict courses = any_conflict courses'.
Proof.
  revert courses'. induction courses as [|c1 rest IH]; intros [|c1' rest'] H;
    try discriminate; [reflexivity|].
  cbn [map] in H. injection H as H1 H. cbn [any_conflict].
  rewrite (conflicts_with_offerings c1 c1' rest rest' H1 H), (IH rest' H). reflexivity.
Qed.

Lemma scan_against_fault path_type c1 c1' rest rest' st st' :
  sc_offering c1 = sc_offering c1' -> map sc_offering rest = map sc_offering rest' ->
  fault (scan_against path_type c1 rest st) = fault (scan_against path_type c1' rest' st').
Proof.
  intros H1. revert rest' st st'.
  induction rest as [|c2 rest IH]; intros [|c2' rest'] st st' H;
    try discriminate; [reflexivity|].
  cbn [map] in H. injection H as H2 H. cbn [scan_against]. rewrite H1, H2.
  destruct (offerings_conflict _ _) as [e|c]; cbn; [reflexivity|]. apply IH, H.
Qed.

Lemma scan_pairs_fault path_type courses courses' st st' :
  map sc_offering courses = map sc_offering courses' ->
  fault (scan_pairs path_type courses st) = fault (scan_pairs path_type courses' st').
Proof.
  revert courses' st st'.
  induction courses as [|c1 rest IH]; intros [|c1' rest'] st st' H;
    try discriminate; [reflexivity|].
  cbn [map] in H. injection H as H1 H. cbn [scan_pairs].
  pose proof (scan_against_fault path_type c1 c1' rest rest' st st' H1 H) as Hf.
  destruct (scan_against path_type c1 rest st) as [e|st1],
           (scan_against path_type c1' rest' st') as [e'|st1']; cbn in Hf |- *;
    try discriminate; [exact Hf|]. apply IH, H.
Qed.

Variable h : Plan.row -> Plan.row.
Hypothesis h_student : forall p, Plan.student_id (h p) = Plan.student_id p.
Hypothesis h_course : forall p, Plan.course_code (h p) = Plan.course_code p.
Hypothesis h_term : forall p, Plan.term (h p) = Plan.term p.

Lemma student_offerings_map cto (plans : list Plan.row) (sid : string) :
  map sc_offering
    (scheduled_courses cto (filter (fun p => Plan.student_id p = sid) (map h plans)))
  = map sc_offering
      (scheduled_courses cto (filter (fun p => Plan.student_id p = sid) plans)).
Proof.
  rewrite (student_courses_map h h_student). apply (scheduled_offerings_map h h_course).
Qed.

Lemma scan_student_fault cto (plans : list Plan.row) students_df a a' sid :
  fault (scan_student cto (map h plans) students_df a' sid)
  = fault (scan_student cto plans students_df a sid).
Proof.
  unfold scan_student.
  destruct (iloc0 _) as [e|info]; cbn; [reflexivity|].
  match goal with
  | |- fault (bind ?x _) = fault (bind ?y _) =>
      assert (Hf : fault x = fault y)
        by (apply scan_pairs_fault, student_offerings_map);
      destruct x as [e|[a2 b2]], y as [e'|[a2' b2']]; cbn in Hf |- *;
      try discriminate; [exact Hf|reflexivity]
  end.
Qed.

(** What the scan tells about students, with the weights forgotten. *)
Lemma scan_students_weights cto (plans : list Plan.row) students_df ids a a' :
  students_with_conflict a' = students_with_conflict a ->
  path_sets a' = path_sets a ->
  match scan_students cto plans students_df ids a,
        scan_students cto (map h plans) students_df ids a' with
  | inl e, inl e' => e' = e
  | inr b, inr b' =>
      students_with_conflict b' = students_with_conflict b /\ path_sets b' = path_sets b
  | _, _ => False
  end.
Proof.
  revert a a'. induction ids as [|sid ids IH]; intros a a' H1 H2; [cbn; auto|].
  cbn [scan_students].
  pose proof (scan_student_fault cto plans students_df a a' sid) as Hf.
  destruct (scan_student cto plans students_df a sid) as [e|a1] eqn:E,
           (scan_student cto (map h plans) students_df a' sid) as [e'|a1'] eqn:E';
    cbn in Hf |- *; try discriminate; [congruence|].
  apply scan_student_students in E as (p & Hp & E1 & E2).
  apply scan_student_students in E' as (p' & Hp' & E1' & E2').
  assert (p' = p) as -> by congruence.
  rewrite (any_conflict_offerings _ _ (student_offerings_map cto plans sid)) in E1', E2'.
  rewrite H1 in E1'. rewrite H2 in E2'.
  apply IH; [rewrite E1, E1'|rewrite E2, E2']; reflexivity.
Qed.

Lemma head_count_format (students_df : list Student.row) (d : list (string * path_metrics)) :
  map head_count (map (format_path students_df) d)
  = map (fun x => head_count
                    (format_path students_df
                       (fst x, {| pm_expected_conflicts := fzero;
                                  pm_students_with_conflict := snd x |})))
      (map (prod_map id pm_students_with_conflict) d).
Proof. rewrite !map_map. apply map_ext. intros [q m]. reflexivity. Qed.

Lemma head_count_by_path (students_df : list Student.row) (a a' : accumulators) :
  path_sets a' = path_sets a ->
  map head_count (sorted_desc PathEntry.expected_conflicts
                    (map (format_path students_df) (conflicts_by_path a')))
  ≡ₚ map head_count (sorted_desc PathEntry.expected_conflicts
                       (map (format_path students_df) (conflicts_by_path a))).
Proof.
  intros H. rewrite !sorted_desc_perm, !head_count_format.
  unfold path_sets in H. rewrite H. reflexivity.
Qed.

End Weights.

(** X15.  The likelihoods decide neither whether the call fails nor
    who is counted: with the [likelihood] column rewritten in any way,
    zeros included, [calculate_conflicts] raises the same exception or
    returns the same number of students in conflict, the same overall
    rate and, path by path, the same head counts and rates. *)
Theorem likelihoods_decide_no_count `{F : PyFloat} (g : Plan.row -> float)
    (schedule_df : list Schedule.row) (student_plans_df : list Plan.row)
    (students_df : list Student.row) :
  match calculate_conflicts schedule_df student_plans_df students_df,
        calculate_conflicts schedule_df (map (with_likelihood g) student_plans_df) students_df
  with
  | inl e, inl e' => e' = e
  | inr res, inr res' =>
      Metrics.students_with_conflict (Result.metrics res')
      = Metrics.students_with_conflict (Result.metrics res)
      /\ Metrics.conflict_rate_overall (Result.metrics res')
         = Metrics.conflict_rate_overall (Result.metrics res)
      /\ map head_count (Metrics.by_path_type (Result.metrics res'))
         ≡ₚ map head_count (Metrics.by_path_type (Result.metrics res))
  | _, _ => False
  end.
Proof.
  unfold calculate_conflicts, student_scan.
  rewrite (plans_in_terms_map (with_likelihood g)) by reflexivity.
  rewrite (student_ids_map (with_likelihood g)) by reflexivity.
  pose proof (scan_students_weights (with_likelihood g) ltac:(reflexivity) ltac:(reflexivity)
                (build_lookup schedule_df)
                (plans_in_terms schedule_df student_plans_df) students_df
                (Py.unique (map Plan.student_id
                              (plans_in_terms schedule_df student_plans_df)))
                initial initial eq_refl eq_refl) as Hsim.
  destruct (scan_students _ (plans_in_terms _ _) _ _ _) as [e|a],
           (scan_students _ (map _ _) _ _ _) as [e'|a']; cbn in Hsim |- *;
    try contradiction; [exact Hsim|].
  destruct Hsim as [H1 H2]. rewrite H1.
  destruct (int_truediv _ _) as [e|ratio]; cbn; [reflexivity|].
  split; [reflexivity|split; [reflexivity|]].
  apply head_count_by_path, H2.
Qed.

(** ** Where a [ValueError] comes from *)

Lemma offerings_conflict_fault (o1 o2 : offering) (e : exn) :
  offerings_conflict o1 o2 = inl e ->
  day_patterns_conflict (day_pattern o1) (day_pattern o2) = true
  /\ some_time_malformed o1 o2.
Proof.
  unfold offerings_conflict, some_time_malformed. intros H.
  destruct (day_patterns_conflict _ _); cbn [negb] in H; [|discriminate].
  split; [reflexivity|]. unfold times_overlap in H.
  destruct (time_to_minutes (start_time o1)) as [e1|s1] eqn:E1;
    [pose proof (time_to_minutes_error _ _ E1) as ->; apply Exists_cons_hd, E1|].
  cbn in H. apply Exists_cons_tl.
  destruct (time_to_minutes (end_time o1)) as [e2|s2] eqn:E2;
    [pose proof (time_to_minutes_error _ _ E2) as ->; apply Exists_cons_hd, E2|].
  cbn in H. apply Exists_cons_tl.
  destruct (time_to_minutes (start_time o2)) as [e3|s3] eqn:E3;
    [pose proof (time_to_minutes_error _ _ E3) as ->; apply Exists_cons_hd, E3|].
  cbn in H. apply Exists_cons_tl.
  destruct (time_to_minutes (end_time o2)) as [e4|s4] eqn:E4;
    [pose proof (time_to_minutes_error _ _ E4) as ->; apply Exists_cons_hd, E4|].
  discriminate H.
Qed.

Section ValueErrors.
Context {F : PyFloat}.

Lemma scan_against_fault_pair path_type c1 rest st e :
  scan_against path_type c1 rest st = inl e ->
  exists l2 c2 l3,
    rest = l2 ++ c2 :: l3
    /\ offerings_conflict (sc_offering c1) (sc_offering c2) = inl e.
Proof.
  revert st. induction rest as [|c2 rest IH]; intros st H; [discriminate|].
  cbn [scan_against] in H.
  destruct (offerings_conflict _ _) as [e'|c] eqn:E; cbn in H.
  - injection H as ->. exists [], c2, rest. split; [reflexivity|assumption].
  - apply IH in H as (l2 & c3 & l3 & -> & Hc). exists (c2 :: l2), c3, l3.
    split; [reflexivity|assumption].
Qed.

Lemma scan_pairs_fault_pair path_type courses st e :
  scan_pairs path_type courses st = inl e ->
  exists l1 c1 l2 c2 l3,
    courses = l1 ++ c1 :: l2 ++ c2 :: l3
    /\ offerings_conflict (sc_offering c1) (sc_offering c2) = inl e.
Proof.
  revert st. induction courses as [|c1 rest IH]; intros st H; [discriminate|].
  cbn [scan_pairs] in H.
  destruct (scan_against _ _ _ _) as [e'|st1] eqn:E; cbn in H.
  - injection H as ->. apply scan_against_fault_pair in E as (l2 & c2 & l3 & -> & Hc).
    exists [], c1, l2, c2, l3. split; [reflexivity|assumption].
  - apply IH in H as (l1 & c2 & l2 & c3 & l3 & -> & Hc).
    exists (c1 :: l1), c2, l2, c3, l3. split; [reflexivity|assumption].
Qed.

(** The plan row behind an element of [student_scheduled_courses]. *)
Lemma scheduled_courses_split cto (student_courses : list Plan.row)
    (l1 l2 : list scheduled_course) (c : scheduled_course) :
  scheduled_courses cto student_courses = l1 ++ c :: l2 ->
  exists before p after,
    student_courses = before ++ p :: after
    /\ cto !! Plan.course_code p = Some (sc_offering c)
    /\ scheduled_courses cto after = l2.
Proof.
  unfold scheduled_courses. revert l1. induction student_courses as [|p l IH]; intros l1 H.
  - destruct l1; discriminate.
  - cbn [flat_map] in H.
    destruct (cto !! Plan.course_code p) as [o|] eqn:E; cbn [app] in H.
    + destruct l1 as [|x l1]; cbn [app] in H; injection H as Hc H.
      * exists [], p, l. subst c. cbn [sc_offering]. auto.
      * apply IH in H as (before & q & after & -> & Hq & Hafter).
        exists (p :: before), q, after. auto.
    + apply IH in H as (before & q & after & -> & Hq & Hafter).
      exists (p :: before), q, after. auto.
Qed.

Lemma filter_split {A} (P : A -> Prop) `{forall x, Decision (P x)} (l l1 l2 : list A) (x : A) :
  filter P l = l1 ++ x :: l2 ->
  exists before after, l = before ++ x :: after /\ P x /\ filter P after = l2.
Proof.
  revert l1. induction l as [|y l IH]; intros l1 Hf.
  - destruct l1; discriminate.
  - rewrite filter_cons in Hf. destruct (decide (P y)) as [Hy|Hy].
    + destruct l1 as [|z l1]; cbn [app] in Hf; injection Hf as Hz Hf.
      * exists [], l. subst y. auto.
      * apply IH in Hf as (before & after & -> & Hx & Hafter).
        exists (y :: before), after. auto.
    + apply IH in Hf as (before & after & -> & Hx & Hafter).
      exists (y :: before), after. auto.
Qed.

Lemma scan_student_value_error cto plans students_df a sid :
  scan_student cto plans students_df a sid = inl ValueError ->
  exists before p1 between p2 after o1 o2,
    plans = before ++ p1 :: between ++ p2 :: after
    /\ Plan.student_id p1 = sid /\ Plan.student_id p2 = sid
    /\ cto !! Plan.course_code p1 = Some o1 /\ cto !! Plan.course_code p2 = Some o2
    /\ offerings_conflict o1 o2 = inl ValueError.
Proof.
  unfold scan_student. intros H.
  destruct (filter _ students_df) as [|info sel]; cbn in H; [discriminate|].
  destruct (scan_pairs _ _ _) as [e|[a2 b2]] eqn:E; cbn in H; [|discriminate].
  injection H as ->. apply scan_pairs_fault_pair in E as (l1 & c1 & l2 & c2 & l3 & E & Hc).
  apply scheduled_courses_split in E as (b1 & p1 & a1 & E1 & Ho1 & E).
  apply scheduled_courses_split in E as (b2 & p2 & a2' & E2 & Ho2 & _).
  apply filter_split in E1 as (before & rest & -> & Hs1 & E1).
  rewrite E2 in E1. apply filter_split in E1 as (between & after & -> & Hs2 & _).
  exists before, p1, between, p2, after, (sc_offering c1), (sc_offering c2). auto 10.
Qed.

Lemma scan_students_value_error cto plans students_df ids a :
  scan_students cto plans students_df ids a = inl ValueError ->
  exists before p1 between p2 after o1 o2,
    plans = before ++ p1 :: between ++ p2 :: after
    /\ Plan.student_id p1 = Plan.student_id p2
    /\ cto !! Plan.course_code p1 = Some o1 /\ cto !! Plan.course_code p2 = Some o2
    /\ offerings_conflict o1 o2 = inl ValueError.
Proof.
  revert a. induction ids as [|sid ids IH]; intros a H; [discriminate|].
  cbn [scan_students] in H.
  destruct (scan_student cto plans students_df a sid) as [e|a1] eqn:E; cbn in H.
  - injection H as ->.
    apply scan_student_value_error in E
      as (before & p1 & between & p2 & after & o1 & o2 & H1 & H2 & H3 & H4 & H5 & H6).
    exists before, p1, between, p2, after, o1, o2. repeat split; try assumption. congruence.
  - apply IH in H. exact H.
Qed.

End ValueErrors.

(** X16.  Times are parsed late: [calculate_conflicts] raises
    [ValueError] only when one student has two distinct kept plan rows,
    the first before the second, on scheduled courses whose day patterns
    share a day and one of whose four times is malformed.  A malformed
    time on an offering that no student combines in this way with
    another of their rows goes unnoticed. *)
Theorem value_error_needs_a_shared_day `{F : PyFloat} (schedule_df : list Schedule.row)
    (student_plans_df : list Plan.row) (students_df : list Student.row) :
  calculate_conflicts schedule_df student_plans_df students_df = inl ValueError ->
  exists before p1 between p2 after o1 o2,
    plans_in_terms schedule_df student_plans_df = before ++ p1 :: between ++ p2 :: after
    /\ Plan.student_id p1 = Plan.student_id p2
    /\ build_lookup schedule_df !! Plan.course_code p1 = Some o1
    /\ build_lookup schedule_df !! Plan.course_code p2 = Some o2
    /\ day_patterns_conflict (day_pattern o1) (day_pattern o2) = true
    /\ some_time_malformed o1 o2.
Proof.
  intros H. apply calculate_conflicts_error in H as [H|[? _]]; [|discriminate].
  unfold student_scan in H.
  apply scan_students_value_error in H
    as (before & p1 & between & p2 & after & o1 & o2 & H1 & H2 & H3 & H4 & H5).
  apply offerings_conflict_fault in H5 as [H5 H6].
  exists before, p1, between, p2, after, o1, o2. auto 10.
Qed.

Lemma value_error_needs_a_shared_day_witness :
  exists before p1 between p2 after o1 o2,
    plans_in_terms Example.late_courses Example.overlap_plans
    = before ++ p1 :: between ++ p2 :: after
    /\ Plan.student_id p1 = Plan.student_id p2
    /\ build_lookup Example.late_courses !! Plan.course_code p1 = Some o1
    /\ build_lookup Example.late_courses !! Plan.course_code p2 = Some o2
    /\ day_patterns_conflict (day_pattern o1) (day_pattern o2) = true
    /\ some_time_malformed o1 o2.
Proof.
  apply (value_error_needs_a_shared_day Example.late_courses Example.overlap_plans
           Example.roster).
  reflexivity.
Defined.

(** ** Two plan rows for one course *)

Section Duplicates.
Context {F : PyFloat}.

Lemma any_conflict_split (l1 l2 l3 : list scheduled_course) (c1 c2 : scheduled_course) :
  offerings_conflict (sc_offering c1) (sc_offering c2) = inr true ->
  any_conflict (l1 ++ c1 :: l2 ++ c2 :: l3) = true.
Proof.
  intros Hc. induction l1 as [|x l1 IH]; cbn [app any_conflict].
  - apply orb_true_intro. left. unfold conflicts_with.
    rewrite existsb_app. cbn [existsb]. rewrite Hc. cbn. apply orb_true_r.
  - rewrite IH. apply orb_true_r.
Qed.

Lemma scheduled_courses_app cto (l1 l2 : list Plan.row) :
  scheduled_courses cto (l1 ++ l2) = scheduled_courses cto l1 ++ scheduled_courses cto l2.
Proof. unfold scheduled_courses. apply flat_map_app. Qed.

Lemma scheduled_courses_cons cto (p : Plan.row) (l : list Plan.row) :
  scheduled_courses cto (p :: l)
  = match cto !! Plan.course_code p with
    | Some o => [ {| sc_course_code := Plan.course_code p;
                     sc_likelihood := Plan.likelihood p;
                     sc_offering := o |} ]
    | None => []
    end ++ scheduled_courses cto l.
Proof. reflexivity. Qed.

(** Two kept plan rows of one student, on scheduled courses whose
    offerings conflict, put the student in conflict. *)
Lemma conflicted_split (schedule_df : list Schedule.row) (student_plans_df : list Plan.row)
    (before between after : list Plan.row) (p p' : Plan.row) (o o' : offering) :
  plans_in_terms schedule_df student_plans_df = before ++ p :: between ++ p' :: after ->
  Plan.student_id p' = Plan.student_id p ->
  build_lookup schedule_df !! Plan.course_code p = Some o ->
  build_lookup schedule_df !! Plan.course_code p' = Some o' ->
  offerings_conflict o o' = inr true ->
  conflicted schedule_df student_plans_df (Plan.student_id p) = true.
Proof.
  intros Hplans Hsid Ho Ho' Hc. unfold conflicted. rewrite Hplans.
  rewrite filter_app, filter_cons, decide_True by reflexivity.
  rewrite filter_app, filter_cons, decide_True by assumption.
  rewrite scheduled_courses_app, scheduled_courses_cons, Ho.
  rewrite scheduled_courses_app, scheduled_courses_cons, Ho'.
  cbn [app]. apply any_conflict_split. exact Hc.
Qed.

End Duplicates.

(** X17.  Plan rows are not deduplicated: a student with two kept plan
    rows for the same scheduled course is compared with that course
    twice and counted in conflict, the course clashing with itself, as
    soon as the offering has a day and starts before it ends. *)
Theorem duplicate_plan_row_conflicts_with_itself `{F : PyFloat}
    (schedule_df : list Schedule.row) (student_plans_df : list Plan.row)
    (students_df : list Student.row) (res : Result.t)
    (before between after : list Plan.row) (p p' : Plan.row) (o : offering) (s e : Z) :
  calculate_conflicts schedule_df student_plans_df students_df = inr res ->
  plans_in_terms schedule_df student_plans_df = before ++ p :: between ++ p' :: after ->
  Plan.student_id p' = Plan.student_id p ->
  Plan.course_code p' = Plan.course_code p ->
  build_lookup schedule_df !! Plan.course_code p = Some o ->
  day_pattern o <> EmptyString ->
  time_to_minutes (start_time o) = inr s ->
  time_to_minutes (end_time o) = inr e ->
  s < e ->
  conflicted schedule_df student_plans_df (Plan.student_id p) = true
  /\ Plan.student_id p ∈ conflicted_students schedule_df student_plans_df
  /\ 1 <= Metrics.students_with_conflict (Result.metrics res).
Proof.
  intros Hres Hplans Hsid Hcode Ho Hday Hs He Hlt.
  assert (Hself : offerings_conflict o o = inr true).
  { unfold offerings_conflict. rewrite day_patterns_conflict_self by assumption.
    cbn [negb]. rewrite (times_overlap_minutes _ _ _ _ s e s e) by assumption.
    unfold ok. f_equal. apply bool_decide_eq_true_2. lia. }
  assert (Hconf : conflicted schedule_df student_plans_df (Plan.student_id p) = true).
  { apply (conflicted_split _ _ before between after p p' o o); try assumption.
    rewrite Hcode. assumption. }
  assert (Hin : Plan.student_id p ∈ conflicted_students schedule_df student_plans_df).
  { unfold conflicted_students. apply list_elem_of_filter. split; [assumption|].
    apply planned_ids. exists p. split; [|reflexivity].
    rewrite Hplans. apply elem_of_app. right. apply list_elem_of_here. }
  split; [assumption|split; [assumption|]].
  rewrite (students_with_conflict_count _ _ _ _ Hres). unfold len.
  destruct (conflicted_students schedule_df student_plans_df); [inversion Hin|].
  cbn [length]. lia.
Qed.

Lemma duplicate_plan_row_conflicts_with_itself_witness :
  conflicted Example.two_courses Example.duplicate_plans "s1" = true
  /\ "s1" ∈ conflicted_students Example.two_courses Example.duplicate_plans.
Proof.
  destruct (calculate_conflicts Example.two_courses Example.duplicate_plans Example.roster)
    as [x|res] eqn:E; [discriminate E|].
  destruct (duplicate_plan_row_conflicts_with_itself Example.two_courses
              Example.duplicate_plans Example.roster res [] [] []
              (Example.plan "s1" "ECI 130" (Example.dec 8 1))
              (Example.plan "s1" "ECI 130" (Example.dec 8 1))
              {| day_pattern := "MW"; start_time := "10:00"; end_time := "11:00";
                 term := "2026FA" |} 600 660) as (H1 & H2 & _);
    try reflexivity; [exact E|discriminate|exact (conj H1 H2)].
Defined.

(** ** Every conflicting pair is recorded *)

Section Recorded.
Context {F : PyFloat}.

Lemma add_score_grows {K} `{EqDecision K} (d : list (K * float)) (k : K) (w : float) :
  map fst d ⊆ map fst (add_score d k w) /\ k ∈ map fst (add_score d k w).
Proof.
  rewrite add_score_keys. destruct (decide (k ∈ map fst d)) as [Hin|Hout].
  - split; [reflexivity|assumption].
  - split; [intros x Hx; apply elem_of_app; auto|].
    apply elem_of_app. right. apply list_elem_of_here.
Qed.

Lemma grows_refl a : grows a a.
Proof. split; reflexivity. Qed.

Lemma grows_trans a1 a2 a3 : grows a1 a2 -> grows a2 a3 -> grows a1 a3.
Proof. intros [H1 H2] [H3 H4]. split; etransitivity; eassumption. Qed.

Lemma recorded_grows c1 c2 a a' : grows a a' -> recorded c1 c2 a -> recorded c1 c2 a'.
Proof. intros [H1 H2] (H3 & H4 & H5). repeat split; auto. Qed.

Lemma record_conflict_grows path_type c1 c2 a :
  grows a (record_conflict path_type c1 c2 a)
  /\ recorded (sc_course_code c1) (sc_course_code c2) (record_conflict path_type c1 c2 a).
Proof.
  unfold grows, recorded, record_conflict. cbn [conflicts_by_pair conflicts_by_course].
  set (w := fmul _ _).
  destruct (add_score_grows (conflicts_by_pair a)
              (Py.sorted_pair (sc_course_code c1) (sc_course_code c2)) w) as [P1 P2].
  destruct (add_score_grows (conflicts_by_course a) (sc_course_code c1) w) as [C1 C2].
  destruct (add_score_grows (add_score (conflicts_by_course a) (sc_course_code c1) w)
              (sc_course_code c2) w) as [C3 C4].
  repeat split; auto. etransitivity; eassumption.
Qed.

Lemma scan_against_grows path_type c1 rest a b a' b' :
  scan_against path_type c1 rest (a, b) = inr (a', b') -> grows a a'.
Proof.
  revert a b. induction rest as [|c2 rest IH]; intros a b H.
  - injection H as <- <-. apply grows_refl.
  - cbn [scan_against] in H.
    destruct (offerings_conflict _ _) as [e|[|]]; cbn in H; [discriminate| |].
    + apply IH in H. eapply grows_trans; [apply record_conflict_grows|exact H].
    + apply IH in H. exact H.
Qed.

Lemma scan_against_records path_type c1 l2 c2 l3 a b a' b' :
  scan_against path_type c1 (l2 ++ c2 :: l3) (a, b) = inr (a', b') ->
  offerings_conflict (sc_offering c1) (sc_offering c2) = inr true ->
  recorded (sc_course_code c1) (sc_course_code c2) a'.
Proof.
  intros H Hc. revert a b H. induction l2 as [|x l2 IH]; intros a b H.
  - cbn [app scan_against] in H. rewrite Hc in H. cbn in H.
    apply scan_against_grows in H.
    eapply recorded_grows; [exact H|apply record_conflict_grows].
  - cbn [app scan_against] in H.
    destruct (offerings_conflict _ (sc_offering x)) as [e|[|]]; cbn in H; [discriminate| |];
      apply IH in H; exact H.
Qed.

Lemma scan_pairs_grows path_type courses a b a' b' :
  scan_pairs path_type courses (a, b) = inr (a', b') -> grows a a'.
Proof.
  revert a b. induction courses as [|c1 rest IH]; intros a b H.
  - injection H as <- <-. apply grows_refl.
  - cbn [scan_pairs] in H.
    destruct (scan_against _ _ _ _) as [e|[a1 b1]] eqn:E; cbn in H; [discriminate|].
    apply scan_against_grows in E. apply IH in H. eapply grows_trans; eassumption.
Qed.

Lemma scan_pairs_records path_type l1 c1 l2 c2 l3 a b a' b' :
  scan_pairs path_type (l1 ++ c1 :: l2 ++ c2 :: l3) (a, b) = inr (a', b') ->
  offerings_conflict (sc_offering c1) (sc_offering c2) = inr true ->
  recorded (sc_course_code c1) (sc_course_code c2) a'.
Proof.
  intros H Hc. revert a b H. induction l1 as [|x l1 IH]; intros a b H.
  - cbn [app scan_pairs] in H.
    destruct (scan_against _ _ _ _) as [e|[a1 b1]] eqn:E; cbn in H; [discriminate|].
    apply scan_against_records in E; [|assumption].
    apply scan_pairs_grows in H. eapply recorded_grows; eassumption.
  - cbn [app scan_pairs] in H.
    destruct (scan_against _ _ _ _) as [e|[a1 b1]] eqn:E; cbn in H; [discriminate|].
    apply IH in H. exact H.
Qed.

Lemma scan_student_grows cto plans students_df a sid a' :
  scan_student cto plans students_df a sid = inr a' -> grows a a'.
Proof.
  unfold scan_student. intros H.
  destruct (iloc0 _) as [e|info]; cbn in H; [discriminate|].
  destruct (scan_pairs _ _ _) as [e|[a2 b2]] eqn:E; cbn in H; [discriminate|].
  apply scan_pairs_grows in E. injection H as <-. destruct b2; exact E.
Qed.

Lemma scan_student_records cto (plans before between after : list Plan.row)
    (p p' : Plan.row) (o o' : offering) students_df a a' :
  plans = before ++ p :: between ++ p' :: after ->
  Plan.student_id p' = Plan.student_id p ->
  cto !! Plan.course_code p = Some o ->
  cto !! Plan.course_code p' = Some o' ->
  offerings_conflict o o' = inr true ->
  scan_student cto plans students_df a (Plan.student_id p) = inr a' ->
  recorded (Plan.course_code p) (Plan.course_code p') a'.
Proof.
  intros -> Hsid Ho Ho' Hc. unfold scan_student. intros H.
  destruct (iloc0 _) as [e|info]; cbn in H; [discriminate|].
  destruct (scan_pairs _ _ _) as [e|[a2 b2]] eqn:E; cbn in H; [discriminate|].
  rewrite filter_app, filter_cons, decide_True in E by reflexivity.
  rewrite filter_app, filter_cons, decide_True in E by assumption.
  rewrite scheduled_courses_app, scheduled_courses_cons, Ho in E.
  rewrite scheduled_courses_app, scheduled_courses_cons, Ho' in E.
  cbn [app] in E. apply scan_pairs_records in E; [|exact Hc]. cbn in E.
  injection H as <-. destruct b2; exact E.
Qed.

Lemma scan_students_grows cto plans students_df ids a a' :
  scan_students cto plans students_df ids a = inr a' -> grows a a'.
Proof.
  revert a. induction ids as [|sid ids IH]; intros a H.
  - injection H as <-. apply grows_refl.
  - cbn [scan_students] in H.
    destruct (scan_student _ _ _ _ _) as [e|a1] eqn:E; cbn in H; [discriminate|].
    apply scan_student_grows in E. apply IH in H. eapply grows_trans; eassumption.
Qed.

Lemma scan_students_records cto (plans before between after : list Plan.row)
    (p p' : Plan.row) (o o' : offering) students_df ids a a' :
  plans = before ++ p :: between ++ p' :: after ->
  Plan.student_id p' = Plan.student_id p ->
  cto !! Plan.course_code p = Some o ->
  cto !! Plan.course_code p' = Some o' ->
  offerings_conflict o o' = inr true ->
  Plan.student_id p ∈ ids ->
  scan_students cto plans students_df ids a = inr a' ->
  recorded (Plan.course_code p) (Plan.course_code p') a'.
Proof.
  intros Hplans Hsid Ho Ho' Hc Hin. revert a.
  induction ids as [|sid ids IH]; intros a H; [inversion Hin|].
  cbn [scan_students] in H.
  destruct (scan_student _ _ _ _ _) as [e|a1] eqn:E; cbn in H; [discriminate|].
  destruct (decide (sid = Plan.student_id p)) as [->|Hne].
  - eapply scan_student_records in E; try eassumption.
    apply scan_students_grows in H. eapply recorded_grows; eassumption.
  - apply elem_of_cons in Hin as [?|Hin]; [congruence|]. apply (IH Hin a1 H).
Qed.

Lemma top10_all {K} (d : list (K * float)) :
  (length d <= 10)%nat -> forall x, x ∈ d -> x ∈ top10 d.
Proof.
  intros Hlen x Hx. unfold top10. rewrite take_ge.
  - apply elem_of_sorted_desc, Hx.
  - rewrite sorted_desc_perm. exact Hlen.
Qed.

End Recorded.

(** X18.  No conflict is lost: when two kept plan rows of one student
    name scheduled courses whose offerings conflict, the scan leaves a
    bucket for the sorted pair of their codes and a bucket for each of
    the two courses; the pair is an entry of [top_conflicting_pairs]
    unless that list is full. *)
Theorem conflicting_pair_is_recorded `{F : PyFloat} (schedule_df : list Schedule.row)
    (student_plans_df : list Plan.row) (students_df : list Student.row)
    (a : accumulators) (res : Result.t)
    (before between after : list Plan.row) (p p' : Plan.row) (o o' : offering) :
  student_scan schedule_df student_plans_df students_df = inr a ->
  calculate_conflicts schedule_df student_plans_df students_df = inr res ->
  plans_in_terms schedule_df student_plans_df = before ++ p :: between ++ p' :: after ->
  Plan.student_id p' = Plan.student_id p ->
  build_lookup schedule_df !! Plan.course_code p = Some o ->
  build_lookup schedule_df !! Plan.course_code p' = Some o' ->
  offerings_conflict o o' = inr true ->
  Py.sorted_pair (Plan.course_code p) (Plan.course_code p') ∈ map fst (conflicts_by_pair a)
  /\ Plan.course_code p ∈ map fst (conflicts_by_course a)
  /\ Plan.course_code p' ∈ map fst (conflicts_by_course a)
  /\ ((length (Metrics.top_conflicting_pairs (Result.metrics res)) < 10)%nat ->
      Py.sorted_pair (Plan.course_code p) (Plan.course_code p')
      ∈ map (fun e => (PairEntry.course_a e, PairEntry.course_b e))
          (Metrics.top_conflicting_pairs (Result.metrics res))).
Proof.
  intros Hscan Hres Hplans Hsid Ho Ho' Hc.
  assert (Hrec : recorded (Plan.course_code p) (Plan.course_code p') a).
  { unfold student_scan in Hscan.
    eapply scan_students_records; try eassumption.
    apply planned_ids. exists p. split; [|reflexivity].
    rewrite Hplans. apply elem_of_app. right. apply list_elem_of_here. }
  destruct Hrec as (H1 & H2 & H3). repeat split; try assumption.
  unfold calculate_conflicts in Hres. rewrite Hscan in Hres. cbn in Hres.
  destruct (int_truediv _ _) as [?|ratio]; [discriminate|]. cbn in Hres.
  injection Hres as <-. cbn [Result.metrics Metrics.top_conflicting_pairs].
  rewrite length_map. intros Hlen.
  assert (Hd : (length (conflicts_by_pair a) <= 10)%nat).
  { unfold top10 in Hlen. rewrite length_take in Hlen.
    rewrite (Permutation_length (sorted_desc_perm snd (conflicts_by_pair a))) in Hlen. lia. }
  apply list_elem_of_In, in_map_iff in H1 as ([k w] & Hk & Hin). cbn [fst] in Hk. subst k.
  apply list_elem_of_In, (top10_all _ Hd) in Hin.
  apply list_elem_of_In, in_map_iff. exists (format_pair (Py.sorted_pair
    (Plan.course_code p) (Plan.course_code p'), w)).
  split; [destruct (Py.sorted_pair _ _); reflexivity|].
  apply in_map, list_elem_of_In, Hin.
Qed.

Lemma conflicting_pair_is_recorded_witness :
  Py.sorted_pair "A" "B" ∈ map fst (conflicts_by_pair Example.tenths_scan)
  /\ "A" ∈ map fst (conflicts_by_course Example.tenths_scan)
  /\ "B" ∈ map fst (conflicts_by_course Example.tenths_scan).
Proof.
  destruct (calculate_conflicts Example.three_courses
              (Example.three_plans (Example.dec 1 1) (Example.dec 2 1) (Example.dec 10 1))
              Example.roster) as [x|res] eqn:E; [discriminate E|].
  destruct (conflicting_pair_is_recorded Example.three_courses
              (Example.three_plans (Example.dec 1 1) (Example.dec 2 1) (Example.dec 10 1))
              Example.roster Example.tenths_scan res
              [] [] [Example.plan "s1" "C" (Example.dec 10 1)]
              (Example.plan "s1" "A" (Example.dec 1 1))
              (Example.plan "s1" "B" (Example.dec 2 1))
              {| day_pattern := "MW"; start_time := "10:00"; end_time := "11:00";
                 term := "2026FA" |}
              {| day_pattern := "MW"; start_time := "10:30"; end_time := "11:30";
                 term := "2026FA" |}) as (H1 & H2 & H3 & _);
    try reflexivity; [exact E|exact (conj H1 (conj H2 H3))].
Defined.

(** ** Head counts per path *)

Lemma zsum_perm (l l' : list Z) : l ≡ₚ l' -> zsum l = zsum l'.
Proof. unfold zsum. induction 1; cbn [foldr]; lia. Qed.

(** Among distinct keys, exactly one is the key looked for. *)
Lemma zsum_indicator (keys : list string) (q0 : string) :
  NoDup keys -> q0 ∈ keys ->
  zsum (map (fun q => if decide (q0 = q) then 1 else 0) keys) = 1.
Proof.
  unfold zsum. induction 1 as [|q keys Hq Hnd IH]; intros Hin; [inversion Hin|].
  cbn [map foldr]. destruct (decide (q0 = q)) as [->|Hne].
  - assert (E : foldr Z.add 0 (map (fun q' => if decide (q = q') then 1 else 0) keys) = 0).
    { clear IH Hin Hnd. induction keys as [|k keys IH]; [reflexivity|].
      apply not_elem_of_cons in Hq as [Hk Hq]. cbn [map foldr].
      rewrite decide_False, IH by assumption. reflexivity. }
    rewrite E. reflexivity.
  - apply elem_of_cons in Hin as [?|Hin]; [congruence|]. rewrite IH by assumption.
    reflexivity.
Qed.

Lemma zsum_add {A} (f g : A -> Z) (l : list A) :
  zsum (map (fun x => f x + g x) l) = zsum (map f l) + zsum (map g l).
Proof. unfold zsum. induction l as [|x l IH]; cbn [map foldr]; lia. Qed.

Lemma zsum_zero {A} (l : list A) : zsum (map (fun _ => 0) l) = 0.
Proof. unfold zsum. induction l as [|x l IH]; cbn [map foldr]; lia. Qed.

(** Students that all have a path among [keys] split into the
    cohorts of these paths. *)
Lemma cohorts_partition (conf : string -> bool) (path : string -> option string)
    (keys done : list string) :
  NoDup keys ->
  (forall x, x ∈ done -> exists q, path x = Some q /\ q ∈ keys) ->
  zsum (map (fun q => Z.of_nat (length (filter (fun x => conf x = true /\ path x = Some q)
                                          done))) keys)
  = Z.of_nat (length (filter (fun x => conf x = true) done)).
Proof.
  intros Hnd. induction done as [|x done IH]; intros Hcov.
  - cbn. apply zsum_zero.
  - assert (IH' := IH (fun y Hy => Hcov y (list_elem_of_further _ _ _ Hy))). clear IH.
    destruct (Hcov x (list_elem_of_here _ _)) as (q0 & Hq0 & Hin).
    rewrite (filter_cons (fun x => conf x = true)).
    rewrite (map_ext _ (fun q => (if decide (conf x = true)
                                   then (if decide (q0 = q) then 1 else 0) else 0)
                                  + Z.of_nat (length (filter
                                      (fun x => conf x = true /\ path x = Some q) done)))).
    + rewrite zsum_add, IH'. destruct (decide (conf x = true)).
      * rewrite zsum_indicator by assumption. cbn [length]. lia.
      * rewrite zsum_zero. lia.
    + intros q. rewrite filter_cons.
      destruct (decide (conf x = true)) as [Hc|Hc].
      * destruct (decide (q0 = q)) as [->|Hne].
        -- rewrite decide_True by auto. cbn [length]. lia.
        -- rewrite decide_False by (intros [_ ?]; congruence). lia.
      * rewrite decide_False by tauto. lia.
Qed.

Section HeadCounts.
Context {F : PyFloat}.

(** The students of a path in conflict are not more than its roster
    rows. *)
Lemma conflicted_in_path_le (schedule_df : list Schedule.row)
    (student_plans_df : list Plan.row) (students_df : list Student.row) (q : string) :
  (length (conflicted_in_path schedule_df student_plans_df students_df q)
   <= length (filter (fun s => Student.path_type s = q) students_df))%nat.
Proof.
  rewrite <- (length_map Student.student_id (filter _ students_df)).
  apply submseteq_length, NoDup_submseteq.
  - apply NoDup_filter, NoDup_unique.
  - intros sid [[_ Hq] _]%list_elem_of_filter. unfold path_of in Hq.
    destruct (filter (fun s => Student.student_id s = sid) students_df) as [|r l] eqn:E;
      [discriminate|].
    injection Hq as Hq.
    assert (Hr : r ∈ filter (fun s => Student.student_id s = sid) students_df)
      by (rewrite E; apply list_elem_of_here).
    apply list_elem_of_filter in Hr as [<- Hr].
    apply list_elem_of_In, in_map, list_elem_of_In, list_elem_of_filter. auto.
Qed.

(** A path that the roster gives to some student has a roster row. *)
Lemma path_of_row (students_df : list Student.row) (sid q : string) :
  path_of students_df sid = Some q ->
  (1 <= length (filter (fun s => Student.path_type s = q) students_df))%nat.
Proof.
  unfold path_of. intros Hq.
  destruct (filter (fun s => Student.student_id s = sid) students_df) as [|r l] eqn:E;
    [discriminate|].
  injection Hq as Hq.
  assert (Hr : r ∈ filter (fun s => Student.student_id s = sid) students_df)
    by (rewrite E; apply list_elem_of_here).
  apply list_elem_of_filter in Hr as [_ Hr].
  assert (Hr' : r ∈ filter (fun s => Student.path_type s = q) students_df)
    by (apply list_elem_of_filter; auto).
  destruct (filter (fun s => Student.path_type s = q) students_df); [inversion Hr'|].
  cbn [length]. lia.
Qed.

Lemma head_counts_sum (students_df : list Student.row) (d : list (string * path_metrics)) :
  map PathEntry.students_with_conflict
    (sorted_desc PathEntry.expected_conflicts (map (format_path students_df) d))
  ≡ₚ map (fun x => Z.of_nat (size (snd x))) (map (prod_map id pm_students_with_conflict) d).
Proof.
  rewrite sorted_desc_perm, !map_map.
  rewrite (map_ext _ (fun x => Z.of_nat (size (pm_students_with_conflict (snd x)))))
    by (intros [? ?]; reflexivity).
  reflexivity.
Qed.

End HeadCounts.

(** X19.  On a roster without missing cell, every [path_type] a string
    as the model has it: in every entry of [by_path_type] the students
    in conflict are at most the roster rows of the path, of which there
    is at least one, so that the rate is the rounded float and the
    branch giving the integer 0 is not taken.  The head counts of the
    entries add up to the overall [students_with_conflict]. *)
Theorem path_head_counts `{F : PyFloat} (schedule_df : list Schedule.row)
    (student_plans_df : list Plan.row) (students_df : list Student.row) (res : Result.t) :
  calculate_conflicts schedule_df student_plans_df students_df = inr res ->
  Forall (fun e =>
            0 <= PathEntry.students_with_conflict e <= PathEntry.total_students_in_path e
            /\ 1 <= PathEntry.total_students_in_path e
            /\ PathEntry.conflict_rate e
               = Float (round 1 (fmul (truediv (PathEntry.students_with_conflict e)
                                         (PathEntry.total_students_in_path e))
                                   (of_int 100))))
    (Metrics.by_path_type (Result.metrics res))
  /\ zsum (map PathEntry.students_with_conflict (Metrics.by_path_type (Result.metrics res)))
     = Metrics.students_with_conflict (Result.metrics res).
Proof.
  unfold calculate_conflicts. intros H.
  destruct (student_scan _ _ _) as [?|a] eqn:Hscan; [discriminate|]. cbn in H.
  destruct (int_truediv _ _) as [?|ratio]; [discriminate|]. cbn in H.
  injection H as <-.
  cbn [Result.metrics Metrics.by_path_type Metrics.students_with_conflict].
  pose proof (student_scan_paths _ _ _ _ Hscan) as [_ Hkeys].
  pose proof (student_scan_cohorts _ _ _ _ Hscan) as (HS & Hnd & Hsets & Hcov).
  set (ids := Py.unique (map Plan.student_id
                           (plans_in_terms schedule_df student_plans_df))) in *.
  split.
  - apply Forall_forall. intros e He.
    apply elem_of_sorted_desc, list_elem_of_In, in_map_iff in He as ([q pm] & <- & Hin).
    apply list_elem_of_In in Hin.
    assert (Hset : pm_students_with_conflict pm
                   = list_to_set (conflicted_in_path schedule_df student_plans_df
                                    students_df q)).
    { apply Hsets. unfold path_sets. apply list_elem_of_In, in_map_iff.
      exists (q, pm). split; [reflexivity|apply list_elem_of_In, Hin]. }
    assert (Hq : q ∈ map fst (conflicts_by_path a)).
    { apply list_elem_of_In, in_map_iff. exists (q, pm).
      split; [reflexivity|apply list_elem_of_In, Hin]. }
    apply Hkeys in Hq as (p & _ & Hq). apply path_of_row in Hq.
    pose proof (conflicted_in_path_le schedule_df student_plans_df students_df q) as Hle.
    cbn [format_path PathEntry.students_with_conflict PathEntry.total_students_in_path
         PathEntry.conflict_rate].
    rewrite Hset, size_list_to_set by apply NoDup_filter, NoDup_unique.
    unfold len.
    destruct (Z.ltb_spec 0 (Z.of_nat (length (filter (fun s => Student.path_type s = q)
                                                students_df)))); [|lia].
    repeat split; lia.
  - rewrite (zsum_perm _ _ (head_counts_sum students_df (conflicts_by_path a))).
    fold (path_sets a).
    assert (E : map (fun x : string * gset string => Z.of_nat (size (snd x))) (path_sets a)
                = map (fun q => Z.of_nat (length (filter
                         (fun y => conflicted schedule_df student_plans_df y = true
                                   /\ path_of students_df y = Some q) ids)))
                    (map fst (path_sets a))).
    { rewrite map_map. apply map_ext_in. intros [q s] Hin. apply list_elem_of_In in Hin.
      rewrite (Hsets q s Hin). cbn [fst snd].
      rewrite size_list_to_set by apply NoDup_filter, NoDup_unique. reflexivity. }
    rewrite E, (cohorts_partition _ _ _ _ Hnd Hcov), HS.
    rewrite size_list_to_set by apply NoDup_filter, NoDup_unique. reflexivity.
Qed.

Lemma path_head_counts_witness :
  zsum (map PathEntry.students_with_conflict
          (Metrics.by_path_type (Result.metrics Example.two_path_result)))
  = Metrics.students_with_conflict (Result.metrics Example.two_path_result).
Proof.
  apply (path_head_counts Example.two_courses Example.two_path_plans Example.roster
           Example.two_path_result).
  reflexivity.
Defined.

(** ** The terms of the result *)

(** X20.  The [term] field lists the terms of the schedule rows, each
    once, and the plan rows the scan reads are exactly those of a listed
    term. *)
Theorem result_terms `{F : PyFloat} (schedule_df : list Schedule.row)
    (student_plans_df : list Plan.row) (students_df : list Student.row) (res : Result.t) :
  calculate_conflicts schedule_df student_plans_df students_df = inr res ->
  NoDup (Result.term res)
  /\ (forall t, t ∈ Result.term res <-> exists r, r ∈ schedule_df /\ Schedule.term r = t)
  /\ (forall p, p ∈ plans_in_terms schedule_df student_plans_df
                <-> p ∈ student_plans_df /\ Plan.term p ∈ Result.term res).
Proof.
  intros H. apply calculate_conflicts_counts in H as (-> & _ & _).
  split; [apply NoDup_unique|split].
  - intros t. rewrite elem_of_unique, list_elem_of_In, in_map_iff.
    split; intros (r & H1 & H2); exists r; rewrite ?list_elem_of_In in *; auto.
  - intros p. unfold plans_in_terms. rewrite list_elem_of_filter. tauto.
Qed.

Lemma result_terms_witness :
  NoDup (Result.term Example.two_path_result)
  /\ (forall t, t ∈ Result.term Example.two_path_result
                <-> exists r, r ∈ Example.two_courses /\ Schedule.term r = t).
Proof.
  destruct (result_terms Example.two_courses Example.two_path_plans Example.roster
              Example.two_path_result) as (H1 & H2 & _); [reflexivity|].
  exact (conj H1 H2).
Defined.

(** ** Ties *)

Section Ties.
Context {F : PyFloat}.

(** Sorting a list that is already ranked changes nothing: equal
    scores keep their order. *)
Lemma sorted_desc_ranked {A} (key : A -> float) (l : list A) :
  non_increasing key l -> sorted_desc key l = l.
Proof.
  unfold non_increasing, sorted_desc. induction 1 as [|x l Hl IH Hx]; [reflexivity|].
  cbn [foldr]. rewrite IH. destruct l as [|y l']; [reflexivity|].
  cbn [insert_desc]. apply Forall_cons in Hx as [Hy _]. rewrite Hy. reflexivity.
Qed.

End Ties.

Lemma dyadic_scan_computed :
  student_scan Example.three_courses
    (Example.three_plans (Example.dec 5 1) (Example.dec 5 1) (Example.dec 25 2))
    Example.roster
  = inr Example.dyadic_scan.
Proof. reflexivity. Qed.

(** X21.  Ties are broken by age: when the scores of a dictionary are
    already in descending order, equal scores included, the emitted list
    follows the order in which the scan created the buckets, and the top
    lists are the first ten buckets. *)
Theorem ranked_buckets_keep_their_order `{F : PyFloat} (schedule_df : list Schedule.row)
    (student_plans_df : list Plan.row) (students_df : list Student.row)
    (a : accumulators) (res : Result.t) :
  student_scan schedule_df student_plans_df students_df = inr a ->
  calculate_conflicts schedule_df student_plans_df students_df = inr res ->
  (non_increasing snd (conflicts_by_pair a) ->
   Metrics.top_conflicting_pairs (Result.metrics res)
   = map format_pair (take 10 (conflicts_by_pair a)))
  /\ (non_increasing snd (conflicts_by_course a) ->
      Metrics.top_conflicting_courses (Result.metrics res)
      = map format_course (take 10 (conflicts_by_course a)))
  /\ (non_increasing PathEntry.expected_conflicts
        (map (format_path students_df) (conflicts_by_path a)) ->
      Metrics.by_path_type (Result.metrics res)
      = map (format_path students_df) (conflicts_by_path a)).
Proof.
  unfold calculate_conflicts. intros Hscan H. rewrite Hscan in H. cbn in H.
  destruct (int_truediv _ _) as [?|ratio]; [discriminate|]. cbn in H.
  injection H as <-.
  cbn [Result.metrics Metrics.top_conflicting_pairs Metrics.top_conflicting_courses
       Metrics.by_path_type].
  unfold top10. repeat split; intros Hr; rewrite (sorted_desc_ranked _ _ Hr); reflexivity.
Qed.

Lemma ranked_buckets_keep_their_order_witness :
  Metrics.top_conflicting_pairs (Result.metrics Example.dyadic_result)
  = map format_pair (take 10 (conflicts_by_pair Example.dyadic_scan))
  /\ Metrics.top_conflicting_courses (Result.metrics Example.dyadic_result)
     = map format_course (take 10 (conflicts_by_course Example.dyadic_scan)).
Proof.
  destruct (ranked_buckets_keep_their_order Example.three_courses
              (Example.three_plans (Example.dec 5 1) (Example.dec 5 1) (Example.dec 25 2))
              Example.roster Example.dyadic_scan Example.dyadic_result)
    as (H1 & H2 & _); try reflexivity.
  split; [apply H1|apply H2]; repeat constructor.
Defined.
